(** * CareSync chat service: search tools and tool-orchestration loop

    A shallow embedding of [models.py], [tools.py] and [main.py].

    Conventions of the embedding.
    - A Python call that may raise returns an [outcome]: [Returned v] or
      [Raised e].  Code outside a [try] propagates [Raised]; a [try/except]
      matches on it.
    - JSON records are typed as [models.py] declares them; a field the code
      reads with [.get] is an [option].
    - Means of ratings are exact rationals ([Q]).  The arithmetic of
      [float] and the functions of [math] that the geographic filter calls
      are collected in the class [PyFloat]; [math.sqrt] raises on a negative
      argument, so the distance computation is fallible.  [exact] is the
      instance without rounding, the real numbers.
    - The behaviour of the interpreter and of the libraries the code calls
      ([str.lower], [rapidfuzz.fuzz.ratio], the iteration order of a [set])
      is collected in the class [PyRuntime]. *)

From Stdlib Require Import ZArith QArith Qreals Reals String Ascii List.
From Stdlib Require Import Permutation Sorted Lia Lra Bool.
From stdpp Require Import base option list sorting gmap strings pretty.

Local Open Scope string_scope.
Local Open Scope Z_scope.
Local Open Scope list_scope.

(** ** Exceptions *)

Inductive exn : Type :=
| KeyError
| TypeError
| HTTPError (detail : string)
| JSONDecodeError
| ValueError.

Inductive outcome (A : Type) : Type :=
| Returned (a : A)
| Raised (e : exn).
Arguments Returned {A} a.
Arguments Raised {A} e.

#[global] Instance outcome_ret : MRet outcome := fun A a => Returned a.
#[global] Instance outcome_bind : MBind outcome := fun A B f m =>
  match m with
  | Returned a => f a
  | Raised e => Raised e
  end.

(** [try: m except Exception: h] *)
Definition try_except {A} (m : outcome A) (h : exn -> A) : A :=
  match m with
  | Returned a => a
  | Raised e => h e
  end.

Fixpoint for_each {A B} (f : A -> outcome B) (l : list A) : outcome (list B) :=
  match l with
  | [] => Returned []
  | x :: l' => y ← f x; ys ← for_each f l'; Returned (y :: ys)
  end.

(** ** Python truthiness, slices, sorting *)

Definition truthy_str (o : option string) : bool :=
  match o with
  | Some s => negb (String.eqb s "")
  | None => false
  end.

Definition truthy_int (o : option Z) : bool :=
  match o with
  | Some z => negb (z =? 0)
  | None => false
  end.

Definition truthy_list {A} (o : option (list A)) : bool :=
  match o with
  | Some (_ :: _) => true
  | _ => false
  end.

(** [l[:top_n]] for [top_n : Optional[int]] *)
Definition slice_to {A} (top_n : option Z) (l : list A) : list A :=
  match top_n with
  | None => l
  | Some n =>
      if 0 <=? n then firstn (Z.to_nat n) l
      else firstn (Z.to_nat (Z.of_nat (length l) + n)) l
  end.

(** [sorted(l, key=key, reverse=True)].  Python's sort is stable, also with
    [reverse=True]; under a total preorder the stable sort of a list is
    unique, so insertion before the first strictly smaller key computes it. *)
Section Sorted.
Context {A : Type} (key : A -> Q).

Fixpoint insert_desc (x : A) (l : list A) : list A :=
  match l with
  | [] => [x]
  | y :: l' =>
      if Qle_bool (key y) (key x) then x :: y :: l'
      else y :: insert_desc x l'
  end.

Fixpoint sorted_reverse (l : list A) : list A :=
  match l with
  | [] => []
  | x :: l' => insert_desc x (sorted_reverse l')
  end.
End Sorted.

(** ** models.py *)

Definition HOSPITAL_TYPE : list string :=
  ["PUBLIC"; "PRIVATE"; "GENERAL"; "SPECIALIZED"; "CHILDREN"; "MATERNITY";
   "RESEARCH"; "REHABILITATION"].

Definition COST_RANGE : list string :=
  ["VERY_LOW"; "LOW"; "MODERATE"; "HIGH"; "VERY_HIGH"].

Definition TEST_TYPE : list string :=
  ["BLOOD"; "HEART"; "BRAIN"; "LUNG"; "EYE"; "BONE"; "SKIN"; "GENERAL";
   "LIVER"; "KIDNEY"].

Module LocationResponse.
Record t : Type := mk {
  id : Z;
  thana : option string;
  po : option string;
  city : option string;
  zoneId : option Z
}.
End LocationResponse.

Module HospitalResponse.
Record t : Type := mk {
  id : Z;
  name : string;
  types : list string;
  icus : option Z;
  costRange : string;
  latitude : option Q;
  longitude : option Q;
  locationResponse : option LocationResponse.t
}.
End HospitalResponse.

Module TestResponse.
Record t : Type := mk {
  id : Z;
  name : string;
  types : list string;
  hospitalResponse : option HospitalResponse.t
}.
End TestResponse.

Module FeedbackResponse.
Record t : Type := mk {
  id : Z;
  targetId : Z;
  rating : option Z;
  comment : string
}.
End FeedbackResponse.

Module DepartmentResponse.
Record t : Type := mk {
  id : Z;
  name : string
}.
End DepartmentResponse.

Module DoctorHospitalResponse.
Record t : Type := mk {
  id : Z;
  hospitalId : Z;
  hospitalName : string
}.
End DoctorHospitalResponse.

Module DoctorResponse.
Record t : Type := mk {
  id : Z;
  name : string;
  specialties : list string;
  departmentResponse : option DepartmentResponse.t;
  locationResponse : option LocationResponse.t;
  doctorHospitals : list DoctorHospitalResponse.t
}.
End DoctorResponse.

(** A hospital after [hospital['ratings'] = ...] and
    [hospital['averageRating'] = ...]. *)
Module RatedHospital.
Record t : Type := mk {
  hospital : HospitalResponse.t;
  ratings : list Z;
  averageRating : Q
}.
End RatedHospital.

(** ** The interpreter and the libraries *)

Class PyRuntime : Type := {
  (** [str.lower] *)
  lower : string -> string;
  (** [rapidfuzz.fuzz.ratio], a score between 0 and 100 *)
  fuzz_ratio : string -> string -> Q;
  (** [set.intersection] of all the sets, listed in the iteration order of
      the resulting set; each argument lists the elements of one set in the
      order they were added.  The language fixes the elements, not the
      order. *)
  set_intersection : list (list Z) -> list Z;
  set_intersection_NoDup : forall sets, List.NoDup (set_intersection sets);
  set_intersection_In : forall s sets i,
    In i (set_intersection (s :: sets)) <->
    Forall (fun l => In i l) (s :: sets)
}.

(** [float] and the module [math].  A coordinate or a radius is the
    [float] its JSON number is read as; the integer literals of the code
    ([2], [1], [6371]) enter a float operation as their floats.  The
    operations round as the platform does.  [math.sqrt] raises
    [ValueError] (math domain error) on a negative argument, [math.sin] and
    [math.cos] on an infinite one; they raise nothing else. *)
Class PyFloat : Type := {
  float : Type;
  float_of : Q -> float;
  (** [x + y], [x - y], [x * y], [x / y], [x ** n] *)
  fadd : float -> float -> float;
  fsub : float -> float -> float;
  fmul : float -> float -> float;
  fdiv : float -> float -> float;
  fpow : float -> nat -> float;
  (** [x > y] *)
  fgt : float -> float -> bool;
  math_radians : float -> float;
  math_sin : float -> outcome float;
  math_cos : float -> outcome float;
  math_sqrt : float -> outcome float;
  math_atan2 : float -> float -> float;
  math_sin_raises : forall x e, math_sin x = Raised e -> e = ValueError;
  math_cos_raises : forall x e, math_cos x = Raised e -> e = ValueError;
  math_sqrt_raises : forall x e, math_sqrt x = Raised e -> e = ValueError
}.

(** ** httpx *)

Module Response.
Record t (A : Type) : Type := mk {
  status_code : Z;
  json : outcome A;
  text : string
}.
Arguments mk {A}.
Arguments status_code {A}.
Arguments json {A}.
Arguments text {A}.
End Response.

(** [200 <= resp.status_code < 300] *)
Definition success {A} (resp : Response.t A) : bool :=
  (200 <=? Response.status_code resp) && (Response.status_code resp <? 300).

(** The four services behind [client.get]; a request may raise (network
    failure) before any response exists. *)
Record Backend : Type := {
  (** [{TEST_SERVICE_URL}/test/v1/id/{id}] *)
  test_v1_id : Z -> outcome (Response.t TestResponse.t);
  (** [{TEST_SERVICE_URL}/test/v1/type/{type}] *)
  test_v1_type : string -> outcome (Response.t (list TestResponse.t));
  (** [{TEST_SERVICE_URL}/test/v1/hospital/{id}] *)
  test_v1_hospital : Z -> outcome (Response.t (list TestResponse.t));
  (** [{HOSPITAL_SERVICE_URL}/hospital/v1/cost-range/{range}] *)
  hospital_v1_cost_range :
    string -> outcome (Response.t (list HospitalResponse.t));
  (** [{HOSPITAL_SERVICE_URL}/hospital/v1/type/{type}] *)
  hospital_v1_type : string -> outcome (Response.t (list HospitalResponse.t));
  (** [{HOSPITAL_SERVICE_URL}/hospital/v1/all] *)
  hospital_v1_all : outcome (Response.t (list HospitalResponse.t));
  (** [{FEEDBACK_SERVICE_URL}/feedback/v1/hospital/{id}] *)
  feedback_v1_hospital :
    Z -> outcome (Response.t (list FeedbackResponse.t));
  (** [{DOCTOR_SERVICE_URL}/doctor/v1/all] *)
  doctor_v1_all : outcome (Response.t (list DoctorResponse.t))
}.

(** ** math over the real numbers *)

(** [math.radians] *)
Definition radians (x : R) : R := (x * PI / 180)%R.

(** [math.atan2] *)
Definition atan2 (y x : R) : R :=
  if Rlt_dec 0 x then atan (y / x)
  else if Rlt_dec x 0 then
    (if Rle_dec 0 y then atan (y / x) + PI else atan (y / x) - PI)%R
  else if Rlt_dec 0 y then (PI / 2)%R
  else if Rlt_dec y 0 then (- PI / 2)%R
  else 0%R.

(** The distance of tools.py, lines 171-176, in exact arithmetic. *)
Definition haversine_km (latitude longitude lat2 lon2 : R) : R :=
  let R_ := 6371%R in
  let dlat := radians (latitude - lat2) in
  let dlon := radians (longitude - lon2) in
  let a :=
    ((sin (dlat / 2)) ^ 2
     + cos (radians lat2) * cos (radians latitude) * (sin (dlon / 2)) ^ 2)%R
  in
  let c := (2 * atan2 (sqrt a) (sqrt (1 - a)))%R in
  (R_ * c)%R.

(** ** tools.py *)

(** Arguments of [hospital_search_tool]; [defaults] are the defaults of its
    signature. *)
Module HospitalSearch.
Record args : Type := mk {
  test_types : option (list string);
  cost_ranges : option (list string);
  hospital_types : option (list string);
  icu_min : option Z;
  city : option string;
  thana : option string;
  po : option string;
  zone_id : option Z;
  latitude : option Q;
  longitude : option Q;
  radius_km : option Q;
  hospital_name : option string;
  top_n : option Z
}.

Definition defaults : args :=
  mk None None None None None None None None None None None None (Some 5).

(** The same call with one category argument replaced. *)
Definition with_test_types (v : option (list string)) (a : args) : args :=
  mk v (cost_ranges a) (hospital_types a) (icu_min a) (city a) (thana a)
    (po a) (zone_id a) (latitude a) (longitude a) (radius_km a)
    (hospital_name a) (top_n a).

Definition with_cost_ranges (v : option (list string)) (a : args) : args :=
  mk (test_types a) v (hospital_types a) (icu_min a) (city a) (thana a)
    (po a) (zone_id a) (latitude a) (longitude a) (radius_km a)
    (hospital_name a) (top_n a).

Definition with_hospital_types (v : option (list string)) (a : args)
    : args :=
  mk (test_types a) (cost_ranges a) v (icu_min a) (city a) (thana a)
    (po a) (zone_id a) (latitude a) (longitude a) (radius_km a)
    (hospital_name a) (top_n a).

(** The same call without any category argument. *)
Definition without_categories (a : args) : args :=
  with_test_types None (with_cost_ranges None (with_hospital_types None a)).
End HospitalSearch.

(** Arguments of [doctor_search_tool]. *)
Module DoctorSearch.
Record args : Type := mk {
  specialties : option (list string);
  department : option string;
  doctor_name : option string;
  city : option string;
  hospital_name : option string;
  top_n : option Z
}.

Definition defaults : args := mk None None None None None (Some 10).
End DoctorSearch.


(** What a tool that ends in [json.dumps] hands back: the dumped value or
    one of its error strings. *)
Inductive dumped (A : Type) : Type :=
| Dumps (value : A)
| Text (s : string).
Arguments Dumps {A} value.
Arguments Text {A} s.

Section Tools.
Context `{PyRuntime} `{PyFloat}.

(** A [dict] keyed by hospital id, in insertion order: assigning to a key
    already present replaces its value and keeps its position. *)
Fixpoint dict_set (k : Z) (v : HospitalResponse.t)
    (d : list (Z * HospitalResponse.t)) : list (Z * HospitalResponse.t) :=
  match d with
  | [] => [(k, v)]
  | (k', v') :: d' =>
      if k =? k' then (k, v) :: d' else (k', v') :: dict_set k v d'
  end.

(** [by_id = {h['id']: h for h in flat}; list(by_id.values())] *)
Definition by_id_values (flat : list HospitalResponse.t)
    : list HospitalResponse.t :=
  map snd
    (fold_left (fun d h => dict_set (HospitalResponse.id h) h d) flat []).

(** [{h['id']: h for l in lists for h in l}] *)
Definition id_to_hospital (lists : list (list HospitalResponse.t))
    : gmap Z HospitalResponse.t :=
  fold_left (fun m h => <[HospitalResponse.id h := h]> m) (concat lists) ∅.

Definition nonempty {A} (l : list A) : bool :=
  match l with
  | [] => false
  | _ :: _ => true
  end.

(** tools.py, lines 31-39 *)
Definition intersect_hospitals (lists : list (list HospitalResponse.t))
    : outcome (list HospitalResponse.t) :=
  if negb (nonempty lists) then Returned []
  else
    let sets :=
      map (map HospitalResponse.id) (List.filter nonempty lists) in
    if negb (nonempty sets) then Returned []
    else
      let common_ids := set_intersection sets in
      let id_to_hospital := id_to_hospital lists in
      for_each
        (fun i =>
           match id_to_hospital !! i with
           | Some h => Returned h
           | None => Raised KeyError
           end)
        common_ids.

(** [process.extractOne(query, choices, scorer=fuzz.ratio)]: the first
    choice of maximal score together with its score, [None] when there is
    no choice.  The index it also returns is never read. *)
Fixpoint extractOne (query : string) (choices : list string)
    : option (string * Q) :=
  match choices with
  | [] => None
  | c :: cs =>
      let score := fuzz_ratio query c in
      match extractOne query cs with
      | Some (c', score') =>
          if Qle_bool score' score then Some (c, score)
          else Some (c', score')
      | None => Some (c, score)
      end
  end.

(** [a < b] on scores *)
Definition Qlt_bool (a b : Q) : bool := negb (Qle_bool b a).

Definition threshold : Q := 80%Q.

(** tools.py, lines 42-46; unpacking [None] raises [TypeError] *)
Definition fuzzy_enum_match (value : string) (choices : list string)
    : outcome (option string) :=
  match extractOne value choices with
  | None => Raised TypeError
  | Some (match_, score) =>
      if Qle_bool threshold score then Returned (Some match_)
      else Returned None
  end.

(** The loops of lines 74-77, 83-86 and 92-95:
    [m = fuzzy_enum_match(t, valid); if m: matched.append(m)] *)
Fixpoint matched_tokens (valid : list string) (tokens : list string)
    : outcome (list string) :=
  match tokens with
  | [] => Returned []
  | t :: ts =>
      m ← fuzzy_enum_match t valid;
      rest ← matched_tokens valid ts;
      Returned (if truthy_str m then default "" m :: rest else rest)
  end.

(** [if tokens: ...; tokens = matched] *)
Definition normalize (valid : list string) (tokens : option (list string))
    : outcome (option (list string)) :=
  if truthy_list tokens then
    matched ← matched_tokens valid (default [] tokens);
    Returned (Some matched)
  else Returned tokens.

(** The loops of lines 100-105, 113-116 and 124-127: one request per
    value, the body of a successful response is kept. *)
Fixpoint fetch_each {A} (get : string -> outcome (Response.t (list A)))
    (extract : list A -> list HospitalResponse.t) (values : list string)
    : outcome (list (list HospitalResponse.t)) :=
  match values with
  | [] => Returned []
  | v :: vs =>
      resp ← get v;
      if success resp then
        body ← Response.json resp;
        rest ← fetch_each get extract vs;
        Returned (extract body :: rest)
      else fetch_each get extract vs
  end.

(** [if hospitals_by_x: flat = ...; by_id = ...;
    hospital_sets.append(list(by_id.values()))] *)
Definition category_set (hospitals_by_x : list (list HospitalResponse.t))
    : list (list HospitalResponse.t) :=
  if nonempty hospitals_by_x then [by_id_values (concat hospitals_by_x)]
  else [].

(** [if values: ...] around one category *)
Definition fetch_category {A}
    (get : string -> outcome (Response.t (list A)))
    (extract : list A -> list HospitalResponse.t)
    (values : option (list string))
    : outcome (list (list HospitalResponse.t)) :=
  if truthy_list values then
    hospitals_by_x ← fetch_each get extract (default [] values);
    Returned (category_set hospitals_by_x)
  else Returned [].

(** [[test['hospitalResponse'] for test in tests
      if 'hospitalResponse' in test]] *)
Definition hospitals_of_tests (tests : list TestResponse.t)
    : list HospitalResponse.t :=
  omap TestResponse.hospitalResponse tests.

(** [(h.get('locationResponse') or {}).get(field)] *)
Definition loc_get {A} (field : LocationResponse.t -> option A)
    (loc : option LocationResponse.t) : option A :=
  match loc with
  | Some l => field l
  | None => None
  end.

(** [fuzz.ratio(a.lower(), b.lower())] *)
Definition ratio_lower (a b : string) : Q :=
  fuzz_ratio (lower a) (lower b).

(** [if query and field: score = ...; if score < 80: return False] *)
Definition fuzzy_rejects (query field : option string) : bool :=
  truthy_str query && truthy_str field
  && Qlt_bool (ratio_lower (default "" query) (default "" field)) threshold.

(** tools.py, lines 171-176: [dist].  The calls that may raise are made
    from left to right. *)
Definition dist (latitude longitude lat2 lon2 : float) : outcome float :=
  let R_ := float_of 6371 in
  let dlat := math_radians (fsub latitude lat2) in
  let dlon := math_radians (fsub longitude lon2) in
  sin_dlat ← math_sin (fdiv dlat (float_of 2));
  cos_lat2 ← math_cos (math_radians lat2);
  cos_latitude ← math_cos (math_radians latitude);
  sin_dlon ← math_sin (fdiv dlon (float_of 2));
  let a :=
    fadd (fpow sin_dlat 2)
      (fmul (fmul cos_lat2 cos_latitude) (fpow sin_dlon 2))
  in
  x ← math_sqrt a;
  y ← math_sqrt (fsub (float_of 1) a);
  let c := fmul (float_of 2) (math_atan2 x y) in
  Returned (fmul R_ c).

(** tools.py, lines 165-178: the geographic check returns [False]; an
    exception of [dist] leaves [hospital_filter]. *)
Definition geo_rejects (a : HospitalSearch.args) (h : HospitalResponse.t)
    : outcome bool :=
  match HospitalSearch.latitude a, HospitalSearch.longitude a,
        HospitalSearch.radius_km a with
  | Some latitude, Some longitude, Some radius_km =>
      match HospitalResponse.latitude h, HospitalResponse.longitude h with
      | Some lat2, Some lon2 =>
          dist ← dist (float_of latitude) (float_of longitude)
                   (float_of lat2) (float_of lon2);
          Returned (fgt dist (float_of radius_km))
      | _, _ => Returned true
      end
  | _, _, _ => Returned false
  end.

(** tools.py, lines 140-179 *)
Definition hospital_filter (a : HospitalSearch.args)
    (h : HospitalResponse.t) : outcome bool :=
  if match HospitalSearch.icu_min a with
     | Some icu_min =>
         match HospitalResponse.icus h with
         | None => true
         | Some icus => icus <? icu_min
         end
     | None => false
     end
  then Returned false
  else
    let loc := HospitalResponse.locationResponse h in
    if fuzzy_rejects (HospitalSearch.city a)
         (loc_get LocationResponse.city loc)
    then Returned false
    else if fuzzy_rejects (HospitalSearch.thana a)
              (loc_get LocationResponse.thana loc)
    then Returned false
    else if fuzzy_rejects (HospitalSearch.po a)
              (loc_get LocationResponse.po loc)
    then Returned false
    else if truthy_int (HospitalSearch.zone_id a)
            && negb (bool_decide (loc_get LocationResponse.zoneId loc
                                  = HospitalSearch.zone_id a))
    then Returned false
    else if fuzzy_rejects (HospitalSearch.hospital_name a)
              (Some (HospitalResponse.name h))
    then Returned false
    else
      rejected ← geo_rejects a h;
      Returned (negb rejected).

(** [[x for x in l if f(x)]]: the elements are tested in order, and the
    first exception ends the comprehension. *)
Fixpoint filter_each {A} (f : A -> outcome bool) (l : list A)
    : outcome (list A) :=
  match l with
  | [] => Returned []
  | x :: l' =>
      keep ← f x;
      rest ← filter_each f l';
      Returned (if keep : bool then x :: rest else rest)
  end.

(** [sum(ratings) / len(ratings) if ratings else 0] *)
Definition average (ratings : list Z) : Q :=
  if nonempty ratings then
    (inject_Z (fold_right Z.add 0%Z ratings)
     / inject_Z (Z.of_nat (length ratings)))%Q
  else 0%Q.

Definition unrated (h : HospitalResponse.t) : RatedHospital.t :=
  RatedHospital.mk h [] 0%Q.

(** [[feedback.get('rating') for feedback in feedbacks
      if feedback.get('rating') is not None]] *)
Definition ratings_of (feedbacks : list FeedbackResponse.t) : list Z :=
  omap FeedbackResponse.rating feedbacks.

(** The body of the loop of lines 183-202. *)
Definition add_ratings (b : Backend) (h : HospitalResponse.t)
    : RatedHospital.t :=
  let hospital_id := HospitalResponse.id h in
  if negb (hospital_id =? 0) then
    try_except
      (feedback_resp ← feedback_v1_hospital b hospital_id;
       if success feedback_resp then
         feedbacks ← Response.json feedback_resp;
         let ratings := ratings_of feedbacks in
         Returned (RatedHospital.mk h ratings (average ratings))
       else Returned (unrated h))
      (fun _ => unrated h)
  else unrated h.

(** Lines 70-131: [hospital_sets] when line 133 is reached. *)
Definition category_sets (b : Backend) (a : HospitalSearch.args)
    : outcome (list (list HospitalResponse.t)) :=
  test_types ← normalize TEST_TYPE (HospitalSearch.test_types a);
  cost_ranges ← normalize COST_RANGE (HospitalSearch.cost_ranges a);
  hospital_types ← normalize HOSPITAL_TYPE (HospitalSearch.hospital_types a);
  by_test ← fetch_category (test_v1_type b) hospitals_of_tests test_types;
  by_cost ← fetch_category (hospital_v1_cost_range b) (fun l => l) cost_ranges;
  by_type ← fetch_category (hospital_v1_type b) (fun l => l) hospital_types;
  Returned (by_test ++ by_cost ++ by_type).

(** Lines 133-136. *)
Definition or_all_hospitals (b : Backend)
    (hospital_sets : list (list HospitalResponse.t))
    : outcome (list (list HospitalResponse.t)) :=
  if negb (nonempty hospital_sets) then
    resp ← hospital_v1_all b;
    if success resp then
      all ← Response.json resp;
      Returned (hospital_sets ++ [all])
    else Returned hospital_sets
  else Returned hospital_sets.

(** Lines 70-138: the list [hospitals]. *)
Definition candidate_pool (b : Backend) (a : HospitalSearch.args)
    : outcome (list HospitalResponse.t) :=
  hospital_sets ← category_sets b a;
  hospital_sets ← or_all_hospitals b hospital_sets;
  intersect_hospitals hospital_sets.

(** Lines 180-205, from the list [hospitals] on. *)
Definition rank (b : Backend) (a : HospitalSearch.args)
    (hospitals : list HospitalResponse.t)
    : outcome (list RatedHospital.t) :=
  filtered ← filter_each (hospital_filter a) hospitals;
  let filtered := map (add_ratings b) filtered in
  Returned
    (slice_to (HospitalSearch.top_n a)
       (sorted_reverse RatedHospital.averageRating filtered)).

(** tools.py, lines 48-209; the value passed to [json.dumps]. *)
Definition hospital_search_tool (b : Backend) (a : HospitalSearch.args)
    : outcome (list RatedHospital.t) :=
  hospitals ← candidate_pool b a;
  rank b a hospitals.

(** [str(e)] *)
Definition exn_str (e : exn) : string :=
  match e with
  | KeyError => "KeyError"
  | TypeError => "'NoneType' object is not subscriptable"
  | HTTPError detail => detail
  | JSONDecodeError => "Expecting value: line 1 column 1 (char 0)"
  | ValueError => "math domain error"
  end.

(** tools.py, lines 211-220 *)
Definition get_test_by_id_tool (b : Backend) (id : Z) : outcome string :=
  resp ← test_v1_id b id;
  if negb (success resp) then
    Returned ("Error: " +:+ pretty (Response.status_code resp))
  else Returned (Response.text resp).

(** tools.py, lines 222-231 *)
Definition get_tests_by_type_tool (b : Backend) (type : string)
    : outcome string :=
  resp ← test_v1_type b type;
  if negb (success resp) then
    Returned ("Error: " +:+ pretty (Response.status_code resp))
  else Returned (Response.text resp).

Definition no_hospital_found (hospitalName : string) : string :=
  "Error: No hospital found matching '" +:+ hospitalName +:+ "'".

(** [next((h for h in hospitals if h['name'] == closest), None)] *)
Definition next_named (closest : string)
    (hospitals : list HospitalResponse.t) : option HospitalResponse.t :=
  List.find (fun h => String.eqb (HospitalResponse.name h) closest)
    hospitals.

(** [match = process.extractOne(...); match[1]]: subscripting [None]
    raises [TypeError]. *)
Definition best_match (hospitalName : string)
    (hospitals : list HospitalResponse.t) : outcome (string * Q) :=
  match extractOne hospitalName (map HospitalResponse.name hospitals) with
  | Some m => Returned m
  | None => Raised TypeError
  end.

(** tools.py, lines 233-258 *)
Definition get_tests_by_hospital_tool (b : Backend)
    (hospitalId : option Z) (hospitalName : option string)
    : outcome string :=
  let finish (res : Response.t (list TestResponse.t)) : outcome string :=
    if negb (success res) then
      Returned ("Error: " +:+ pretty (Response.status_code res))
    else Returned (Response.text res) in
  match hospitalId, hospitalName with
  | None, None =>
      Returned "Error: Either hospitalId or hospitalName must be provided "
  | Some hospitalId, _ =>
      res ← test_v1_hospital b hospitalId;
      finish res
  | None, Some hospitalName =>
      resp ← hospital_v1_all b;
      hospitals ← Response.json resp;
      match_ ← best_match hospitalName hospitals;
      if Qlt_bool (snd match_) threshold then
        Returned (no_hospital_found hospitalName)
      else
        match next_named (fst match_) hospitals with
        | None => Returned (no_hospital_found hospitalName)
        | Some closest_hospital =>
            res ← test_v1_hospital b (HospitalResponse.id closest_hospital);
            finish res
        end
  end.

(** tools.py, lines 260-305; every exception of the [try] block becomes
    an error string. *)
Definition get_hospital_feedbacks_tool (b : Backend)
    (hospitalId : option Z) (hospitalName : option string) : string :=
  let fetch (target_hospital_id : Z) : outcome string :=
    feedback_resp ← feedback_v1_hospital b target_hospital_id;
    if negb (success feedback_resp) then
      Returned ("Error: Failed to fetch feedbacks. Status: "
                +:+ pretty (Response.status_code feedback_resp))
    else Returned (Response.text feedback_resp) in
  match hospitalId, hospitalName with
  | None, None =>
      "Error: Either hospitalId or hospitalName must be provided"
  | Some hospitalId, _ =>
      try_except (fetch hospitalId) (fun e => "Error: " +:+ exn_str e)
  | None, Some hospitalName =>
      try_except
        (hospitals_resp ← hospital_v1_all b;
         if negb (success hospitals_resp) then
           Returned ("Error: Failed to fetch hospitals list. Status: "
                     +:+ pretty (Response.status_code hospitals_resp))
         else
           hospitals ← Response.json hospitals_resp;
           match_ ← best_match hospitalName hospitals;
           if Qlt_bool (snd match_) threshold then
             Returned (no_hospital_found hospitalName)
           else
             match next_named (fst match_) hospitals with
             | None => Returned (no_hospital_found hospitalName)
             | Some closest_hospital =>
                 fetch (HospitalResponse.id closest_hospital)
             end)
        (fun e => "Error: " +:+ exn_str e)
  end.

(** [score >= 80] for [fuzz.ratio(a.lower(), b.lower())] *)
Definition fuzzy_matches (a b : string) : bool :=
  Qle_bool threshold (ratio_lower a b).

(** [if query: if field: (score < 80 -> False) else: return False] *)
Definition required_rejects (query field : option string) : bool :=
  truthy_str query
  && (if truthy_str field
      then Qlt_bool (ratio_lower (default "" query) (default "" field))
             threshold
      else true).

(** tools.py, lines 330-392 *)
Definition doctor_filter (a : DoctorSearch.args) (doctor : DoctorResponse.t)
    : bool :=
  if truthy_list (DoctorSearch.specialties a)
     && negb (existsb
                (fun search_specialty =>
                   existsb (fuzzy_matches search_specialty)
                     (DoctorResponse.specialties doctor))
                (default [] (DoctorSearch.specialties a)))
  then false
  else if required_rejects (DoctorSearch.department a)
            (option_map DepartmentResponse.name
               (DoctorResponse.departmentResponse doctor))
  then false
  else if required_rejects (DoctorSearch.doctor_name a)
            (Some (DoctorResponse.name doctor))
  then false
  else if required_rejects (DoctorSearch.city a)
            (loc_get LocationResponse.city
               (DoctorResponse.locationResponse doctor))
  then false
  else if truthy_str (DoctorSearch.hospital_name a)
          && negb (existsb
                     (fun hospital =>
                        let hospital_name_field :=
                          DoctorHospitalResponse.hospitalName hospital in
                        truthy_str (Some hospital_name_field)
                        && fuzzy_matches
                             (default "" (DoctorSearch.hospital_name a))
                             hospital_name_field)
                     (DoctorResponse.doctorHospitals doctor))
  then false
  else true.

(** tools.py, lines 307-405 *)
Definition doctor_search_tool (b : Backend) (a : DoctorSearch.args)
    : dumped (list DoctorResponse.t) :=
  try_except
    (doctors_resp ← doctor_v1_all b;
     if negb (success doctors_resp) then
       Returned (Text ("Error: Failed to fetch doctors. Status: "
                       +:+ pretty (Response.status_code doctors_resp)))
     else
       doctors ← Response.json doctors_resp;
       let filtered_doctors := List.filter (doctor_filter a) doctors in
       let limited_doctors :=
         slice_to (DoctorSearch.top_n a) filtered_doctors in
       Returned (Dumps limited_doctors))
    (fun e => Text ("Error: " +:+ exn_str e)).

End Tools.

(** ** main.py *)

(** The functions [tools.py] decorates with [@tool]. *)
Module Tool.
Inductive t : Type :=
| hospital_search_tool
| get_test_by_id_tool
| get_tests_by_type_tool
| get_tests_by_hospital_tool
| get_hospital_feedbacks_tool
| doctor_search_tool.

(** The name each [@tool(...)] decorator gives. *)
Definition name (tool : t) : string :=
  match tool with
  | hospital_search_tool => "hospital_search"
  | get_test_by_id_tool => "get_test_by_id"
  | get_tests_by_type_tool => "get_tests_by_type"
  | get_tests_by_hospital_tool => "get_tests_by_hospital_name_or_id"
  | get_hospital_feedbacks_tool => "get_hospital_feedbacks"
  | doctor_search_tool => "doctor_search"
  end.
End Tool.

Module ToolCall.
Record t : Type := mk {
  name : string;
  (** the argument mapping, as the model wrote it *)
  args : string;
  id : string
}.
End ToolCall.

Module AIMessage.
Record t : Type := mk {
  content : string;
  tool_calls : list ToolCall.t
}.
End AIMessage.

Inductive Message : Type :=
| SystemMessage (content : string)
| HumanMessage (content : string)
| AI (ai_msg : AIMessage.t)
| ToolMessage (content : string) (tool_call_id : string).

Definition content (m : Message) : string :=
  match m with
  | SystemMessage c => c
  | HumanMessage c => c
  | AI ai_msg => AIMessage.content ai_msg
  | ToolMessage c _ => c
  end.

Module MessageResponse.
Record t : Type := mk {
  content : string;
  id : string;
  role : string;
  createdAt : string
}.
End MessageResponse.

Module ChatRequest.
Record t : Type := mk {
  userId : string;
  message : string;
  role : string;
  createdAt : string
}.
End ChatRequest.

(** main.py, lines 132-137 *)
Definition tool_dict : gmap string Tool.t :=
  <["hospital_search" := Tool.hospital_search_tool]>
  (<["get_test_by_id" := Tool.get_test_by_id_tool]>
  (<["get_tests_by_type" := Tool.get_tests_by_type_tool]>
  (<["get_tests_by_hospital_name_or_id" := Tool.get_tests_by_hospital_tool]>
     ∅))).

(** How a run of the loop ends.  The list is the state of [messages], which
    is appended to in place and so keeps what was added before an
    exception. *)
Inductive run : Type :=
| Settled (messages : list Message)
| Failed (e : exn) (messages : list Message)
| Waiting (messages : list Message).

Section Main.
Context `{PyRuntime}.

(** What [selected_tool.invoke(tool_call)] runs: the output of the tool on
    the arguments of the call, or the exception of the tool or of the
    validation of its arguments.  The message returned carries the output
    and the identifier of the call. *)
Variable invoke : Tool.t -> ToolCall.t -> outcome string.

(** [SYSTEM_PROMPT], main.py lines 72-113 *)
Variable SYSTEM_PROMPT : string.

(** main.py, lines 139-144 *)
Fixpoint execute (tool_calls : list ToolCall.t) (messages : list Message)
    : list Message * option exn :=
  match tool_calls with
  | [] => (messages, None)
  | tool_call :: rest =>
      let tool_name := lower (ToolCall.name tool_call) in
      match tool_dict !! tool_name with
      | Some selected_tool =>
          match invoke selected_tool tool_call with
          | Returned output =>
              let tool_msg := ToolMessage output (ToolCall.id tool_call) in
              execute rest (messages ++ [tool_msg])
          | Raised e => (messages, Some e)
          end
      | None => execute rest messages
      end
  end.

(** main.py, lines 138-147.  The model is a black box: [replies] lists
    what its successive invocations answer.  A loop that still has tool
    calls to follow up when the replies are used up is [Waiting]. *)
Fixpoint tool_call_loop (replies : list AIMessage.t)
    (messages : list Message) (tool_calls : list ToolCall.t)
    {struct replies} : run * list AIMessage.t :=
  if negb (nonempty tool_calls) then (Settled messages, replies)
  else
    match execute tool_calls messages with
    | (messages, Some e) => (Failed e messages, replies)
    | (messages, None) =>
        match replies with
        | [] => (Waiting messages, [])
        | ai_msg :: replies =>
            tool_call_loop replies (messages ++ [AI ai_msg])
              (AIMessage.tool_calls ai_msg)
        end
    end.

(** [messages[-1].content] *)
Definition last_content (messages : list Message) : string :=
  match last messages with
  | Some m => content m
  | None => ""
  end.

(** main.py, lines 117-152: the session store afterwards, the response or
    how the request ended without one, and the replies not consumed.
    [now] is [datetime.now().isoformat()]. *)
Definition chat_endpoint (replies : list AIMessage.t) (now : string)
    (user_messages : gmap string (list Message)) (request : ChatRequest.t)
    : gmap string (list Message) * (MessageResponse.t + run)
      * list AIMessage.t :=
  let userId := ChatRequest.userId request in
  let message := ChatRequest.message request in
  let messages :=
    default [SystemMessage SYSTEM_PROMPT] (user_messages !! userId) in
  let messages := messages ++ [HumanMessage message] in
  match replies with
  | [] => (<[userId := messages]> user_messages, inr (Waiting messages), [])
  | ai_msg :: replies =>
      let messages := messages ++ [AI ai_msg] in
      match tool_call_loop replies messages (AIMessage.tool_calls ai_msg)
      with
      | (Settled messages, replies) =>
          (<[userId := messages]> user_messages,
           inl (MessageResponse.mk (last_content messages)
                  (userId +:+ "_assistant_" +:+ pretty (length messages))
                  "assistant" now),
           replies)
      | (r, replies) =>
          (<[userId :=
               match r with
               | Settled m | Failed _ m | Waiting m => m
               end]> user_messages,
           inr r, replies)
      end
  end.

End Main.

(** ** A concrete runtime

    ASCII lower-casing, the normalised Indel similarity that
    [rapidfuzz.fuzz.ratio] computes, and the iteration order CPython gives a
    set of small non-negative integers: an integer hashes to itself and is
    stored at the slot of that index, and iteration walks the slots in
    order, so identifiers below the table size come out ascending. *)

Definition ascii_lower (c : ascii) : ascii :=
  let n := nat_of_ascii c in
  if ((65 <=? n) && (n <=? 90))%nat then ascii_of_nat (n + 32) else c.

Fixpoint ascii_str_lower (s : string) : string :=
  match s with
  | EmptyString => EmptyString
  | String c s' => String (ascii_lower c) (ascii_str_lower s')
  end.

(** One row of the longest-common-subsequence table: [prev] is the row
    above from the second column on, [diag] and [left] the entries above-left
    and left of the one being filled. *)
Fixpoint lcs_row (x : ascii) (b : list ascii) (prev : list nat)
    (diag left : nat) : list nat :=
  match b, prev with
  | y :: b', up :: prev' =>
      let cur := if Ascii.eqb x y then S diag else Nat.max up left in
      cur :: lcs_row x b' prev' up cur
  | _, _ => []
  end.

(** Length of a longest common subsequence. *)
Definition lcs (a b : list ascii) : nat :=
  List.last
    (fold_left (fun row x => lcs_row x b row O O) a (repeat O (length b))) O.

(** [100 * (1 - indel_distance / (len(a) + len(b)))], where the Indel
    distance is [len(a) + len(b) - 2 * lcs]; 100 for two empty strings. *)
Definition indel_ratio (a b : string) : Q :=
  let la := list_ascii_of_string a in
  let lb := list_ascii_of_string b in
  let total := (length la + length lb)%nat in
  if (total =? 0)%nat then 100%Q
  else (inject_Z (200 * Z.of_nat (lcs la lb)) / inject_Z (Z.of_nat total))%Q.

Definition ascending_intersection (sets : list (list Z)) : list Z :=
  match sets with
  | [] => []
  | s :: rest =>
      merge_sort Z.le
        (remove_dups
           (List.filter
              (fun i => forallb (fun l => bool_decide (i ∈ l)) rest) s))
  end.

Lemma ascending_intersection_NoDup sets :
  List.NoDup (ascending_intersection sets).
Proof.
  destruct sets as [|s rest]; simpl; [constructor|].
  apply NoDup_ListNoDup.
  rewrite merge_sort_Permutation.
  apply NoDup_remove_dups.
Qed.

Lemma ascending_intersection_In s sets i :
  In i (ascending_intersection (s :: sets)) <->
  Forall (fun l => In i l) (s :: sets).
Proof.
  unfold ascending_intersection.
  rewrite <- list_elem_of_In, merge_sort_Permutation, elem_of_remove_dups.
  rewrite list_elem_of_In, filter_In, forallb_forall, Forall_cons_iff.
  rewrite List.Forall_forall.
  split; intros [Hs Hrest]; split; trivial; intros l Hl.
  - apply list_elem_of_In. specialize (Hrest l Hl).
    now apply bool_decide_eq_true in Hrest.
  - apply bool_decide_eq_true, list_elem_of_In. auto.
Qed.

Definition cpython : PyRuntime := {|
  lower := ascii_str_lower;
  fuzz_ratio := indel_ratio;
  set_intersection := ascending_intersection;
  set_intersection_NoDup := ascending_intersection_NoDup;
  set_intersection_In := ascending_intersection_In
|}.

(** ** Exact arithmetic

    Floats without rounding: the real numbers, with the functions of
    [math] as above and [math.sqrt] raising below 0.  No real number is
    infinite, so sine and cosine return. *)

Definition exact_sqrt (x : R) : outcome R :=
  if Rlt_dec x 0 then Raised ValueError else Returned (sqrt x).

Lemma exact_sqrt_raises x e : exact_sqrt x = Raised e -> e = ValueError.
Proof.
  unfold exact_sqrt. destruct (Rlt_dec x 0); [|discriminate].
  now intros [= <-].
Qed.

Definition exact : PyFloat := {|
  float := R;
  float_of := Q2R;
  fadd := Rplus;
  fsub := Rminus;
  fmul := Rmult;
  fdiv := Rdiv;
  fpow := pow;
  fgt := fun x y => if Rgt_dec x y then true else false;
  math_radians := radians;
  math_sin := fun x => Returned (sin x);
  math_cos := fun x => Returned (cos x);
  math_sqrt := exact_sqrt;
  math_atan2 := atan2;
  math_sin_raises := fun x e (Hraise : Returned (sin x) = Raised e) =>
    match Hraise with end;
  math_cos_raises := fun x e (Hraise : Returned (cos x) = Raised e) =>
    match Hraise with end;
  math_sqrt_raises := exact_sqrt_raises
|}.

(** * Properties *)

(** ** The sort *)

Section SortedFacts.
Context {A : Type} (key : A -> Q).

(** [x] is listed no later than [y]: its key is at least as large. *)
Definition desc (x y : A) : Prop := (key y <= key x)%Q.

Lemma insert_desc_Permutation x l :
  Permutation (insert_desc key x l) (x :: l).
Proof.
  induction l as [|y l IH]; simpl; [reflexivity|].
  destruct (Qle_bool (key y) (key x)); [reflexivity|].
  rewrite IH. apply perm_swap.
Qed.

Lemma sorted_reverse_Permutation l :
  Permutation (sorted_reverse key l) l.
Proof.
  induction l as [|x l IH]; simpl; [reflexivity|].
  rewrite insert_desc_Permutation. now apply perm_skip.
Qed.

Lemma desc_trans x y z : desc x y -> desc y z -> desc x z.
Proof. unfold desc. intros Hxy Hyz. now apply Qle_trans with (key y). Qed.

Lemma insert_desc_sorted x l :
  StronglySorted desc l -> StronglySorted desc (insert_desc key x l).
Proof.
  induction 1 as [|y l Hsorted IH Hall]; simpl.
  - constructor; constructor.
  - destruct (Qle_bool (key y) (key x)) eqn:Hle.
    + apply Qle_bool_iff in Hle.
      constructor; [now constructor|].
      constructor; [exact Hle|].
      eapply List.Forall_impl; [|exact Hall].
      intros z Hz. now apply desc_trans with y.
    + assert (Hlt : desc y x).
      { unfold desc. destruct (Qlt_le_dec (key x) (key y)) as [Hl|Hl].
        - now apply Qlt_le_weak.
        - apply Qle_bool_iff in Hl. congruence. }
      constructor; [exact IH|].
      apply List.Forall_forall. intros z Hz.
      apply (Permutation_in _ (insert_desc_Permutation x l)) in Hz.
      destruct Hz as [<-|Hz]; [exact Hlt|].
      rewrite List.Forall_forall in Hall. now apply Hall.
Qed.

Lemma sorted_reverse_sorted l : StronglySorted desc (sorted_reverse key l).
Proof.
  induction l as [|x l IH]; simpl; [constructor|].
  now apply insert_desc_sorted.
Qed.

(** The records of one average, in the order they stand in a list. *)
Definition with_key (r : Q) (l : list A) : list A :=
  List.filter (fun x => Qeq_bool (key x) r) l.

Lemma insert_desc_with_key r x l :
  with_key r (insert_desc key x l) = with_key r (x :: l).
Proof.
  induction l as [|y l IH]; [reflexivity|].
  simpl insert_desc.
  destruct (Qle_bool (key y) (key x)) eqn:Hle; [reflexivity|].
  unfold with_key in *. simpl in *. rewrite IH.
  destruct (Qeq_bool (key x) r) eqn:Hx, (Qeq_bool (key y) r) eqn:Hy;
    try reflexivity.
  apply Qeq_bool_iff in Hx, Hy.
  assert (Hle' : (key y <= key x)%Q) by (rewrite Hx, Hy; apply Qle_refl).
  apply Qle_bool_iff in Hle'. congruence.
Qed.

Lemma sorted_reverse_stable r l :
  with_key r (sorted_reverse key l) = with_key r l.
Proof.
  induction l as [|x l IH]; [reflexivity|].
  simpl sorted_reverse. rewrite insert_desc_with_key.
  unfold with_key in *. simpl. now rewrite IH.
Qed.
End SortedFacts.

(** ** Dictionaries keyed by identifier *)

Abbreviation ids := (map HospitalResponse.id).

Section DictFacts.

(** Keys are distinct and every record is stored under its identifier. *)
Definition dict_ok (d : list (Z * HospitalResponse.t)) : Prop :=
  List.NoDup (map fst d)
  /\ forall k v, In (k, v) d -> HospitalResponse.id v = k.

Lemma dict_set_keys k v d i :
  In i (map fst (dict_set k v d)) <-> i = k \/ In i (map fst d).
Proof.
  induction d as [|[k' v'] d IH]; simpl.
  - intuition.
  - destruct (Z.eqb_spec k k') as [->|Hne]; simpl.
    + intuition.
    + rewrite IH. intuition.
Qed.

Lemma dict_set_In k v d k1 v1 :
  In (k1, v1) (dict_set k v d) -> (k1 = k /\ v1 = v) \/ In (k1, v1) d.
Proof.
  induction d as [|[k' v'] d IH]; simpl.
  - intros [[= <- <-]|[]]. now left.
  - destruct (Z.eqb_spec k k') as [->|Hne]; simpl.
    + intros [[= <- <-]|Hin]; [now left|right; now right].
    + intros [Heq|Hin]; [right; now left|].
      destruct (IH Hin) as [?|?]; [now left|right; now right].
Qed.

Lemma dict_set_ok v d :
  dict_ok d -> dict_ok (dict_set (HospitalResponse.id v) v d).
Proof.
  intros [Hnd Hid]. split.
  - clear Hid. induction d as [|[k' v'] d IH]; simpl.
    + constructor; [intros []|constructor].
    + simpl in Hnd. apply List.NoDup_cons_iff in Hnd as [Hnotin Hnd].
      destruct (Z.eqb_spec (HospitalResponse.id v) k') as [->|Hne]; simpl.
      * now constructor.
      * constructor; [|now apply IH].
        rewrite dict_set_keys. intros [->|Hin]; [now apply Hne|tauto].
  - intros k1 v1 Hin. apply dict_set_In in Hin as [[-> ->]|Hin]; auto.
Qed.

Lemma fold_dict_set flat : forall d,
  dict_ok d ->
  let d' :=
    fold_left (fun d h => dict_set (HospitalResponse.id h) h d) flat d in
  dict_ok d'
  /\ (forall i, In i (map fst d') <-> In i (map fst d) \/ In i (ids flat))
  /\ (forall k v, In (k, v) d' -> In (k, v) d \/ In v flat).
Proof.
  induction flat as [|h flat IH]; intros d Hok; simpl.
  - repeat split; try tauto. now apply Hok. now apply Hok.
  - destruct (IH _ (dict_set_ok h d Hok)) as (Hok' & Hkeys & Hvals).
    split; [exact Hok'|]. split.
    + intros i. rewrite Hkeys, dict_set_keys. intuition.
    + intros k v Hin. apply Hvals in Hin as [Hin|Hin]; [|tauto].
      apply dict_set_In in Hin as [[-> ->]|Hin]; tauto.
Qed.

Lemma dict_values_ids d : dict_ok d -> ids (map snd d) = map fst d.
Proof.
  intros [_ Hid]. induction d as [|[k v] d IH]; simpl; [reflexivity|].
  rewrite (Hid k v) by now left.
  f_equal. apply IH. intros k' v' Hin. apply Hid. now right.
Qed.

(** [list(by_id.values())] lists every identifier of [flat] once, with a
    record of [flat] under it. *)
Lemma by_id_values_spec flat :
  List.NoDup (ids (by_id_values flat))
  /\ (forall i, In i (ids (by_id_values flat)) <-> In i (ids flat))
  /\ (forall h, In h (by_id_values flat) -> In h flat).
Proof.
  assert (Hnil : dict_ok []) by (split; [constructor|intros ? ? []]).
  destruct (fold_dict_set flat [] Hnil) as (Hok & Hkeys & Hvals).
  unfold by_id_values. rewrite (dict_values_ids _ Hok).
  split; [apply Hok|]. split.
  - intros i. rewrite Hkeys. simpl. tauto.
  - intros h Hin. apply in_map_iff in Hin as ([k v] & <- & Hin).
    apply Hvals in Hin as [[]|Hin]. exact Hin.
Qed.

Lemma fold_insert_lookup flat : forall (m : gmap Z HospitalResponse.t) i,
  let m' :=
    fold_left (fun m h => <[HospitalResponse.id h := h]> m) flat m in
  (In i (ids flat) -> exists h, m' !! i = Some h)
  /\ (forall h, m' !! i = Some h ->
        m !! i = Some h \/ (In h flat /\ HospitalResponse.id h = i)).
Proof.
  induction flat as [|x flat IH]; intros m i; simpl.
  - split; [intros []|auto].
  - destruct (IH (<[HospitalResponse.id x := x]> m) i) as [Hdom Hval].
    split.
    + intros [<-|Hin]; [|now apply Hdom].
      destruct (fold_left _ flat _ !! HospitalResponse.id x) as [h|] eqn:E;
        [now exists h|].
      exfalso.
      assert (Hkeep : forall l (m0 : gmap Z HospitalResponse.t) k,
                 is_Some (m0 !! k) ->
                 is_Some (fold_left
                            (fun m h => <[HospitalResponse.id h := h]> m)
                            l m0 !! k)).
      { induction l as [|y l IHl]; intros m0 k Hs; simpl; [exact Hs|].
        apply IHl. rewrite lookup_insert. case_decide; eauto. }
      specialize (Hkeep flat (<[HospitalResponse.id x := x]> m)
                    (HospitalResponse.id x)).
      rewrite E in Hkeep. destruct Hkeep as [? [=]].
      rewrite lookup_insert_eq. eauto.
    + intros h Hh. apply Hval in Hh as [Hh|[Hin Hid]]; [|tauto].
      rewrite lookup_insert in Hh. case_decide as Hd.
      * injection Hh as <-. right. split; [now left|exact Hd].
      * now left.
Qed.

Lemma id_to_hospital_spec lists i :
  (In i (ids (concat lists)) -> exists h, id_to_hospital lists !! i = Some h)
  /\ (forall h, id_to_hospital lists !! i = Some h ->
        In h (concat lists) /\ HospitalResponse.id h = i).
Proof.
  destruct (fold_insert_lookup (concat lists) ∅ i) as [Hdom Hval].
  split; [exact Hdom|].
  intros h Hh. apply Hval in Hh as [Hh|Hh]; [|exact Hh].
  now rewrite lookup_empty in Hh.
Qed.
End DictFacts.

(** ** Statements in the exception monad *)

Lemma bind_Returned {A B} (m : outcome A) (f : A -> outcome B) (y : B) :
  m ≫= f = Returned y <-> exists x, m = Returned x /\ f x = Returned y.
Proof.
  destruct m as [x|e]; simpl; split.
  - intros Hf. now exists x.
  - now intros (x' & [= <-] & Hf).
  - discriminate.
  - now intros (x' & [=] & _).
Qed.

Lemma for_each_Returned {A B} (f : A -> outcome B) (l : list A) :
  (forall x, In x l -> exists y, f x = Returned y) ->
  exists ys, for_each f l = Returned ys
             /\ Forall2 (fun x y => f x = Returned y) l ys.
Proof.
  induction l as [|x l IH]; intros Hall; simpl.
  - exists []. split; [reflexivity|constructor].
  - destruct (Hall x) as [y Hy]; [now left|].
    destruct IH as (ys & Hys & Hrel); [intros z Hz; apply Hall; now right|].
    exists (y :: ys). rewrite Hy, Hys. split; [reflexivity|].
    now constructor.
Qed.

Lemma for_each_inv {A B} (f : A -> outcome B) (l : list A) :
  forall ys, for_each f l = Returned ys ->
             Forall2 (fun x y => f x = Returned y) l ys.
Proof.
  induction l as [|x l IH]; simpl; intros ys Hys.
  - injection Hys as <-. constructor.
  - destruct (f x) as [y|e] eqn:Hy; [|discriminate]. simpl in Hys.
    destruct (for_each f l) as [ys'|e]; [|discriminate]. simpl in Hys.
    injection Hys as <-. constructor; [exact Hy|now apply IH].
Qed.

(** ** intersect_hospitals *)

Section IntersectFacts.
Context `{PyRuntime}.

Lemma nonempty_true {A} (l : list A) : nonempty l = true <-> l <> [].
Proof. destruct l; simpl; split; congruence. Qed.

Lemma nonempty_false {A} (l : list A) : nonempty l = false <-> l = [].
Proof. destruct l; simpl; split; congruence. Qed.

(** The sets line 34 builds hold, for a given identifier, exactly the
    non-empty lists. *)
Lemma Forall_sets lists i :
  Forall (fun l => In i l)
    (map ids (List.filter nonempty lists))
  <-> (forall s, In s lists -> s <> [] -> In i (ids s)).
Proof.
  rewrite List.Forall_forall. split.
  - intros Hall s Hs Hne. apply Hall, in_map, filter_In.
    split; [exact Hs|now apply nonempty_true].
  - intros Hall l Hl. apply in_map_iff in Hl as (s & <- & Hs).
    apply filter_In in Hs as [Hs Hne]. apply Hall; [exact Hs|].
    now apply nonempty_true.
Qed.

(** [intersect_hospitals] never raises: every common identifier is a key
    of [id_to_hospital]. *)
Lemma intersect_hospitals_spec lists :
  exists pool,
    intersect_hospitals lists = Returned pool
    /\ List.NoDup (ids pool)
    /\ (forall h, In h pool -> In h (concat lists))
    /\ (forall i, In i (ids pool) <->
          (exists s, In s lists /\ s <> [])
          /\ (forall s, In s lists -> s <> [] -> In i (ids s))).
Proof.
  unfold intersect_hospitals.
  destruct (nonempty lists) eqn:Hlists; simpl.
  2:{ apply nonempty_false in Hlists as ->. exists []. simpl.
      repeat split; try constructor; try tauto.
      intros [(s & [] & _) _]. }
  destruct (map ids (List.filter nonempty lists)) as [|s0 sets] eqn:Hsets;
    simpl.
  { exists []. simpl. repeat split; try constructor; try tauto.
    intros [(s & Hs & Hne) _].
    assert (Hin : In (ids s) (map ids (List.filter nonempty lists))).
    { apply in_map, filter_In. split; [exact Hs|now apply nonempty_true]. }
    rewrite Hsets in Hin. destruct Hin. }
  assert (Hwitness : exists s, In s lists /\ s <> []).
  { assert (Hin : In s0 (map ids (List.filter nonempty lists)))
      by (rewrite Hsets; now left).
    apply in_map_iff in Hin as (s & _ & Hs).
    apply filter_In in Hs as [Hs Hne]. exists s.
    split; [exact Hs|now apply nonempty_true]. }
  assert (Hcommon : forall i, In i (set_intersection (s0 :: sets)) <->
            forall s, In s lists -> s <> [] -> In i (ids s)).
  { intros i. rewrite set_intersection_In, <- Hsets. apply Forall_sets. }
  destruct (for_each_Returned
              (fun i => match id_to_hospital lists !! i with
                        | Some h => Returned h
                        | None => Raised KeyError
                        end)
              (set_intersection (s0 :: sets))) as (pool & Hpool & Hrel).
  { intros i Hi. destruct Hwitness as (s & Hs & Hne).
    destruct (id_to_hospital_spec lists i) as [Hdom _].
    destruct Hdom as [h Hh].
    - rewrite concat_map. apply in_concat. exists (ids s).
      split; [now apply in_map|]. now apply (proj1 (Hcommon i)).
    - exists h. now rewrite Hh. }
  exists pool. split; [exact Hpool|].
  assert (Hids : ids pool = set_intersection (s0 :: sets)
                 /\ forall h, In h pool -> In h (concat lists)).
  { clear Hpool Hcommon. induction Hrel as [|i h l l' Hih _ IH]; simpl.
    - split; [reflexivity|intros ? []].
    - destruct (id_to_hospital lists !! i) as [h'|] eqn:Hlook;
        [|discriminate].
      injection Hih as <-.
      destruct (id_to_hospital_spec lists i) as [_ Hval].
      destruct (Hval _ Hlook) as [Hin Hid]. destruct IH as [IH1 IH2].
      split; [now rewrite Hid, IH1|].
      intros h [<-|Hh]; auto. }
  destruct Hids as [Hids Hsub]. rewrite Hids.
  split; [apply set_intersection_NoDup|]. split; [exact Hsub|].
  intros i. rewrite Hcommon. tauto.
Qed.
Lemma lookup_all_ids lists l pool :
  Forall2
    (fun i h =>
       match id_to_hospital lists !! i with
       | Some h' => Returned h'
       | None => Raised KeyError
       end = Returned h) l pool ->
  ids pool = l.
Proof.
  induction 1 as [|i h l l' Hih _ IH]; simpl; [reflexivity|].
  destruct (id_to_hospital lists !! i) as [h'|] eqn:Hlook; [|discriminate].
  injection Hih as <-.
  destruct (id_to_hospital_spec lists i) as [_ Hval].
  destruct (Hval _ Hlook) as [_ Hid]. now rewrite Hid, IH.
Qed.

(** The pool lists the common identifiers in the iteration order of their
    set. *)
Lemma intersect_hospitals_order lists pool :
  intersect_hospitals lists = Returned pool ->
  List.filter nonempty lists <> [] ->
  ids pool = set_intersection (map ids (List.filter nonempty lists)).
Proof.
  unfold intersect_hospitals. intros Hpool Hne.
  destruct (nonempty lists) eqn:Hlists; simpl in Hpool.
  2:{ apply nonempty_false in Hlists. subst lists. now destruct Hne. }
  destruct (List.filter nonempty lists) as [|l0 ls] eqn:Hfilter;
    [now destruct Hne|].
  simpl in Hpool. apply for_each_inv in Hpool.
  now apply lookup_all_ids in Hpool.
Qed.
End IntersectFacts.

(** ** The candidate pool *)

Ltac bind_inv H x Hx := apply bind_Returned in H as (x & Hx & H).

Section PoolFacts.
Context `{PyRuntime}.

(** A value of a category whose request succeeded with body [body]. *)
Definition fetched {A} (get : string -> outcome (Response.t (list A)))
    (values : list string) (body : list A) : Prop :=
  exists v resp,
    In v values /\ get v = Returned resp /\ success resp = true
    /\ Response.json resp = Returned body.

Lemma fetch_each_spec {A} (get : string -> outcome (Response.t (list A)))
    (extract : list A -> list HospitalResponse.t) values :
  forall by_x, fetch_each get extract values = Returned by_x ->
  forall l, In l by_x <->
            exists body, fetched get values body /\ l = extract body.
Proof.
  induction values as [|v values IH]; simpl; intros by_x Hfetch l.
  - injection Hfetch as <-. split; [intros []|].
    intros (body & (v & resp & [] & _) & _).
  - bind_inv Hfetch resp Hresp.
    destruct (success resp) eqn:Hok.
    + bind_inv Hfetch body Hbody. bind_inv Hfetch rest Hrest.
      injection Hfetch as <-. simpl. rewrite (IH rest Hrest l). split.
      * intros [<-|(body' & (v' & resp' & Hv & Hget) & ->)].
        -- exists body. split; [|reflexivity].
           exists v, resp. split; [now left|]. now rewrite Hresp.
        -- exists body'. split; [|reflexivity].
           exists v', resp'. split; [now right|exact Hget].
      * intros (body' & (v' & resp' & [<-|Hv] & Hget & Hok' & Hjson) & ->).
        -- left. rewrite Hresp in Hget. injection Hget as <-.
           rewrite Hbody in Hjson. now injection Hjson as <-.
        -- right. exists body'. split; [|reflexivity].
           now exists v', resp'.
    + rewrite (IH by_x Hfetch l). split.
      * intros (body' & (v' & resp' & Hv & Hget) & ->).
        exists body'. split; [|reflexivity].
        exists v', resp'. split; [now right|exact Hget].
      * intros (body' & (v' & resp' & [<-|Hv] & Hget & Hok' & Hjson) & ->).
        -- rewrite Hresp in Hget. injection Hget as <-. congruence.
        -- exists body'. split; [|reflexivity]. now exists v', resp'.
Qed.

(** Within one category the per-value results are united and every
    identifier is kept once. *)
Lemma fetch_category_spec {A}
    (get : string -> outcome (Response.t (list A)))
    (extract : list A -> list HospitalResponse.t) values sets :
  fetch_category get extract values = Returned sets ->
  forall s, In s sets ->
    List.NoDup (ids s)
    /\ (forall i, In i (ids s) <->
          exists body, fetched get (default [] values) body
                       /\ In i (ids (extract body)))
    /\ (forall h, In h s ->
          exists body, fetched get (default [] values) body
                       /\ In h (extract body)).
Proof.
  unfold fetch_category. intros Hfetch s Hs.
  destruct (truthy_list values); [|injection Hfetch as <-; destruct Hs].
  bind_inv Hfetch by_x Hby. injection Hfetch as <-.
  unfold category_set in Hs.
  destruct (nonempty by_x); [|destruct Hs].
  destruct Hs as [<-|[]].
  destruct (by_id_values_spec (concat by_x)) as (Hnd & Hids & Hsub).
  pose proof (fetch_each_spec get extract _ _ Hby) as Hspec.
  split; [exact Hnd|]. split.
  - intros i. rewrite Hids, concat_map, in_concat. split.
    + intros (l & Hl & Hi). apply in_map_iff in Hl as (l' & <- & Hl').
      apply Hspec in Hl' as (body & Hbody & ->). now exists body.
    + intros (body & Hbody & Hi). exists (ids (extract body)).
      split; [|exact Hi]. apply in_map, Hspec. now exists body.
  - intros h Hh. apply Hsub, in_concat in Hh as (l & Hl & Hh).
    apply Hspec in Hl as (body & Hbody & ->). now exists body.
Qed.

Lemma category_sets_inv b a hospital_sets :
  category_sets b a = Returned hospital_sets ->
  exists test_types cost_ranges hospital_types by_test by_cost by_type,
    normalize TEST_TYPE (HospitalSearch.test_types a) = Returned test_types
    /\ normalize COST_RANGE (HospitalSearch.cost_ranges a)
       = Returned cost_ranges
    /\ normalize HOSPITAL_TYPE (HospitalSearch.hospital_types a)
       = Returned hospital_types
    /\ fetch_category (test_v1_type b) hospitals_of_tests test_types
       = Returned by_test
    /\ fetch_category (hospital_v1_cost_range b) (fun l => l) cost_ranges
       = Returned by_cost
    /\ fetch_category (hospital_v1_type b) (fun l => l) hospital_types
       = Returned by_type
    /\ hospital_sets = by_test ++ by_cost ++ by_type.
Proof.
  unfold category_sets. intros Hsets.
  bind_inv Hsets test_types Htt. bind_inv Hsets cost_ranges Hcr.
  bind_inv Hsets hospital_types Hht. bind_inv Hsets by_test Hbt.
  bind_inv Hsets by_cost Hbc. bind_inv Hsets by_type Hby.
  injection Hsets as <-.
  now exists test_types, cost_ranges, hospital_types,
    by_test, by_cost, by_type.
Qed.

Lemma or_all_hospitals_nonempty b hospital_sets :
  hospital_sets <> [] ->
  or_all_hospitals b hospital_sets = Returned hospital_sets.
Proof.
  intros Hne. apply nonempty_true in Hne.
  unfold or_all_hospitals. now rewrite Hne.
Qed.

Lemma category_sets_unfiltered b a :
  truthy_list (HospitalSearch.test_types a) = false ->
  truthy_list (HospitalSearch.cost_ranges a) = false ->
  truthy_list (HospitalSearch.hospital_types a) = false ->
  category_sets b a = Returned [].
Proof.
  intros Ht Hc Hh. unfold category_sets, normalize, fetch_category.
  rewrite Ht, Hc, Hh. simpl. now rewrite Ht, Hc, Hh.
Qed.
End PoolFacts.

(** ** A fixture: three hospitals behind the services *)

Module Fixture.
Definition dhaka : LocationResponse.t :=
  LocationResponse.mk 10 (Some "Dhanmondi") (Some "Jigatola")
    (Some "Dhaka") (Some 4).

Definition sylhet : LocationResponse.t :=
  LocationResponse.mk 11 (Some "Kotwali") (Some "Sylhet Sadar")
    (Some "Sylhet") (Some 7).

Definition city_general : HospitalResponse.t :=
  HospitalResponse.mk 1 "City General Hospital" ["PUBLIC"; "GENERAL"]
    (Some 12) "LOW" (Some (2375 # 100)) (Some (9038 # 100)) (Some dhaka).

Definition green_life : HospitalResponse.t :=
  HospitalResponse.mk 2 "Green Life Hospital" ["PUBLIC"] None "LOW"
    (Some (2374 # 100)) (Some (9037 # 100)) (Some dhaka).

Definition mount_adora : HospitalResponse.t :=
  HospitalResponse.mk 3 "Mount Adora Hospital" ["PUBLIC"; "SPECIALIZED"]
    (Some 30) "HIGH" None None (Some sylhet).

(** A hospital the services list under identifier 0. *)
Definition unnumbered : HospitalResponse.t :=
  HospitalResponse.mk 0 "Pilot Clinic" ["PRIVATE"] (Some 2) "LOW"
    None None (Some dhaka).

Definition ok {A} (body : A) : outcome (Response.t A) :=
  Returned (Response.mk 200 (Returned body) "[...]").

Definition not_found {A} : outcome (Response.t A) :=
  Returned (Response.mk 404 (Raised JSONDecodeError) "Not Found").

Definition blood_test : TestResponse.t :=
  TestResponse.mk 100 "CBC" ["BLOOD"] (Some city_general).

Definition feedback (id rating : Z) : FeedbackResponse.t :=
  FeedbackResponse.mk id 0 (Some rating) "".

Definition cardiology : DepartmentResponse.t :=
  DepartmentResponse.mk 1 "Cardiology Department".

Definition dr_rahman : DoctorResponse.t :=
  DoctorResponse.mk 7 "Dr. Rahman" ["Cardiology"; "Internal Medicine"]
    (Some cardiology) (Some dhaka)
    [DoctorHospitalResponse.mk 1 1 "City General Hospital"].

Definition dr_karim : DoctorResponse.t :=
  DoctorResponse.mk 8 "Dr. Karim" ["Neurology"] None (Some sylhet)
    [DoctorHospitalResponse.mk 2 3 "Mount Adora Hospital"].

(** Fetch order of the full list: identifiers 3, 1, 2. *)
Definition all_hospitals : list HospitalResponse.t :=
  [mount_adora; city_general; green_life].

Definition backend : Backend := {|
  test_v1_id := fun id =>
    if id =? 100 then ok blood_test else not_found;
  test_v1_type := fun type =>
    if String.eqb type "BLOOD" then ok [blood_test] else not_found;
  test_v1_hospital := fun id =>
    if id =? 1 then ok [blood_test] else not_found;
  hospital_v1_cost_range := fun range =>
    if String.eqb range "LOW" then ok [city_general; green_life]
    else if String.eqb range "HIGH" then ok [mount_adora]
    else not_found;
  hospital_v1_type := fun type =>
    if String.eqb type "PUBLIC" then ok [green_life; mount_adora]
    else if String.eqb type "SPECIALIZED" then ok [mount_adora]
    else not_found;
  hospital_v1_all := ok all_hospitals;
  feedback_v1_hospital := fun id =>
    if id =? 2 then ok [feedback 1 4; feedback 2 5]
    else if id =? 0 then ok [feedback 3 5]
    else if id =? 3 then Raised (HTTPError "connection refused")
    else not_found;
  doctor_v1_all := ok [dr_rahman; dr_karim]
|}.

Definition unavailable {A} : outcome (Response.t A) :=
  Returned (Response.mk 503 (Raised JSONDecodeError) "Service Unavailable").

(** The same services while the category endpoints answer 503. *)
Definition degraded : Backend := {|
  test_v1_id := test_v1_id backend;
  test_v1_type := fun _ => unavailable;
  test_v1_hospital := test_v1_hospital backend;
  hospital_v1_cost_range := fun _ => unavailable;
  hospital_v1_type := fun _ => unavailable;
  hospital_v1_all := hospital_v1_all backend;
  feedback_v1_hospital := feedback_v1_hospital backend;
  doctor_v1_all := doctor_v1_all backend
|}.

(** The same services once the full list also holds the hospital listed
    under identifier 0. *)
Definition pilot : Backend := {|
  test_v1_id := test_v1_id backend;
  test_v1_type := test_v1_type backend;
  test_v1_hospital := test_v1_hospital backend;
  hospital_v1_cost_range := hospital_v1_cost_range backend;
  hospital_v1_type := hospital_v1_type backend;
  hospital_v1_all := ok [unnumbered; green_life];
  feedback_v1_hospital := feedback_v1_hospital backend;
  doctor_v1_all := doctor_v1_all backend
|}.

(** [hospital_search(cost_ranges=["LOW"], hospital_types=["PUBLC"])] *)
Definition low_public : HospitalSearch.args :=
  HospitalSearch.with_cost_ranges (Some ["LOW"])
    (HospitalSearch.with_hospital_types (Some ["PUBLC"])
       HospitalSearch.defaults).

(** [hospital_search(test_types=["BLOD"], cost_ranges=["HIGH"])] *)
Definition blood_high : HospitalSearch.args :=
  HospitalSearch.with_test_types (Some ["BLOD"])
    (HospitalSearch.with_cost_ranges (Some ["HIGH"])
       HospitalSearch.defaults).

(** [hospital_search(test_types=["BLOOD"], cost_ranges=["LOW"])] *)
Definition blood_low : HospitalSearch.args :=
  HospitalSearch.with_test_types (Some ["BLOOD"])
    (HospitalSearch.with_cost_ranges (Some ["LOW"])
       HospitalSearch.defaults).

(** [hospital_search(test_types=["xray", "mri"])] *)
Definition unknown_tests : HospitalSearch.args :=
  HospitalSearch.with_test_types (Some ["xray"; "mri"])
    HospitalSearch.defaults.

(** [hospital_search(zone_id=0)] *)
Definition zone_zero : HospitalSearch.args :=
  HospitalSearch.mk None None None None None None None (Some 0) None None
    None None (Some 5).

(** [doctor_search(specialties=["Cardiolgy"], city="dhaka")] *)
Definition cardiologists : DoctorSearch.args :=
  DoctorSearch.mk (Some ["Cardiolgy"]) None None (Some "dhaka") None
    (Some 10).

(** A tool whose output names the tool that ran. *)
Definition invoke (tool : Tool.t) (tool_call : ToolCall.t)
    : outcome string :=
  Returned ("[result of " +:+ Tool.name tool +:+ "]").

Definition call (name id : string) : ToolCall.t := ToolCall.mk name "{}" id.

Definition first_round : AIMessage.t :=
  AIMessage.mk "" [call "Hospital_Search" "call_1"].

Definition second_round : AIMessage.t :=
  AIMessage.mk "" [call "get_test_by_id" "call_2"].

Definition final_reply : AIMessage.t :=
  AIMessage.mk "Green Life Hospital is rated 4.5." [].

Definition request : ChatRequest.t :=
  ChatRequest.mk "u1" "Which public hospital is cheap?" "user"
    "2025-01-01T00:00:00".
End Fixture.

(** ** hospital_search: the candidate pool *)

Section CandidatePool.
Context `{PyRuntime}.

Lemma candidate_pool_of_sets b a hospital_sets :
  category_sets b a = Returned hospital_sets ->
  (exists s, In s hospital_sets /\ s <> []) ->
  exists pool,
    candidate_pool b a = Returned pool
    /\ List.NoDup (ids pool)
    /\ (forall i, In i (ids pool) <->
          forall s, In s hospital_sets -> s <> [] -> In i (ids s))
    /\ (forall h, In h pool -> exists s, In s hospital_sets /\ In h s).
Proof.
  intros Hsets Hsome.
  destruct (intersect_hospitals_spec hospital_sets)
    as (pool & Hpool & Hnd & Hsub & Hids).
  exists pool. split.
  - unfold candidate_pool. rewrite Hsets. simpl.
    rewrite or_all_hospitals_nonempty; [exact Hpool|].
    destruct Hsome as (s & Hs & _). intros ->. destruct Hs.
  - split; [exact Hnd|]. split.
    + intros i. rewrite Hids. tauto.
    + intros h Hh. apply Hsub, in_concat in Hh. exact Hh.
Qed.

Lemma candidate_pool_all b a resp all :
  truthy_list (HospitalSearch.test_types a) = false ->
  truthy_list (HospitalSearch.cost_ranges a) = false ->
  truthy_list (HospitalSearch.hospital_types a) = false ->
  hospital_v1_all b = Returned resp ->
  success resp = true ->
  Response.json resp = Returned all ->
  exists pool,
    candidate_pool b a = Returned pool
    /\ List.NoDup (ids pool)
    /\ (forall i, In i (ids pool) <-> In i (ids all))
    /\ (forall h, In h pool -> In h all).
Proof.
  intros Ht Hc Hh Hresp Hok Hjson.
  destruct (intersect_hospitals_spec [all])
    as (pool & Hpool & Hnd & Hsub & Hids).
  exists pool. split.
  - unfold candidate_pool.
    rewrite (category_sets_unfiltered b a Ht Hc Hh). simpl.
    unfold or_all_hospitals. simpl. rewrite Hresp. simpl.
    rewrite Hok, Hjson. exact Hpool.
  - split; [exact Hnd|]. split.
    + intros i. rewrite Hids. split.
      * intros [(s & [<-|[]] & Hne) Hall]. apply Hall; [now left|exact Hne].
      * intros Hi. split.
        -- exists all. split; [now left|]. intros ->. destruct Hi.
        -- now intros s [<-|[]] _.
    + intros h Hh'. apply Hsub in Hh'. simpl in Hh'.
      now rewrite app_nil_r in Hh'.
Qed.

(** The identifiers a category fetched: those of the hospitals that
    [extract] finds in the body of a successful request for one of the
    values of the category. *)
Definition category_ids {A} (get : string -> outcome (Response.t (list A)))
    (extract : list A -> list HospitalResponse.t)
    (values : option (list string)) (i : Z) : Prop :=
  exists body,
    fetched get (default [] values) body /\ In i (ids (extract body)).

(** The three categories, for the normalised arguments: the hospitals
    carried by the tests of the test types, the hospitals of the cost
    ranges, the hospitals of the hospital types. *)
Definition fetched_ids (b : Backend)
    (test_types cost_ranges hospital_types : option (list string))
    : list (Z -> Prop) :=
  [category_ids (test_v1_type b) (omap TestResponse.hospitalResponse)
     test_types;
   category_ids (hospital_v1_cost_range b) (fun l => l) cost_ranges;
   category_ids (hospital_v1_type b) (fun l => l) hospital_types].

(** What one category adds to [hospital_sets]: every non-empty set it adds
    has the identifiers fetched, each once, and it adds such a set as soon
    as it fetched a hospital. *)
Definition contributes (fetched_x : Z -> Prop)
    (sets : list (list HospitalResponse.t)) : Prop :=
  (forall s, In s sets ->
     List.NoDup (ids s) /\ forall i, In i (ids s) <-> fetched_x i)
  /\ ((exists j, fetched_x j) -> exists s, In s sets /\ s <> []).

Lemma ids_nonempty (s : list HospitalResponse.t) :
  s <> [] <-> exists j, In j (ids s).
Proof.
  destruct s as [|h s]; split.
  - now intros [].
  - intros (j & []).
  - intros _. exists (HospitalResponse.id h). now left.
  - discriminate.
Qed.

Lemma fetch_category_contributes {A}
    (get : string -> outcome (Response.t (list A)))
    (extract : list A -> list HospitalResponse.t) values sets :
  fetch_category get extract values = Returned sets ->
  contributes (category_ids get extract values) sets.
Proof.
  intros Hfetch. split.
  - intros s Hs.
    destruct (fetch_category_spec _ _ _ _ Hfetch s Hs) as (Hnd & Hids & _).
    split; [exact Hnd|exact Hids].
  - intros (j & body & Hbody & Hj).
    unfold fetch_category in Hfetch.
    destruct (truthy_list values) eqn:Htruthy.
    + bind_inv Hfetch by_x Hby. injection Hfetch as <-.
      pose proof (fetch_each_spec get extract _ _ Hby (extract body))
        as Hspec.
      assert (Hin : In (extract body) by_x)
        by (apply Hspec; now exists body).
      unfold category_set.
      destruct by_x as [|l by_x]; [destruct Hin|]. cbn [nonempty].
      eexists. split; [now left|]. apply ids_nonempty. exists j.
      destruct (by_id_values_spec (concat (l :: by_x))) as (_ & Hids & _).
      apply Hids. rewrite concat_map, in_concat.
      exists (ids (extract body)). split; [now apply in_map|exact Hj].
    + destruct Hbody as (v & _ & Hv & _).
      destruct values as [[|]|]; try discriminate; destruct Hv.
Qed.

(** C2. The category filters are the test types, the cost ranges and the
    hospital types, each with its normalised values.  A category that
    fetched a hospital adds one non-empty set to [hospital_sets], holding
    the identifiers it fetched over all its values, each once; nothing else
    is a non-empty set of [hospital_sets].  As soon as one category
    fetched a hospital, the candidate pool holds exactly the identifiers
    common to all the categories that fetched one (the intersection, of
    two or more categories and just as well of one), each once, with a
    fetched record under each; two categories that fetched disjoint
    identifiers leave the pool empty.  When no category filter is
    supplied, the pool holds the identifiers of the full all-hospitals
    list, with records of that list. *)
Theorem candidate_pool_intersection (b : Backend)
    (a : HospitalSearch.args) hospital_sets :
  category_sets b a = Returned hospital_sets ->
  (exists test_types cost_ranges hospital_types,
     normalize TEST_TYPE (HospitalSearch.test_types a)
     = Returned test_types
     /\ normalize COST_RANGE (HospitalSearch.cost_ranges a)
        = Returned cost_ranges
     /\ normalize HOSPITAL_TYPE (HospitalSearch.hospital_types a)
        = Returned hospital_types
     /\ let fetched_ids :=
          fetched_ids b test_types cost_ranges hospital_types in
        (forall fetched_x, In fetched_x fetched_ids ->
           (exists j, fetched_x j) ->
           exists s,
             In s hospital_sets /\ s <> [] /\ List.NoDup (ids s)
             /\ forall i, In i (ids s) <-> fetched_x i)
        /\ (forall s, In s hospital_sets -> s <> [] ->
              exists fetched_x,
                In fetched_x fetched_ids /\ List.NoDup (ids s)
                /\ forall i, In i (ids s) <-> fetched_x i)
        /\ ((exists fetched_x j, In fetched_x fetched_ids /\ fetched_x j) ->
            exists pool,
              candidate_pool b a = Returned pool
              /\ List.NoDup (ids pool)
              /\ (forall i, In i (ids pool) <->
                    forall fetched_x, In fetched_x fetched_ids ->
                      (exists j, fetched_x j) -> fetched_x i)
              /\ (forall i, In i (ids pool) <->
                    forall s, In s hospital_sets -> s <> [] ->
                              In i (ids s))
              /\ (forall h, In h pool ->
                    exists s, In s hospital_sets /\ In h s)
              /\ (forall fetched_x fetched_y,
                    In fetched_x fetched_ids -> In fetched_y fetched_ids ->
                    (exists j, fetched_x j) -> (exists j, fetched_y j) ->
                    (forall i, fetched_x i -> ~ fetched_y i) ->
                    pool = [])))
  /\ (truthy_list (HospitalSearch.test_types a) = false ->
      truthy_list (HospitalSearch.cost_ranges a) = false ->
      truthy_list (HospitalSearch.hospital_types a) = false ->
      forall resp all,
        hospital_v1_all b = Returned resp ->
        success resp = true ->
        Response.json resp = Returned all ->
        exists pool,
          candidate_pool b a = Returned pool
          /\ List.NoDup (ids pool)
          /\ (forall i, In i (ids pool) <-> In i (ids all))
          /\ (forall h, In h pool -> In h all)).
Proof.
  intros Hsets. split.
  2:{ intros Ht Hc Hh resp all Hresp Hok Hjson.
      now apply candidate_pool_all with resp. }
  destruct (category_sets_inv b a _ Hsets)
    as (tt & cr & ht & by_test & by_cost & by_type
        & Htt & Hcr & Hht & Hbt & Hbc & Hby & ->).
  exists tt, cr, ht. repeat (split; [assumption|]).
  apply fetch_category_contributes in Hbt as [Hbt_sets Hbt_adds].
  apply fetch_category_contributes in Hbc as [Hbc_sets Hbc_adds].
  apply fetch_category_contributes in Hby as [Hby_sets Hby_adds].
  unfold fetched_ids. cbv zeta.
  assert (Hadds : forall fetched_x,
    In fetched_x
      [category_ids (test_v1_type b) (omap TestResponse.hospitalResponse)
         tt;
       category_ids (hospital_v1_cost_range b) (fun l => l) cr;
       category_ids (hospital_v1_type b) (fun l => l) ht] ->
    (exists j, fetched_x j) ->
    exists s,
      In s (by_test ++ by_cost ++ by_type) /\ s <> []
      /\ List.NoDup (ids s) /\ forall i, In i (ids s) <-> fetched_x i).
  { intros X [<-|[<-|[<-|[]]]] Hsome.
    - destruct (Hbt_adds Hsome) as (s & Hs & Hne).
      exists s. split; [apply in_or_app; now left|].
      split; [exact Hne|]. now apply Hbt_sets.
    - destruct (Hbc_adds Hsome) as (s & Hs & Hne).
      exists s. split; [apply in_or_app; right; apply in_or_app; now left|].
      split; [exact Hne|]. now apply Hbc_sets.
    - destruct (Hby_adds Hsome) as (s & Hs & Hne).
      exists s. split; [apply in_or_app; right; apply in_or_app; now right|].
      split; [exact Hne|]. now apply Hby_sets. }
  assert (Hsets_of : forall s,
    In s (by_test ++ by_cost ++ by_type) -> s <> [] ->
    exists fetched_x,
      In fetched_x
        [category_ids (test_v1_type b)
           (omap TestResponse.hospitalResponse) tt;
         category_ids (hospital_v1_cost_range b) (fun l => l) cr;
         category_ids (hospital_v1_type b) (fun l => l) ht]
      /\ List.NoDup (ids s) /\ forall i, In i (ids s) <-> fetched_x i).
  { intros s Hs _. apply in_app_or in Hs as [Hs|Hs];
      [|apply in_app_or in Hs as [Hs|Hs]].
    - eexists. split; [now left|]. now apply Hbt_sets.
    - eexists. split; [right; now left|]. now apply Hbc_sets.
    - eexists. split; [right; right; now left|]. now apply Hby_sets. }
  split; [exact Hadds|]. split; [exact Hsets_of|].
  intros (X & j & HX & Hj).
  destruct (Hadds X HX (ex_intro _ j Hj)) as (s0 & Hs0 & Hne0 & _).
  destruct (candidate_pool_of_sets b a _ Hsets
              (ex_intro _ s0 (conj Hs0 Hne0)))
    as (pool & Hpool & Hnd & Hids & Hsub).
  assert (Hcommon : forall i, In i (ids pool) <->
    forall fetched_x,
      In fetched_x
        [category_ids (test_v1_type b)
           (omap TestResponse.hospitalResponse) tt;
         category_ids (hospital_v1_cost_range b) (fun l => l) cr;
         category_ids (hospital_v1_type b) (fun l => l) ht] ->
      (exists j, fetched_x j) -> fetched_x i).
  { intros i. rewrite Hids. split.
    - intros Hall Y HY Hsome.
      destruct (Hadds Y HY Hsome) as (s & Hs & Hne & _ & Hs_ids).
      apply Hs_ids. now apply Hall.
    - intros Hall s Hs Hne.
      destruct (Hsets_of s Hs Hne) as (Y & HY & _ & Hs_ids).
      apply Hs_ids. apply Hall; [exact HY|].
      apply ids_nonempty in Hne as (k & Hk). exists k. now apply Hs_ids. }
  exists pool. split; [exact Hpool|]. split; [exact Hnd|].
  split; [exact Hcommon|]. split; [exact Hids|]. split; [exact Hsub|].
  intros Y Z HY HZ HsomeY HsomeZ Hdisj.
  destruct pool as [|h pool]; [reflexivity|]. exfalso.
  assert (Hi : In (HospitalResponse.id h) (ids (h :: pool))) by now left.
  pose proof (proj1 (Hcommon _) Hi) as Hall.
  apply (Hdisj (HospitalResponse.id h)); now apply Hall.
Qed.
End CandidatePool.

(** ** The filter pass *)

Section FilterPass.
Context `{PyRuntime} `{PyFloat}.

(** [f(x)] returns [True]. *)
Definition returns_true {A} (f : A -> outcome bool) (x : A) : bool :=
  match f x with
  | Returned keep => keep
  | Raised _ => false
  end.

(** [hospital_filter(h)] returns [True]. *)
Definition passes (a : HospitalSearch.args) (h : HospitalResponse.t)
    : bool :=
  returns_true (hospital_filter a) h.

(** [f] returns, [True] or [False], on every element of [l]. *)
Definition returns_on {A} (f : A -> outcome bool) (l : list A) : Prop :=
  forall x, In x l -> exists keep, f x = Returned keep.

(** The first element of [l] on which [f] raises, with its exception. *)
Definition first_raise {A} (f : A -> outcome bool) (l : list A)
    (x : A) (e : exn) : Prop :=
  exists before after,
    l = before ++ x :: after /\ returns_on f before /\ f x = Raised e.

Lemma passes_true a h :
  passes a h = true <-> hospital_filter a h = Returned true.
Proof.
  unfold passes, returns_true.
  destruct (hospital_filter a h) as [[|]|e]; split; congruence.
Qed.

Lemma filter_each_Returned {A} (f : A -> outcome bool) l filtered :
  filter_each f l = Returned filtered <->
  returns_on f l /\ filtered = List.filter (returns_true f) l.
Proof.
  revert filtered. induction l as [|x l IH]; intros filtered; simpl.
  - split.
    + intros [= <-]. split; [intros ? []|reflexivity].
    + now intros [_ ->].
  - unfold returns_true at 1. split.
    + intros Hf. destruct (f x) as [keep|e] eqn:Hx; [|discriminate].
      simpl in Hf.
      destruct (filter_each f l) as [rest|e] eqn:Hrest; [|discriminate].
      injection Hf as <-.
      destruct (proj1 (IH rest) eq_refl) as [Hret ->]. split.
      * intros y [<-|Hy]; [eauto|now apply Hret].
      * reflexivity.
    + intros [Hret ->].
      destruct (Hret x) as [keep Hx]; [now left|]. rewrite Hx. simpl.
      rewrite (proj2 (IH (List.filter (returns_true f) l))).
      * reflexivity.
      * split; [|reflexivity]. intros y Hy. apply Hret. now right.
Qed.

Lemma filter_each_Raised {A} (f : A -> outcome bool) l e :
  filter_each f l = Raised e <-> exists x, first_raise f l x e.
Proof.
  induction l as [|x l IH]; simpl.
  - split; [discriminate|]. intros (y & [|? ?] & after & [=] & _).
  - split.
    + intros Hf. destruct (f x) as [keep|e'] eqn:Hx.
      * simpl in Hf. destruct (filter_each f l) as [rest|e'] eqn:Hrest;
          [discriminate|].
        injection Hf as ->.
        destruct (proj1 IH eq_refl) as (y & before & after & -> & Hret & Hy).
        exists y, (x :: before), after. split; [reflexivity|].
        split; [|exact Hy]. intros z [<-|Hz]; [eauto|now apply Hret].
      * injection Hf as ->. exists x, [], l.
        split; [reflexivity|]. split; [intros ? []|exact Hx].
    + intros (y & before & after & Heq & Hret & Hy).
      destruct before as [|z before]; simpl in Heq;
        injection Heq as <- ->.
      * now rewrite Hy.
      * destruct (Hret x) as [keep ->]; [now left|]. simpl.
        rewrite (proj2 IH); [reflexivity|].
        exists y, before, after. split; [reflexivity|].
        split; [|exact Hy]. intros w Hw. apply Hret. now right.
Qed.

(** The survivors of the filter pass, each with its ratings. *)
Definition survivors (b : Backend) (a : HospitalSearch.args)
    (hospitals : list HospitalResponse.t) : list RatedHospital.t :=
  map (add_ratings b) (List.filter (passes a) hospitals).

Lemma rank_Returned b a hospitals :
  returns_on (hospital_filter a) hospitals ->
  rank b a hospitals
  = Returned
      (slice_to (HospitalSearch.top_n a)
         (sorted_reverse RatedHospital.averageRating
            (survivors b a hospitals))).
Proof.
  intros Hret. unfold rank.
  now rewrite (proj2 (filter_each_Returned (hospital_filter a) hospitals _)
                 (conj Hret eq_refl)).
Qed.

Lemma rank_Raised b a hospitals e :
  rank b a hospitals = Raised e <->
  exists h, first_raise (hospital_filter a) hospitals h e.
Proof.
  rewrite <- filter_each_Raised. unfold rank.
  destruct (filter_each (hospital_filter a) hospitals); simpl;
    split; congruence.
Qed.

Lemma rank_inv b a hospitals result :
  rank b a hospitals = Returned result ->
  returns_on (hospital_filter a) hospitals
  /\ result
     = slice_to (HospitalSearch.top_n a)
         (sorted_reverse RatedHospital.averageRating
            (survivors b a hospitals)).
Proof.
  unfold rank. intros Hrank.
  destruct (filter_each (hospital_filter a) hospitals) as [filtered|e]
    eqn:Hf; [|discriminate].
  apply filter_each_Returned in Hf as [Hret ->].
  injection Hrank as <-. now split.
Qed.

(** The search once the pool is there and the filter returns on it. *)
Lemma hospital_search_of_pool b a pool :
  candidate_pool b a = Returned pool ->
  returns_on (hospital_filter a) pool ->
  exists ranked,
    hospital_search_tool b a
    = Returned (slice_to (HospitalSearch.top_n a) ranked)
    /\ Permutation ranked (survivors b a pool)
    /\ StronglySorted (desc RatedHospital.averageRating) ranked
    /\ (forall r,
          with_key RatedHospital.averageRating r ranked
          = with_key RatedHospital.averageRating r (survivors b a pool)).
Proof.
  intros Hpool Hret.
  exists (sorted_reverse RatedHospital.averageRating (survivors b a pool)).
  split.
  - unfold hospital_search_tool. rewrite Hpool. simpl.
    now apply rank_Returned.
  - split; [apply sorted_reverse_Permutation|].
    split; [apply sorted_reverse_sorted|].
    intros r. apply sorted_reverse_stable.
Qed.

(** An exception of [hospital_filter] is an exception of the search. *)
Lemma hospital_search_raises b a pool e :
  candidate_pool b a = Returned pool ->
  hospital_search_tool b a = Raised e <->
  exists h, first_raise (hospital_filter a) pool h e.
Proof.
  intros Hpool. unfold hospital_search_tool. rewrite Hpool. simpl.
  apply rank_Raised.
Qed.
End FilterPass.

(** ** Enum normalisation *)

Section Normalisation.
Context `{PyRuntime} `{PyFloat}.

Lemma Qlt_bool_iff a b : Qlt_bool a b = true <-> (a < b)%Q.
Proof.
  unfold Qlt_bool. rewrite negb_true_iff. split.
  - intros Hle. apply Qnot_le_lt. intros Hba.
    apply Qle_bool_iff in Hba. congruence.
  - intros Hlt. destruct (Qle_bool b a) eqn:Hle; [|reflexivity].
    apply Qle_bool_iff in Hle. exfalso. now apply (Qlt_not_le a b).
Qed.

Lemma Qlt_bool_false a b : Qlt_bool a b = false <-> (b <= a)%Q.
Proof.
  unfold Qlt_bool. rewrite negb_false_iff. apply Qle_bool_iff.
Qed.

(** [extractOne] returns a choice of maximal score. *)
Lemma extractOne_spec query choices :
  match extractOne query choices with
  | Some (c, score) =>
      In c choices /\ score = fuzz_ratio query c
      /\ forall c', In c' choices -> (fuzz_ratio query c' <= score)%Q
  | None => choices = []
  end.
Proof.
  induction choices as [|c choices IH]; simpl; [reflexivity|].
  destruct (extractOne query choices) as [[c' score']|].
  - destruct IH as (Hin & -> & Hmax).
    destruct (Qle_bool _ _) eqn:Hle.
    + apply Qle_bool_iff in Hle.
      split; [now left|]. split; [reflexivity|].
      intros c0 [<-|Hc0]; [apply Qle_refl|].
      apply Qle_trans with (fuzz_ratio query c'); auto.
    + split; [now right|]. split; [reflexivity|].
      intros c0 [<-|Hc0]; [|now apply Hmax].
      apply Qlt_le_weak, Qnot_le_lt. intros Hc.
      apply Qle_bool_iff in Hc. congruence.
  - subst choices. split; [now left|]. split; [reflexivity|].
    intros c0 [<-|[]]. apply Qle_refl.
Qed.

Lemma fuzzy_enum_match_spec value choices :
  choices <> [] ->
  match fuzzy_enum_match value choices with
  | Returned (Some m) =>
      In m choices /\ (threshold <= fuzz_ratio value m)%Q
      /\ forall c, In c choices ->
           (fuzz_ratio value c <= fuzz_ratio value m)%Q
  | Returned None =>
      forall c, In c choices -> (fuzz_ratio value c < threshold)%Q
  | Raised _ => False
  end.
Proof.
  intros Hne. unfold fuzzy_enum_match.
  pose proof (extractOne_spec value choices) as Hspec.
  destruct (extractOne value choices) as [[c score]|]; [|contradiction].
  destruct Hspec as (Hin & -> & Hmax).
  destruct (Qle_bool threshold _) eqn:Hle.
  - apply Qle_bool_iff in Hle. auto.
  - intros c' Hc'. apply Qle_lt_trans with (fuzz_ratio value c); auto.
    apply Qnot_le_lt. intros Hc. apply Qle_bool_iff in Hc. congruence.
Qed.

(** What one token contributes to the normalised list. *)
Definition token_result (valid : list string) (token : string)
    : list string :=
  match fuzzy_enum_match token valid with
  | Returned (Some m) => [m]
  | _ => []
  end.

Definition enums : list (list string) :=
  [TEST_TYPE; COST_RANGE; HOSPITAL_TYPE].

Lemma enums_wf valid :
  In valid enums -> valid <> [] /\ ~ In "" valid.
Proof.
  intros [<-|[<-|[<-|[]]]]; (split; [discriminate|]);
    simpl; intuition discriminate.
Qed.

Lemma matched_tokens_spec valid tokens :
  In valid enums ->
  matched_tokens valid tokens
  = Returned (flat_map (token_result valid) tokens).
Proof.
  intros Hvalid. destruct (enums_wf valid Hvalid) as [Hne Hempty].
  induction tokens as [|t tokens IH]; simpl; [reflexivity|].
  unfold token_result at 1.
  pose proof (fuzzy_enum_match_spec t valid Hne) as Hspec.
  destruct (fuzzy_enum_match t valid) as [[m|]|e]; simpl;
    [| |contradiction]; rewrite IH; simpl; [|reflexivity].
  destruct Hspec as (Hin & _).
  destruct (String.eqb_spec m ""); [subst; contradiction|reflexivity].
Qed.

Lemma token_result_dropped valid token :
  In valid enums ->
  (forall c, In c valid -> (fuzz_ratio token c < threshold)%Q) ->
  token_result valid token = [].
Proof.
  intros Hvalid Hlow. destruct (enums_wf valid Hvalid) as [Hne _].
  unfold token_result.
  pose proof (fuzzy_enum_match_spec token valid Hne) as Hspec.
  destruct (fuzzy_enum_match token valid) as [[m|]|e]; try reflexivity.
  destruct Hspec as (Hin & Hle & _). exfalso.
  apply (Qlt_not_le _ _ (Hlow m Hin) Hle).
Qed.

(** Every token scores below the threshold against every value. *)
Definition all_dropped (valid tokens : list string) : Prop :=
  forall t c, In t tokens -> In c valid ->
              (fuzz_ratio t c < threshold)%Q.

Lemma normalize_dropped valid tokens :
  In valid enums ->
  all_dropped valid tokens ->
  normalize valid (Some tokens) = Returned (Some []).
Proof.
  intros Hvalid Hdrop. unfold normalize.
  destruct tokens as [|t tokens]; [reflexivity|].
  cbn [truthy_list].
  change (default [] (Some (t :: tokens))) with (t :: tokens).
  rewrite (matched_tokens_spec valid _ Hvalid).
  assert (Hnil : flat_map (token_result valid) (t :: tokens) = []).
  { generalize (t :: tokens), Hdrop. clear t tokens Hdrop.
    induction l as [|x l IH]; intros Hdrop; simpl; [reflexivity|].
    rewrite token_result_dropped, IH; trivial.
    - intros t c Ht. apply Hdrop. now right.
    - intros c Hc. apply Hdrop; [now left|exact Hc]. }
  rewrite Hnil. reflexivity.
Qed.

Lemma normalize_Returned valid tokens :
  In valid enums -> exists tokens', normalize valid tokens = Returned tokens'.
Proof.
  intros Hvalid. unfold normalize.
  destruct (truthy_list tokens); [|now exists tokens].
  rewrite (matched_tokens_spec valid _ Hvalid). simpl. eauto.
Qed.

Lemma rank_with_test_types b v a hospitals :
  rank b (HospitalSearch.with_test_types v a) hospitals = rank b a hospitals.
Proof. reflexivity. Qed.

Lemma rank_with_cost_ranges b v a hospitals :
  rank b (HospitalSearch.with_cost_ranges v a) hospitals
  = rank b a hospitals.
Proof. reflexivity. Qed.

Lemma rank_with_hospital_types b v a hospitals :
  rank b (HospitalSearch.with_hospital_types v a) hospitals
  = rank b a hospitals.
Proof. reflexivity. Qed.

(** The search only depends on a category through the sets it fetches. *)
Lemma hospital_search_tool_ext b a a' :
  category_sets b a = category_sets b a' ->
  (forall hospitals, rank b a hospitals = rank b a' hospitals) ->
  hospital_search_tool b a = hospital_search_tool b a'.
Proof.
  intros Hsets Hrank. unfold hospital_search_tool, candidate_pool.
  rewrite Hsets. destruct (category_sets b a') as [sets|e]; simpl; trivial.
  destruct (or_all_hospitals b sets) as [sets'|e]; simpl; trivial.
  destruct (intersect_hospitals sets') as [pool|e]; simpl;
    [apply Hrank|reflexivity].
Qed.

Lemma dropped_test_types b a tokens :
  HospitalSearch.test_types a = Some tokens ->
  all_dropped TEST_TYPE tokens ->
  hospital_search_tool b a
  = hospital_search_tool b (HospitalSearch.with_test_types None a).
Proof.
  intros Hargs Hdrop. apply hospital_search_tool_ext; [|reflexivity].
  unfold category_sets. simpl. rewrite Hargs.
  rewrite (normalize_dropped TEST_TYPE tokens); [|now left|exact Hdrop].
  reflexivity.
Qed.

Lemma dropped_cost_ranges b a tokens :
  HospitalSearch.cost_ranges a = Some tokens ->
  all_dropped COST_RANGE tokens ->
  hospital_search_tool b a
  = hospital_search_tool b (HospitalSearch.with_cost_ranges None a).
Proof.
  intros Hargs Hdrop. apply hospital_search_tool_ext; [|reflexivity].
  unfold category_sets. simpl. rewrite Hargs.
  rewrite (normalize_dropped COST_RANGE tokens);
    [|right; now left|exact Hdrop].
  reflexivity.
Qed.

Lemma dropped_hospital_types b a tokens :
  HospitalSearch.hospital_types a = Some tokens ->
  all_dropped HOSPITAL_TYPE tokens ->
  hospital_search_tool b a
  = hospital_search_tool b (HospitalSearch.with_hospital_types None a).
Proof.
  intros Hargs Hdrop. apply hospital_search_tool_ext; [|reflexivity].
  unfold category_sets. simpl. rewrite Hargs.
  rewrite (normalize_dropped HOSPITAL_TYPE tokens);
    [|right; right; now left|exact Hdrop].
  reflexivity.
Qed.

(** Normalisation keeps nothing of a category argument: the argument is
    absent or empty, or every token of it is dropped. *)
Definition nothing_kept (valid : list string)
    (tokens : option (list string)) : Prop :=
  forall ts, tokens = Some ts -> all_dropped valid ts.

Lemma normalize_nothing_kept valid tokens :
  In valid enums ->
  nothing_kept valid tokens ->
  exists kept,
    normalize valid tokens = Returned kept /\ truthy_list kept = false.
Proof.
  intros Hvalid Hnothing. destruct tokens as [ts|].
  - exists (Some []). split; [|reflexivity].
    apply normalize_dropped; [exact Hvalid|now apply Hnothing].
  - now exists None.
Qed.

Lemma category_sets_nothing_kept b a :
  nothing_kept TEST_TYPE (HospitalSearch.test_types a) ->
  nothing_kept COST_RANGE (HospitalSearch.cost_ranges a) ->
  nothing_kept HOSPITAL_TYPE (HospitalSearch.hospital_types a) ->
  category_sets b a = Returned [].
Proof.
  intros Ht Hc Hh. unfold category_sets.
  destruct (normalize_nothing_kept TEST_TYPE _ ltac:(now left) Ht)
    as (tt & -> & Htt).
  destruct (normalize_nothing_kept COST_RANGE _
              ltac:(right; now left) Hc) as (cr & -> & Hcr).
  destruct (normalize_nothing_kept HOSPITAL_TYPE _
              ltac:(right; right; now left) Hh) as (ht & -> & Hht).
  simpl. unfold fetch_category. now rewrite Htt, Hcr, Hht.
Qed.

(** With no category set the pool is what the all-hospitals request
    lists, and the search ranks the survivors of that pool. *)
Lemma all_hospitals_pool b a resp all :
  category_sets b a = Returned [] ->
  hospital_v1_all b = Returned resp ->
  success resp = true ->
  Response.json resp = Returned all ->
  exists pool,
    candidate_pool b a = Returned pool
    /\ List.NoDup (ids pool)
    /\ (forall i, In i (ids pool) <-> In i (ids all))
    /\ (forall h, In h pool -> In h all)
    /\ (returns_on (hospital_filter a) pool ->
        exists ranked,
          hospital_search_tool b a
          = Returned (slice_to (HospitalSearch.top_n a) ranked)
          /\ Permutation ranked (survivors b a pool)).
Proof.
  intros Hsets Hresp Hok Hjson.
  destruct (intersect_hospitals_spec [all])
    as (pool & Hpool & Hnd & Hsub & Hids).
  assert (Hcand : candidate_pool b a = Returned pool).
  { unfold candidate_pool. rewrite Hsets. simpl.
    unfold or_all_hospitals. simpl. rewrite Hresp. simpl.
    rewrite Hok, Hjson. exact Hpool. }
  exists pool. split; [exact Hcand|]. split; [exact Hnd|].
  split; [|split].
  - intros i. rewrite Hids. split.
    + intros [(s & [<-|[]] & Hne) Hall]. apply Hall; [now left|exact Hne].
    + intros Hi. split.
      * exists all. split; [now left|]. intros ->. destruct Hi.
      * now intros s [<-|[]] _.
  - intros h Hh'. apply Hsub in Hh'. simpl in Hh'.
    now rewrite app_nil_r in Hh'.
  - intros Hret.
    destruct (hospital_search_of_pool b a pool Hcand Hret)
      as (ranked & Hsearch & Hperm & _).
    now exists ranked.
Qed.

(** C3. Against each of the three enums, [fuzzy_enum_match] gives a
    token the canonical value of highest score when that score is at
    least 80 and nothing otherwise; the normalised list holds, token by
    token and in order, the value found and nothing for a token without
    one.  A category all of whose tokens are dropped makes no request and
    builds no set, so it leaves the search as it is without that
    category; and when nothing is kept of any category, no set is built at
    all, the pool has the identifiers of the all-hospitals list, and the
    search ranks the hospitals of that list that pass the filter: the
    dropped filter does not match nothing. *)
Theorem enum_normalization (b : Backend) (a : HospitalSearch.args) :
  (forall valid value, In valid enums ->
     match fuzzy_enum_match value valid with
     | Returned (Some m) =>
         In m valid /\ (80 <= fuzz_ratio value m)%Q
         /\ forall c, In c valid ->
              (fuzz_ratio value c <= fuzz_ratio value m)%Q
     | Returned None =>
         forall c, In c valid -> (fuzz_ratio value c < 80)%Q
     | Raised _ => False
     end)
  /\ (forall valid tokens, In valid enums ->
        normalize valid (Some tokens)
        = Returned (Some (flat_map (token_result valid) tokens)))
  /\ (forall tokens,
        HospitalSearch.test_types a = Some tokens ->
        all_dropped TEST_TYPE tokens ->
        hospital_search_tool b a
        = hospital_search_tool b (HospitalSearch.with_test_types None a))
  /\ (forall tokens,
        HospitalSearch.cost_ranges a = Some tokens ->
        all_dropped COST_RANGE tokens ->
        hospital_search_tool b a
        = hospital_search_tool b (HospitalSearch.with_cost_ranges None a))
  /\ (forall tokens,
        HospitalSearch.hospital_types a = Some tokens ->
        all_dropped HOSPITAL_TYPE tokens ->
        hospital_search_tool b a
        = hospital_search_tool b
            (HospitalSearch.with_hospital_types None a))
  /\ (forall A (get : string -> outcome (Response.t (list A))) extract
             valid tokens,
        In valid enums -> all_dropped valid tokens ->
        exists kept,
          normalize valid (Some tokens) = Returned kept
          /\ fetch_category get extract kept = Returned [])
  /\ (nothing_kept TEST_TYPE (HospitalSearch.test_types a) ->
      nothing_kept COST_RANGE (HospitalSearch.cost_ranges a) ->
      nothing_kept HOSPITAL_TYPE (HospitalSearch.hospital_types a) ->
      category_sets b a = Returned []
      /\ forall resp all,
           hospital_v1_all b = Returned resp ->
           success resp = true ->
           Response.json resp = Returned all ->
           exists pool,
             candidate_pool b a = Returned pool
             /\ List.NoDup (ids pool)
             /\ (forall i, In i (ids pool) <-> In i (ids all))
             /\ (forall h, In h pool -> In h all)
             /\ (returns_on (hospital_filter a) pool ->
                 exists ranked,
                   hospital_search_tool b a
                   = Returned (slice_to (HospitalSearch.top_n a) ranked)
                   /\ Permutation ranked (survivors b a pool))).
Proof.
  split; [|split; [|split; [|split; [|split; [|split]]]]].
  - intros valid value Hvalid.
    apply fuzzy_enum_match_spec. now apply enums_wf.
  - intros valid tokens Hvalid. unfold normalize.
    destruct tokens as [|t tokens]; [reflexivity|].
    cbn [truthy_list].
    change (default [] (Some (t :: tokens))) with (t :: tokens).
    now rewrite (matched_tokens_spec valid _ Hvalid).
  - apply dropped_test_types.
  - apply dropped_cost_ranges.
  - apply dropped_hospital_types.
  - intros A get extract valid tokens Hvalid Hdrop.
    exists (Some []). split; [now apply normalize_dropped|reflexivity].
  - intros Ht Hc Hh.
    pose proof (category_sets_nothing_kept b a Ht Hc Hh) as Hsets.
    split; [exact Hsets|].
    intros resp all Hresp Hok Hjson.
    now apply all_hospitals_pool with resp.
Qed.

(** Every request of a category is answered with a non-success status. *)
Definition all_fail {A} (get : string -> outcome (Response.t (list A)))
    (values : option (list string)) : Prop :=
  forall v, In v (default [] values) ->
    exists resp, get v = Returned resp /\ success resp = false.

Lemma fetch_each_fail {A} (get : string -> outcome (Response.t (list A)))
    (extract : list A -> list HospitalResponse.t) values :
  (forall v, In v values ->
     exists resp, get v = Returned resp /\ success resp = false) ->
  fetch_each get extract values = Returned [].
Proof.
  induction values as [|v values IH]; intros Hfail; simpl; [reflexivity|].
  destruct (Hfail v) as (resp & -> & Hno); [now left|]. simpl.
  rewrite Hno. apply IH. intros v' Hv'. apply Hfail. now right.
Qed.

Lemma fetch_category_fail {A}
    (get : string -> outcome (Response.t (list A)))
    (extract : list A -> list HospitalResponse.t) values :
  all_fail get values -> fetch_category get extract values = Returned [].
Proof.
  intros Hfail. unfold fetch_category.
  destruct (truthy_list values); [|reflexivity].
  now rewrite (fetch_each_fail get extract _ Hfail).
Qed.

(** C10. When every request made for the supplied category filters is
    answered with a non-success status, no category set is built and the
    all-hospitals list is requested: when that request succeeds the pool
    has the identifiers of the all-hospitals list, with records of that
    list, and the search ranks the hospitals of the list that pass the
    filter.  Pool and search are those of the same call without any
    category filter. *)
Theorem failed_categories_broaden (b : Backend) (a : HospitalSearch.args)
    test_types cost_ranges hospital_types :
  normalize TEST_TYPE (HospitalSearch.test_types a) = Returned test_types ->
  normalize COST_RANGE (HospitalSearch.cost_ranges a)
  = Returned cost_ranges ->
  normalize HOSPITAL_TYPE (HospitalSearch.hospital_types a)
  = Returned hospital_types ->
  all_fail (test_v1_type b) test_types ->
  all_fail (hospital_v1_cost_range b) cost_ranges ->
  all_fail (hospital_v1_type b) hospital_types ->
  category_sets b a = Returned []
  /\ candidate_pool b a
     = (hospital_sets ← or_all_hospitals b []; intersect_hospitals hospital_sets)
  /\ candidate_pool b a
     = candidate_pool b (HospitalSearch.without_categories a)
  /\ hospital_search_tool b a
     = hospital_search_tool b (HospitalSearch.without_categories a)
  /\ (forall resp all,
        hospital_v1_all b = Returned resp ->
        success resp = true ->
        Response.json resp = Returned all ->
        exists pool,
          candidate_pool b a = Returned pool
          /\ List.NoDup (ids pool)
          /\ (forall i, In i (ids pool) <-> In i (ids all))
          /\ (forall h, In h pool -> In h all)
          /\ (returns_on (hospital_filter a) pool ->
              exists ranked,
                hospital_search_tool b a
                = Returned (slice_to (HospitalSearch.top_n a) ranked)
                /\ Permutation ranked (survivors b a pool))).
Proof.
  intros Htt Hcr Hht Ftt Fcr Fht.
  assert (Hsets : category_sets b a = Returned []).
  { unfold category_sets. rewrite Htt, Hcr, Hht. simpl.
    rewrite (fetch_category_fail _ _ _ Ftt). simpl.
    rewrite (fetch_category_fail _ _ _ Fcr). simpl.
    now rewrite (fetch_category_fail _ _ _ Fht). }
  assert (Hnone : category_sets b (HospitalSearch.without_categories a)
                  = Returned [])
    by now apply category_sets_unfiltered.
  split; [exact Hsets|]. split; [|split; [|split]].
  - unfold candidate_pool. now rewrite Hsets.
  - unfold candidate_pool. now rewrite Hsets, Hnone.
  - apply hospital_search_tool_ext; [now rewrite Hsets, Hnone|].
    reflexivity.
  - intros resp all Hresp Hok Hjson.
    now apply all_hospitals_pool with resp.
Qed.
End Normalisation.

(** ** hospital_filter *)

Section FilterChecks.
Context `{PyRuntime} `{PyFloat}.

Lemma truthy_str_Some s : truthy_str (Some s) = true <-> s <> "".
Proof.
  simpl. rewrite negb_true_iff. destruct (String.eqb_spec s ""); split;
    congruence.
Qed.

(** A free-text filter lets a record pass: when query and record field are
    both there and non-empty, they score at least 80. *)
Definition text_ok (query field : option string) : Prop :=
  forall q f, query = Some q -> q <> "" -> field = Some f -> f <> "" ->
              (80 <= ratio_lower q f)%Q.

Lemma fuzzy_rejects_false query field :
  fuzzy_rejects query field = false <-> text_ok query field.
Proof.
  unfold fuzzy_rejects, text_ok. split.
  - intros Hrej q f -> Hq -> Hf.
    apply truthy_str_Some in Hq, Hf. rewrite Hq, Hf in Hrej.
    now apply Qlt_bool_false in Hrej.
  - intros Hok. destruct query as [q|]; [|reflexivity].
    destruct (truthy_str (Some q)) eqn:Hq; [|reflexivity].
    destruct field as [f|]; [|reflexivity].
    destruct (truthy_str (Some f)) eqn:Hf; [|reflexivity].
    apply truthy_str_Some in Hq, Hf. simpl.
    apply Qlt_bool_false. now apply Hok.
Qed.

(** The term [a] of tools.py, line 174. *)
Definition haversine_a (latitude longitude lat2 lon2 : float)
    : outcome float :=
  let dlat := math_radians (fsub latitude lat2) in
  let dlon := math_radians (fsub longitude lon2) in
  sin_dlat ← math_sin (fdiv dlat (float_of 2));
  cos_lat2 ← math_cos (math_radians lat2);
  cos_latitude ← math_cos (math_radians latitude);
  sin_dlon ← math_sin (fdiv dlon (float_of 2));
  Returned
    (fadd (fpow sin_dlat 2)
       (fmul (fmul cos_lat2 cos_latitude) (fpow sin_dlon 2))).

(** [math.sqrt(a)] or, after it, [math.sqrt(1 - a)] raises [e]: rounding
    has put [a] below 0 or above 1. *)
Definition sqrt_raises (a : float) (e : exn) : Prop :=
  math_sqrt a = Raised e
  \/ ((exists x, math_sqrt a = Returned x)
      /\ math_sqrt (fsub (float_of 1) a) = Raised e).

(** [dist] raises exactly when the computation of [a] does or one of the
    two square roots does. *)
Lemma dist_Raised latitude longitude lat2 lon2 e :
  dist latitude longitude lat2 lon2 = Raised e <->
  haversine_a latitude longitude lat2 lon2 = Raised e
  \/ exists a,
       haversine_a latitude longitude lat2 lon2 = Returned a
       /\ sqrt_raises a e.
Proof.
  unfold dist, haversine_a, sqrt_raises. cbv zeta.
  destruct (math_sin (fdiv (math_radians (fsub latitude lat2)) _))
    as [s1|e1]; simpl.
  2:{ split; [intros [= ->]; now left|].
      intros [Heq|(a & [=] & _)]. exact Heq. }
  destruct (math_cos (math_radians lat2)) as [c2|e1]; simpl.
  2:{ split; [intros [= ->]; now left|].
      intros [Heq|(a & [=] & _)]. exact Heq. }
  destruct (math_cos (math_radians latitude)) as [c1|e1]; simpl.
  2:{ split; [intros [= ->]; now left|].
      intros [Heq|(a & [=] & _)]. exact Heq. }
  destruct (math_sin (fdiv (math_radians (fsub longitude lon2)) _))
    as [s2|e1]; simpl.
  2:{ split; [intros [= ->]; now left|].
      intros [Heq|(a & [=] & _)]. exact Heq. }
  set (a := fadd _ _).
  destruct (math_sqrt a) as [x|e1] eqn:Hx; simpl.
  - destruct (math_sqrt (fsub (float_of 1) a)) as [y|e2] eqn:Hy; simpl.
    + split; [discriminate|].
      intros [[=]|(a' & [= <-] & [Hr|[_ Hr]])]; congruence.
    + split.
      * intros [= ->]. right. exists a. split; [reflexivity|].
        right. split; [now exists x|exact Hy].
      * intros [[=]|(a' & [= <-] & [Hr|[_ Hr]])]; congruence.
  - split.
    + intros [= ->]. right. exists a. split; [reflexivity|]. now left.
    + intros [[=]|(a' & [= <-] & [Hr|[(x & Hr) _]])]; congruence.
Qed.

Lemma dist_raises_ValueError latitude longitude lat2 lon2 e :
  dist latitude longitude lat2 lon2 = Raised e -> e = ValueError.
Proof.
  unfold dist. cbv zeta. intros Hd.
  repeat match type of Hd with
         | (?m ≫= _) = Raised _ =>
             let Hm := fresh "Hm" in
             destruct m eqn:Hm; simpl in Hd;
             [|injection Hd as ->;
               first [now apply math_sin_raises in Hm
                     |now apply math_cos_raises in Hm
                     |now apply math_sqrt_raises in Hm]]
         end.
  discriminate.
Qed.

(** The geographic check lets a record pass: with latitude, longitude and
    radius_km all supplied, the record has both coordinates, [dist] returns
    and the distance is not greater than the radius. *)
Definition geo_within (a : HospitalSearch.args) (h : HospitalResponse.t)
    : Prop :=
  forall latitude longitude radius_km,
    HospitalSearch.latitude a = Some latitude ->
    HospitalSearch.longitude a = Some longitude ->
    HospitalSearch.radius_km a = Some radius_km ->
    exists lat2 lon2 d,
      HospitalResponse.latitude h = Some lat2
      /\ HospitalResponse.longitude h = Some lon2
      /\ dist (float_of latitude) (float_of longitude)
           (float_of lat2) (float_of lon2) = Returned d
      /\ fgt d (float_of radius_km) = false.

(** The geographic check raises [e]: the three arguments are supplied, the
    record has both coordinates, and [dist] raises [e]. *)
Definition geo_raises (a : HospitalSearch.args) (h : HospitalResponse.t)
    (e : exn) : Prop :=
  exists latitude longitude radius_km lat2 lon2,
    HospitalSearch.latitude a = Some latitude
    /\ HospitalSearch.longitude a = Some longitude
    /\ HospitalSearch.radius_km a = Some radius_km
    /\ HospitalResponse.latitude h = Some lat2
    /\ HospitalResponse.longitude h = Some lon2
    /\ dist (float_of latitude) (float_of longitude)
         (float_of lat2) (float_of lon2) = Raised e.

Lemma geo_rejects_false a h :
  geo_rejects a h = Returned false <-> geo_within a h.
Proof.
  unfold geo_rejects, geo_within.
  destruct (HospitalSearch.latitude a) as [lat|];
    [|split; [discriminate|reflexivity]].
  destruct (HospitalSearch.longitude a) as [lon|];
    [|split; [discriminate|reflexivity]].
  destruct (HospitalSearch.radius_km a) as [r|];
    [|split; [discriminate|reflexivity]].
  destruct (HospitalResponse.latitude h) as [lat2|].
  2:{ split; [discriminate|].
      intros Hok. destruct (Hok _ _ _ eq_refl eq_refl eq_refl)
        as (? & ? & ? & [=] & _). }
  destruct (HospitalResponse.longitude h) as [lon2|].
  2:{ split; [discriminate|].
      intros Hok. destruct (Hok _ _ _ eq_refl eq_refl eq_refl)
        as (? & ? & ? & _ & [=] & _). }
  destruct (dist _ _ _ _) as [d|e] eqn:Hd; simpl; split.
  - intros [= Hgt] ? ? ? [= <-] [= <-] [= <-].
    exists lat2, lon2, d. now rewrite Hd.
  - intros Hok. destruct (Hok _ _ _ eq_refl eq_refl eq_refl)
      as (? & ? & d' & [= <-] & [= <-] & Hd' & Hgt).
    rewrite Hd in Hd'. injection Hd' as <-. now rewrite Hgt.
  - discriminate.
  - intros Hok. destruct (Hok _ _ _ eq_refl eq_refl eq_refl)
      as (? & ? & d' & [= <-] & [= <-] & Hd' & _).
    rewrite Hd in Hd'. discriminate.
Qed.

Lemma geo_rejects_Raised a h e :
  geo_rejects a h = Raised e <-> geo_raises a h e.
Proof.
  unfold geo_rejects, geo_raises. split.
  - destruct (HospitalSearch.latitude a) as [lat|]; [|discriminate].
    destruct (HospitalSearch.longitude a) as [lon|]; [|discriminate].
    destruct (HospitalSearch.radius_km a) as [r|]; [|discriminate].
    destruct (HospitalResponse.latitude h) as [lat2|]; [|discriminate].
    destruct (HospitalResponse.longitude h) as [lon2|]; [|discriminate].
    destruct (dist _ _ _ _) as [d|e'] eqn:Hd; simpl; [discriminate|].
    intros [= ->]. exists lat, lon, r, lat2, lon2. now rewrite Hd.
  - intros (lat & lon & r & lat2 & lon2
            & -> & -> & -> & -> & -> & ->). reflexivity.
Qed.

Lemma geo_raises_ValueError a h e : geo_raises a h e -> e = ValueError.
Proof.
  intros (lat & lon & r & lat2 & lon2 & _ & _ & _ & _ & _ & Hd).
  now apply dist_raises_ValueError in Hd.
Qed.

(** *** The scalar and free-text checks *)

(** The ICU filter lets a record pass. *)
Definition icu_ok (a : HospitalSearch.args) (h : HospitalResponse.t)
    : Prop :=
  forall icu_min, HospitalSearch.icu_min a = Some icu_min ->
    exists icus, HospitalResponse.icus h = Some icus /\ icu_min <= icus.

(** The zone filter lets a record pass; a [zone_id] of 0 is not applied. *)
Definition zone_ok (a : HospitalSearch.args) (h : HospitalResponse.t)
    : Prop :=
  forall zone_id, HospitalSearch.zone_id a = Some zone_id -> zone_id <> 0 ->
    loc_get LocationResponse.zoneId (HospitalResponse.locationResponse h)
    = Some zone_id.

(** The checks of lines 141-163 let a record pass. *)
Definition scalar_ok (a : HospitalSearch.args) (h : HospitalResponse.t)
    : Prop :=
  icu_ok a h
  /\ text_ok (HospitalSearch.city a)
       (loc_get LocationResponse.city (HospitalResponse.locationResponse h))
  /\ text_ok (HospitalSearch.thana a)
       (loc_get LocationResponse.thana (HospitalResponse.locationResponse h))
  /\ text_ok (HospitalSearch.po a)
       (loc_get LocationResponse.po (HospitalResponse.locationResponse h))
  /\ zone_ok a h
  /\ text_ok (HospitalSearch.hospital_name a)
       (Some (HospitalResponse.name h)).

(** One of the checks of lines 141-163 returns [False]. *)
Definition scalar_rejects (a : HospitalSearch.args)
    (h : HospitalResponse.t) : bool :=
  let loc := HospitalResponse.locationResponse h in
  match HospitalSearch.icu_min a with
  | Some icu_min =>
      match HospitalResponse.icus h with
      | None => true
      | Some icus => icus <? icu_min
      end
  | None => false
  end
  || fuzzy_rejects (HospitalSearch.city a)
       (loc_get LocationResponse.city loc)
  || fuzzy_rejects (HospitalSearch.thana a)
       (loc_get LocationResponse.thana loc)
  || fuzzy_rejects (HospitalSearch.po a) (loc_get LocationResponse.po loc)
  || (truthy_int (HospitalSearch.zone_id a)
      && negb (bool_decide (loc_get LocationResponse.zoneId loc
                            = HospitalSearch.zone_id a)))
  || fuzzy_rejects (HospitalSearch.hospital_name a)
       (Some (HospitalResponse.name h)).

Lemma hospital_filter_scalar a h :
  hospital_filter a h
  = if scalar_rejects a h then Returned false
    else rejected ← geo_rejects a h; Returned (negb rejected).
Proof.
  unfold hospital_filter, scalar_rejects. cbv zeta.
  repeat match goal with
         | |- context [if ?c then Returned false else _] =>
             destruct c; simpl; try reflexivity
         end.
Qed.

Lemma scalar_rejects_false a h : scalar_rejects a h = false <-> scalar_ok a h.
Proof.
  unfold scalar_ok. rewrite <- !fuzzy_rejects_false.
  unfold scalar_rejects, icu_ok, zone_ok. cbv zeta.
  assert (Hicu :
    match HospitalSearch.icu_min a with
    | Some icu_min =>
        match HospitalResponse.icus h with
        | None => true
        | Some icus => icus <? icu_min
        end
    | None => false
    end = false <->
    forall icu_min, HospitalSearch.icu_min a = Some icu_min ->
      exists icus, HospitalResponse.icus h = Some icus /\ icu_min <= icus).
  { destruct (HospitalSearch.icu_min a) as [m|];
      [|split; [discriminate|reflexivity]].
    destruct (HospitalResponse.icus h) as [i|].
    - rewrite Z.ltb_ge. split.
      + intros Hle ? [= <-]. eauto.
      + intros Hok. destruct (Hok m eq_refl) as (? & [= <-] & Hle).
        exact Hle.
    - split; [discriminate|]. intros Hok.
      destruct (Hok m eq_refl) as (? & [=] & _). }
  assert (Hzone :
    truthy_int (HospitalSearch.zone_id a)
    && negb (bool_decide
               (loc_get LocationResponse.zoneId
                  (HospitalResponse.locationResponse h)
                = HospitalSearch.zone_id a)) = false <->
    forall zone_id, HospitalSearch.zone_id a = Some zone_id ->
      zone_id <> 0 ->
      loc_get LocationResponse.zoneId (HospitalResponse.locationResponse h)
      = Some zone_id).
  { destruct (HospitalSearch.zone_id a) as [z|]; simpl;
      [|split; [discriminate|reflexivity]].
    destruct (Z.eqb_spec z 0) as [->|Hz]; simpl.
    - split; [|reflexivity]. intros _ ? [= <-] Hne. contradiction.
    - rewrite negb_false_iff, bool_decide_eq_true. split.
      + now intros Heq ? [= <-] _.
      + intros Hok. now apply Hok. }
  rewrite <- Hicu, <- Hzone. rewrite !orb_false_iff. tauto.
Qed.

Lemma hospital_filter_true a h :
  hospital_filter a h = Returned true <-> scalar_ok a h /\ geo_within a h.
Proof.
  rewrite hospital_filter_scalar, <- scalar_rejects_false,
    <- geo_rejects_false.
  destruct (scalar_rejects a h); [split; [discriminate|now intros [? _]]|].
  destruct (geo_rejects a h) as [[|]|e]; simpl; split;
    try discriminate; try (now intros [_ ?]); now split.
Qed.

Lemma hospital_filter_Raised a h e :
  hospital_filter a h = Raised e <-> scalar_ok a h /\ geo_raises a h e.
Proof.
  rewrite hospital_filter_scalar, <- scalar_rejects_false,
    <- geo_rejects_Raised.
  destruct (scalar_rejects a h); [split; [discriminate|now intros [? _]]|].
  destruct (geo_rejects a h) as [[|]|e']; simpl; split;
    try discriminate; try (now intros [_ ?]);
    try (intros [= ->]; now split); now intros [_ [= ->]].
Qed.
End FilterChecks.

(** ** hospital_search: filter, ratings, ranking *)

Section Ranking.
Context `{PyRuntime} `{PyFloat}.

(** *** Exact arithmetic *)

Lemma haversine_term_range lat lat2 dlon_half :
  (0 <= (sin (radians (lat - lat2) / 2)) ^ 2
        + cos (radians lat2) * cos (radians lat) * (sin dlon_half) ^ 2
   <= 1)%R.
Proof.
  set (p := radians lat2). set (q := radians lat).
  replace (radians (lat - lat2) / 2)%R with ((q - p) / 2)%R
    by (unfold p, q, radians; field).
  set (s := ((sin dlon_half) ^ 2)%R).
  assert (Hs : (0 <= s <= 1)%R).
  { unfold s. pose proof (SIN_bound dlon_half) as [Hlo Hhi]. split; nra. }
  assert (Hhalf : ((sin ((q - p) / 2)) ^ 2 = (1 - cos (q - p)) / 2)%R).
  { pose proof (cos_2a_sin ((q - p) / 2)) as Hcos.
    replace (2 * ((q - p) / 2))%R with (q - p)%R in Hcos by field.
    rewrite Hcos. field. }
  rewrite Hhalf, cos_minus.
  pose proof (COS_bound (q - p)) as Hminus. rewrite cos_minus in Hminus.
  pose proof (COS_bound (q + p)) as Hplus. rewrite cos_plus in Hplus.
  set (u := (cos q * cos p)%R) in *. set (w := (sin q * sin p)%R) in *.
  replace (cos p * cos q)%R with u by (unfold u; ring).
  destruct Hs as [Hs0 Hs1], Hminus as [Hm0 Hm1], Hplus as [Hp0 Hp1].
  split.
  - assert (0 <= (1 - s) * (1 - u - w) + s * (1 + u - w))%R
      by (apply Rplus_le_le_0_compat; apply Rmult_le_pos; lra).
    lra.
  - assert (0 <= (1 - s) * (1 + u + w) + s * (1 - u + w))%R
      by (apply Rplus_le_le_0_compat; apply Rmult_le_pos; lra).
    lra.
Qed.

Lemma exact_sqrt_Returned x : (0 <= x)%R -> exact_sqrt x = Returned (sqrt x).
Proof.
  intros Hx. unfold exact_sqrt. destruct (Rlt_dec x 0); [lra|reflexivity].
Qed.

(** Without rounding [a] lies between 0 and 1, so [dist] returns, and it
    returns the haversine distance. *)
Lemma dist_exact (latitude longitude lat2 lon2 : R) :
  @dist exact latitude longitude lat2 lon2
  = Returned (haversine_km latitude longitude lat2 lon2).
Proof.
  pose proof (haversine_term_range latitude lat2
                (radians (longitude - lon2) / 2)) as [Hlo Hhi].
  unfold dist, haversine_km.
  cbn [float float_of fadd fsub fmul fdiv fpow math_radians math_sin
       math_cos math_sqrt math_atan2 exact mbind outcome_bind].
  assert (H1 : Q2R 1 = 1%R) by (unfold Q2R; simpl; lra).
  assert (H2 : Q2R 2 = 2%R) by (unfold Q2R; simpl; lra).
  assert (H6371 : Q2R 6371 = 6371%R) by (unfold Q2R; simpl; lra).
  rewrite H1, H2, H6371.
  match goal with
  | |- context [exact_sqrt (1 - ?t)] => set (a := t) in *
  end.
  rewrite (exact_sqrt_Returned a) by exact Hlo. simpl.
  rewrite (exact_sqrt_Returned (1 - a)) by lra. reflexivity.
Qed.

(** The geographic filter lets a record pass, in exact arithmetic: the
    record has both coordinates and its haversine distance is at most the
    radius. *)
Definition geo_ok (a : HospitalSearch.args) (h : HospitalResponse.t)
    : Prop :=
  forall latitude longitude radius_km,
    HospitalSearch.latitude a = Some latitude ->
    HospitalSearch.longitude a = Some longitude ->
    HospitalSearch.radius_km a = Some radius_km ->
    exists lat2 lon2,
      HospitalResponse.latitude h = Some lat2
      /\ HospitalResponse.longitude h = Some lon2
      /\ (haversine_km (Q2R latitude) (Q2R longitude) (Q2R lat2) (Q2R lon2)
          <= Q2R radius_km)%R.

Lemma geo_within_exact a h : @geo_within exact a h <-> geo_ok a h.
Proof.
  unfold geo_within, geo_ok. split; intros Hok lat lon r Hlat Hlon Hr.
  - destruct (Hok lat lon r Hlat Hlon Hr)
      as (lat2 & lon2 & d & Hlat2 & Hlon2 & Hd & Hgt).
    exists lat2, lon2. repeat (split; [assumption|]).
    cbn [float float_of exact] in Hd. rewrite dist_exact in Hd.
    injection Hd as <-. cbn [fgt float_of exact] in Hgt.
    destruct (Rgt_dec _ _) as [|Hle]; [discriminate|].
    now apply Rnot_gt_le.
  - destruct (Hok lat lon r Hlat Hlon Hr)
      as (lat2 & lon2 & Hlat2 & Hlon2 & Hd).
    exists lat2, lon2,
      (haversine_km (Q2R lat) (Q2R lon) (Q2R lat2) (Q2R lon2)).
    repeat (split; [assumption|]).
    split; [apply dist_exact|]. cbn [fgt float_of exact].
    destruct (Rgt_dec _ _) as [Hgt|]; [|reflexivity].
    exfalso. now apply (Rgt_not_le _ _ Hgt).
Qed.

Lemma geo_raises_exact a h e : ~ @geo_raises exact a h e.
Proof.
  intros (lat & lon & r & lat2 & lon2 & _ & _ & _ & _ & _ & Hd).
  cbn [float float_of exact] in Hd. rewrite dist_exact in Hd.
  discriminate.
Qed.

(** The distance of a point to itself is 0, so a hospital at the query
    point is within every radius. *)
Lemma haversine_km_same_point lat lon : haversine_km lat lon lat lon = 0%R.
Proof.
  unfold haversine_km, radians.
  replace (lat - lat)%R with 0%R by ring.
  replace (lon - lon)%R with 0%R by ring.
  replace (0 * PI / 180 / 2)%R with 0%R by field.
  rewrite sin_0.
  replace (0 ^ 2 + cos (lat * PI / 180) * cos (lat * PI / 180) * 0 ^ 2)%R
    with 0%R by ring.
  rewrite Rminus_0_r, sqrt_0, sqrt_1.
  unfold atan2. destruct (Rlt_dec 0 1) as [_|Hn]; [|exfalso; apply Hn; lra].
  replace (0 / 1)%R with 0%R by field. rewrite atan_0. ring.
Qed.

Lemma geo_ok_same_point a h lat lon r :
  HospitalSearch.latitude a = Some lat ->
  HospitalSearch.longitude a = Some lon ->
  HospitalSearch.radius_km a = Some r ->
  HospitalResponse.latitude h = Some lat ->
  HospitalResponse.longitude h = Some lon ->
  (0 <= r)%Q ->
  @geo_rejects exact a h = Returned false.
Proof.
  intros Hlat Hlon Hr Hlat2 Hlon2 Hpos.
  apply geo_rejects_false, geo_within_exact.
  intros ? ? ? Hlat' Hlon' Hr'. rewrite Hlat in Hlat'. rewrite Hlon in Hlon'.
  rewrite Hr in Hr'. injection Hlat' as <-. injection Hlon' as <-.
  injection Hr' as <-. exists lat, lon. repeat split; trivial.
  rewrite haversine_km_same_point. apply Qle_Rle in Hpos.
  unfold Q2R at 1 in Hpos. simpl in Hpos. lra.
Qed.

Lemma hospital_filter_exact a h :
  exists keep, @hospital_filter _ exact a h = Returned keep.
Proof.
  destruct (@hospital_filter _ exact a h) as [keep|e] eqn:Hf; [eauto|].
  apply hospital_filter_Raised in Hf as [_ Hf].
  now apply geo_raises_exact in Hf.
Qed.

(** C4 (amended). [hospital_filter] returns [True] for a hospital exactly
    when: its ICU count is known and at least [icu_min] if that is
    supplied; each non-empty free-text filter among city, thana, po and
    hospital_name scores at least 80 against the record field when that
    field is there and non-empty; its zone id equals [zone_id] if that is
    supplied and not 0; and, if latitude, longitude and radius_km are all
    supplied, it has both coordinates, the distance computation returns
    and the distance is not greater than radius_km.  [hospital_filter]
    raises exactly when the other checks pass, the three geographic
    arguments are supplied, the hospital has both coordinates and the
    distance computation raises, which it does with a [ValueError] from a
    sine or cosine or from one of the two square roots (rounding has put
    [a] below 0 or above 1).  In exact arithmetic the filter never raises
    and the distance is the haversine distance with Earth radius
    6371 km. *)
Theorem hospital_filter_spec (a : HospitalSearch.args)
    (h : HospitalResponse.t) :
  (hospital_filter a h = Returned true <->
   icu_ok a h
   /\ text_ok (HospitalSearch.city a)
        (loc_get LocationResponse.city (HospitalResponse.locationResponse h))
   /\ text_ok (HospitalSearch.thana a)
        (loc_get LocationResponse.thana
           (HospitalResponse.locationResponse h))
   /\ text_ok (HospitalSearch.po a)
        (loc_get LocationResponse.po (HospitalResponse.locationResponse h))
   /\ zone_ok a h
   /\ text_ok (HospitalSearch.hospital_name a)
        (Some (HospitalResponse.name h))
   /\ geo_within a h)
  /\ (forall e,
        hospital_filter a h = Raised e <->
        scalar_ok a h /\ geo_raises a h e)
  /\ (forall e, geo_raises a h e -> e = ValueError)
  /\ (forall latitude longitude lat2 lon2 e,
        dist latitude longitude lat2 lon2 = Raised e <->
        haversine_a latitude longitude lat2 lon2 = Raised e
        \/ exists a,
             haversine_a latitude longitude lat2 lon2 = Returned a
             /\ (math_sqrt a = Raised e
                 \/ ((exists x, math_sqrt a = Returned x)
                     /\ math_sqrt (fsub (float_of 1) a) = Raised e)))
  /\ (@hospital_filter _ exact a h = Returned true <->
      scalar_ok a h /\ geo_ok a h)
  /\ (exists keep, @hospital_filter _ exact a h = Returned keep).
Proof.
  split; [|split; [|split; [|split; [|split]]]].
  - rewrite hospital_filter_true. unfold scalar_ok. tauto.
  - intros e. apply hospital_filter_Raised.
  - intros e. apply geo_raises_ValueError.
  - intros. apply dist_Raised.
  - rewrite (@hospital_filter_true _ exact), geo_within_exact. tauto.
  - apply hospital_filter_exact.
Qed.

(** [avg] is the arithmetic mean of [ratings], 0 for none. *)
Definition is_mean (avg : Q) (ratings : list Z) : Prop :=
  match ratings with
  | [] => (avg == 0)%Q
  | _ :: _ =>
      (avg * inject_Z (Z.of_nat (length ratings))
       == inject_Z (fold_right Z.add 0%Z ratings))%Q
  end.

Lemma average_is_mean ratings : is_mean (average ratings) ratings.
Proof.
  destruct ratings as [|r ratings]; [reflexivity|].
  unfold is_mean, average. cbn [nonempty].
  rewrite Qmult_comm. apply Qmult_div_r.
  intros Hzero. unfold Qeq in Hzero. simpl in Hzero. lia.
Qed.

(** The feedback request for a hospital gives no list of entries. *)
Definition feedback_fails (b : Backend) (hospital_id : Z) : Prop :=
  (exists e, feedback_v1_hospital b hospital_id = Raised e)
  \/ (exists resp,
        feedback_v1_hospital b hospital_id = Returned resp
        /\ (success resp = false
            \/ exists e, Response.json resp = Raised e)).

Lemma add_ratings_fetched b h resp feedbacks :
  HospitalResponse.id h <> 0 ->
  feedback_v1_hospital b (HospitalResponse.id h) = Returned resp ->
  success resp = true ->
  Response.json resp = Returned feedbacks ->
  add_ratings b h
  = RatedHospital.mk h (ratings_of feedbacks)
      (average (ratings_of feedbacks)).
Proof.
  intros Hid Hresp Hok Hjson. unfold add_ratings.
  destruct (Z.eqb_spec (HospitalResponse.id h) 0); [contradiction|].
  simpl. rewrite Hresp. simpl. now rewrite Hok, Hjson.
Qed.

Lemma add_ratings_failed b h :
  feedback_fails b (HospitalResponse.id h) -> add_ratings b h = unrated h.
Proof.
  intros Hfail. unfold add_ratings.
  destruct (negb _); [|reflexivity].
  destruct Hfail as [[e ->]|(resp & -> & [Hno|[e He]])]; simpl.
  - reflexivity.
  - now rewrite Hno.
  - destruct (success resp); [|reflexivity]. now rewrite He.
Qed.

Lemma add_ratings_hospital b h :
  RatedHospital.hospital (add_ratings b h) = h.
Proof.
  unfold add_ratings. destruct (negb _); [|reflexivity].
  destruct (feedback_v1_hospital b _) as [resp|e]; simpl; [|reflexivity].
  destruct (success resp); simpl; [|reflexivity].
  now destruct (Response.json resp).
Qed.

(** C5 (amended). Once the candidate pool is there and the filter pass
    returns, the search returns, whatever the feedback service does: the
    records returned are the survivors of the filters, each carrying its
    own record; the search raises only when [hospital_filter] does, never
    because of a feedback request.  A survivor with a non-zero identifier
    carries the non-null ratings of its feedback entries, in their order,
    and their arithmetic mean when the feedback request succeeds, and no
    ratings and the average 0 when there are no ratings or the request
    fails (exception, non-success status, unreadable body).  A survivor
    with identifier 0 carries no ratings and the average 0, and no
    feedback is read for it. *)
Theorem feedback_ratings (b : Backend) (a : HospitalSearch.args)
    (hospitals : list HospitalResponse.t) :
  candidate_pool b a = Returned hospitals ->
  (returns_on (hospital_filter a) hospitals ->
   exists ranked,
     hospital_search_tool b a
     = Returned (slice_to (HospitalSearch.top_n a) ranked)
     /\ Permutation ranked
          (map (add_ratings b) (List.filter (passes a) hospitals)))
  /\ (forall e,
        hospital_search_tool b a = Raised e <->
        exists h, first_raise (hospital_filter a) hospitals h e)
  /\ forall h,
       RatedHospital.hospital (add_ratings b h) = h
       /\ (HospitalResponse.id h <> 0 ->
           forall resp feedbacks,
             feedback_v1_hospital b (HospitalResponse.id h) = Returned resp ->
             success resp = true ->
             Response.json resp = Returned feedbacks ->
             RatedHospital.ratings (add_ratings b h)
             = omap FeedbackResponse.rating feedbacks
             /\ (forall r,
                   In r (RatedHospital.ratings (add_ratings b h)) <->
                   exists f, In f feedbacks
                             /\ FeedbackResponse.rating f = Some r)
             /\ is_mean (RatedHospital.averageRating (add_ratings b h))
                  (omap FeedbackResponse.rating feedbacks))
       /\ (feedback_fails b (HospitalResponse.id h) ->
           RatedHospital.ratings (add_ratings b h) = []
           /\ RatedHospital.averageRating (add_ratings b h) = 0%Q)
       /\ (HospitalResponse.id h = 0 ->
           forall b', add_ratings b' h = unrated h).
Proof.
  intros Hpool. split; [|split].
  - intros Hret.
    destruct (hospital_search_of_pool b a hospitals Hpool Hret)
      as (ranked & Hsearch & Hperm & _).
    now exists ranked.
  - intros e. now apply hospital_search_raises.
  - intros h. split; [apply add_ratings_hospital|]. split; [|split].
    + intros Hid resp feedbacks Hresp Hok Hjson.
      rewrite (add_ratings_fetched b h resp feedbacks) by assumption.
      simpl. split; [reflexivity|]. split; [|apply average_is_mean].
      intros r. unfold ratings_of.
      rewrite <- list_elem_of_In, list_elem_of_omap.
      split; intros (f & Hf & Hr); exists f;
        (split; [now apply list_elem_of_In|exact Hr]).
    + intros Hfail. now rewrite (add_ratings_failed b h Hfail).
    + intros Hid b'. unfold add_ratings. now rewrite Hid.
Qed.

(** Lines 70-136: [hospital_sets] when line 138 is reached. *)
Definition hospital_sets (b : Backend) (a : HospitalSearch.args)
    : outcome (list (list HospitalResponse.t)) :=
  category_sets b a ≫= or_all_hospitals b.

Lemma candidate_pool_order b a hospitals :
  candidate_pool b a = Returned hospitals ->
  exists lists,
    hospital_sets b a = Returned lists
    /\ (List.filter nonempty lists <> [] ->
        ids hospitals
        = set_intersection (map ids (List.filter nonempty lists))).
Proof.
  unfold candidate_pool, hospital_sets. intros Hpool.
  destruct (category_sets b a) as [sets|e]; [|discriminate]. simpl in *.
  destruct (or_all_hospitals b sets) as [lists|e]; [|discriminate].
  simpl in *. exists lists. split; [reflexivity|].
  now apply intersect_hospitals_order.
Qed.

(** C1 (amended). When the filter pass returns, the search returns the
    survivors of the filters sorted by descending average rating, records
    of equal average in the order [intersect_hospitals] lists the
    candidate pool, cut by the slice [[:top_n]]: the first [top_n] records
    for a [top_n] that is not negative, 5 by default.  When
    [hospital_filter] raises on a hospital of the pool, the search raises
    the exception of the first such hospital and returns no list.  The
    pool is listed in the iteration order of the set of common
    identifiers. *)
Theorem hospital_search_ranking (b : Backend) (a : HospitalSearch.args)
    (hospitals : list HospitalResponse.t) :
  candidate_pool b a = Returned hospitals ->
  (returns_on (hospital_filter a) hospitals ->
   exists ranked,
     hospital_search_tool b a
     = Returned (slice_to (HospitalSearch.top_n a) ranked)
     /\ Permutation ranked (survivors b a hospitals)
     /\ StronglySorted (desc RatedHospital.averageRating) ranked
     /\ (forall r,
           with_key RatedHospital.averageRating r ranked
           = with_key RatedHospital.averageRating r
               (survivors b a hospitals))
     /\ (forall n, HospitalSearch.top_n a = Some n -> 0 <= n ->
           slice_to (HospitalSearch.top_n a) ranked
           = firstn (Z.to_nat n) ranked))
  /\ (forall e,
        hospital_search_tool b a = Raised e <->
        exists h, first_raise (hospital_filter a) hospitals h e)
  /\ (forall result,
        hospital_search_tool b a = Returned result ->
        returns_on (hospital_filter a) hospitals
        /\ result
           = slice_to (HospitalSearch.top_n a)
               (sorted_reverse RatedHospital.averageRating
                  (survivors b a hospitals)))
  /\ HospitalSearch.top_n HospitalSearch.defaults = Some 5
  /\ (survivors b a hospitals
      = map (add_ratings b) (List.filter (passes a) hospitals)
      /\ map RatedHospital.hospital (survivors b a hospitals)
         = List.filter (passes a) hospitals
      /\ forall h, passes a h = true <-> hospital_filter a h = Returned true)
  /\ exists lists,
       hospital_sets b a = Returned lists
       /\ (List.filter nonempty lists <> [] ->
           ids hospitals
           = set_intersection (map ids (List.filter nonempty lists))).
Proof.
  intros Hpool.
  split; [|split; [|split; [|split; [reflexivity|split]]]].
  - intros Hret.
    destruct (hospital_search_of_pool b a hospitals Hpool Hret)
      as (ranked & Hsearch & Hperm & Hsorted & Hstable).
    exists ranked. repeat (split; [assumption|]).
    intros n -> Hn. unfold slice_to.
    destruct (Z.leb_spec 0 n); [reflexivity|lia].
  - intros e. now apply hospital_search_raises.
  - intros result. unfold hospital_search_tool. rewrite Hpool. simpl.
    apply rank_inv.
  - split; [reflexivity|]. split; [|apply passes_true].
    unfold survivors. rewrite map_map.
    rewrite (map_ext _ (fun h => h)); [apply map_id|].
    apply add_ratings_hospital.
  - now apply candidate_pool_order.
Qed.
End Ranking.

(** ** doctor_search *)

Section DoctorSearchFacts.
Context `{PyRuntime}.

Lemma filter_sublist {A} (f : A -> bool) (l : list A) :
  sublist (List.filter f l) l.
Proof.
  induction l as [|x l IH]; simpl; [constructor|].
  destruct (f x); now constructor.
Qed.

Lemma slice_to_sublist {A} top_n (l : list A) : sublist (slice_to top_n l) l.
Proof.
  unfold slice_to. destruct top_n as [n|]; [|reflexivity].
  destruct (0 <=? n); apply sublist_take.
Qed.

(** A filter that needs the record field: query, when given and
    non-empty, scores at least 80 against a non-empty field. *)
Definition required_ok (query field : option string) : Prop :=
  forall q, query = Some q -> q <> "" ->
    exists f, field = Some f /\ f <> "" /\ (80 <= ratio_lower q f)%Q.

Lemma required_rejects_false query field :
  required_rejects query field = false <-> required_ok query field.
Proof.
  unfold required_rejects, required_ok.
  destruct query as [q|]; [|split; [discriminate|reflexivity]].
  destruct (truthy_str (Some q)) eqn:Hq.
  - apply truthy_str_Some in Hq. simpl.
    destruct field as [f|].
    + destruct (truthy_str (Some f)) eqn:Hf.
      * apply truthy_str_Some in Hf. rewrite Qlt_bool_false. split.
        -- intros Hle ? [= <-] _. now exists f.
        -- intros Hok. destruct (Hok q eq_refl Hq) as (? & [= <-] & _ & Hle).
           exact Hle.
      * split; [discriminate|]. intros Hok.
        destruct (Hok q eq_refl Hq) as (? & [= <-] & Hne & _).
        apply truthy_str_Some in Hne. congruence.
    + split; [discriminate|]. intros Hok.
      destruct (Hok q eq_refl Hq) as (? & [=] & _).
  - split; [|reflexivity]. intros _ ? [= <-] Hne.
    apply truthy_str_Some in Hne. congruence.
Qed.

Definition specialties_ok (a : DoctorSearch.args)
    (doctor : DoctorResponse.t) : Prop :=
  forall specialties,
    DoctorSearch.specialties a = Some specialties -> specialties <> [] ->
    exists search_specialty doctor_specialty,
      In search_specialty specialties
      /\ In doctor_specialty (DoctorResponse.specialties doctor)
      /\ (80 <= ratio_lower search_specialty doctor_specialty)%Q.

Definition affiliation_ok (a : DoctorSearch.args)
    (doctor : DoctorResponse.t) : Prop :=
  forall q, DoctorSearch.hospital_name a = Some q -> q <> "" ->
    exists hospital,
      In hospital (DoctorResponse.doctorHospitals doctor)
      /\ DoctorHospitalResponse.hospitalName hospital <> ""
      /\ (80 <= ratio_lower q
                  (DoctorHospitalResponse.hospitalName hospital))%Q.

(** Every supplied filter of a doctor search matches. *)
Definition doctor_passes (a : DoctorSearch.args)
    (doctor : DoctorResponse.t) : Prop :=
  specialties_ok a doctor
  /\ required_ok (DoctorSearch.department a)
       (option_map DepartmentResponse.name
          (DoctorResponse.departmentResponse doctor))
  /\ required_ok (DoctorSearch.doctor_name a)
       (Some (DoctorResponse.name doctor))
  /\ required_ok (DoctorSearch.city a)
       (loc_get LocationResponse.city
          (DoctorResponse.locationResponse doctor))
  /\ affiliation_ok a doctor.

Lemma fuzzy_matches_true x y :
  fuzzy_matches x y = true <-> (80 <= ratio_lower x y)%Q.
Proof. apply Qle_bool_iff. Qed.

Lemma doctor_filter_spec a doctor :
  doctor_filter a doctor = true <-> doctor_passes a doctor.
Proof.
  unfold doctor_passes.
  rewrite <- !required_rejects_false.
  assert (Hspec :
    truthy_list (DoctorSearch.specialties a)
    && negb (existsb
               (fun search_specialty =>
                  existsb (fuzzy_matches search_specialty)
                    (DoctorResponse.specialties doctor))
               (default [] (DoctorSearch.specialties a))) = false
    <-> specialties_ok a doctor).
  { unfold specialties_ok.
    destruct (DoctorSearch.specialties a) as [[|s l]|]; simpl truthy_list;
      cbn [andb]; try (split; [|reflexivity]).
    - intros _ ? [= <-] Hne. congruence.
    - rewrite negb_false_iff, existsb_exists. split.
      + intros (s' & Hs' & Hex) ? [= <-] _.
        apply existsb_exists in Hex as (t & Ht & Hm).
        exists s', t. repeat split; trivial.
        now apply fuzzy_matches_true.
      + intros Hok.
        destruct (Hok _ eq_refl) as (s' & t & Hs' & Ht & Hm);
          [discriminate|].
        exists s'. split; [exact Hs'|]. apply existsb_exists.
        exists t. split; [exact Ht|]. now apply fuzzy_matches_true.
    - discriminate. }
  assert (Haff :
    truthy_str (DoctorSearch.hospital_name a)
    && negb (existsb
               (fun hospital =>
                  let hospital_name_field :=
                    DoctorHospitalResponse.hospitalName hospital in
                  truthy_str (Some hospital_name_field)
                  && fuzzy_matches
                       (default "" (DoctorSearch.hospital_name a))
                       hospital_name_field)
               (DoctorResponse.doctorHospitals doctor)) = false
    <-> affiliation_ok a doctor).
  { unfold affiliation_ok.
    destruct (DoctorSearch.hospital_name a) as [q|];
      [|split; [discriminate|reflexivity]].
    destruct (truthy_str (Some q)) eqn:Hq; cbn [andb].
    - apply truthy_str_Some in Hq.
      rewrite negb_false_iff, existsb_exists. split.
      + intros (hsp & Hin & Hm) ? [= <-] _.
        apply andb_true_iff in Hm as [Hne Hm].
        exists hsp. split; [exact Hin|].
        split; [now apply truthy_str_Some|now apply fuzzy_matches_true].
      + intros Hok. destruct (Hok q eq_refl Hq) as (hsp & Hin & Hne & Hm).
        exists hsp. split; [exact Hin|]. apply andb_true_iff.
        split; [now apply truthy_str_Some|now apply fuzzy_matches_true].
    - split; [|reflexivity]. intros _ ? [= <-] Hne.
      apply truthy_str_Some in Hne. congruence. }
  rewrite <- Hspec, <- Haff. unfold doctor_filter.
  repeat match goal with
         | |- context [if ?c then false else _] => destruct c
         end; intuition congruence.
Qed.

(** C8. When the full doctor list is fetched, [doctor_search] returns the
    doctors that pass every supplied filter, unchanged and in fetch
    order, cut by the slice [[:top_n]] (the first [top_n] for a [top_n]
    that is not negative, 10 by default): specialties match when some
    queried specialty scores at least 80 against some specialty of the
    doctor, hospital_name when some affiliated hospital name does,
    department, doctor_name and city when the record field does. *)
Theorem doctor_search_spec (b : Backend) (a : DoctorSearch.args)
    resp (doctors : list DoctorResponse.t) :
  doctor_v1_all b = Returned resp ->
  success resp = true ->
  Response.json resp = Returned doctors ->
  let passing := List.filter (doctor_filter a) doctors in
  doctor_search_tool b a = Dumps (slice_to (DoctorSearch.top_n a) passing)
  /\ (forall doctor, In doctor passing <->
        In doctor doctors /\ doctor_passes a doctor)
  /\ sublist passing doctors
  /\ sublist (slice_to (DoctorSearch.top_n a) passing) doctors
  /\ (forall n, DoctorSearch.top_n a = Some n -> 0 <= n ->
        slice_to (DoctorSearch.top_n a) passing
        = firstn (Z.to_nat n) passing)
  /\ DoctorSearch.top_n DoctorSearch.defaults = Some 10.
Proof.
  intros Hresp Hok Hjson passing. split; [|split; [|split; [|split]]].
  - unfold doctor_search_tool. rewrite Hresp. simpl.
    now rewrite Hok, Hjson.
  - intros doctor. unfold passing.
    now rewrite filter_In, doctor_filter_spec.
  - apply filter_sublist.
  - transitivity passing; [apply slice_to_sublist|apply filter_sublist].
  - split; [|reflexivity]. intros n -> Hn. unfold slice_to.
    destruct (Z.leb_spec 0 n); [reflexivity|lia].
Qed.
End DoctorSearchFacts.

(** ** Lookups by hospital *)

Section LookupFacts.
Context `{PyRuntime}.

(** The result is one of the tools' error strings. *)
Definition is_error (s : string) : Prop := String.prefix "Error: " s = true.

Lemma no_hospital_found_error hospitalName :
  is_error (no_hospital_found hospitalName).
Proof. reflexivity. Qed.

(** C9. Without hospitalId and hospitalName both lookups return an error
    string; so do they for a hospitalName alone whose best match among the
    fetched hospital names scores below 80: neither raises. *)
Theorem lookup_errors (b : Backend) :
  (exists s,
     get_tests_by_hospital_tool b None None = Returned s /\ is_error s)
  /\ is_error (get_hospital_feedbacks_tool b None None)
  /\ forall hospitalName resp hospitals match_ score,
       hospital_v1_all b = Returned resp ->
       Response.json resp = Returned hospitals ->
       extractOne hospitalName (map HospitalResponse.name hospitals)
       = Some (match_, score) ->
       (score < 80)%Q ->
       get_tests_by_hospital_tool b None (Some hospitalName)
       = Returned (no_hospital_found hospitalName)
       /\ (success resp = true ->
           get_hospital_feedbacks_tool b None (Some hospitalName)
           = no_hospital_found hospitalName)
       /\ is_error (no_hospital_found hospitalName).
Proof.
  split; [|split].
  - eexists. split; reflexivity.
  - reflexivity.
  - intros hospitalName resp hospitals match_ score Hresp Hjson Hbest Hlow.
    apply Qlt_bool_iff in Hlow. change 80%Q with threshold in Hlow.
    split; [|split; [|reflexivity]].
    + unfold get_tests_by_hospital_tool, best_match.
      rewrite Hresp. simpl. rewrite Hjson. simpl. rewrite Hbest. simpl.
      now rewrite Hlow.
    + intros Hok. unfold get_hospital_feedbacks_tool, best_match.
      rewrite Hresp. simpl. rewrite Hok, Hjson. simpl. rewrite Hbest.
      simpl. now rewrite Hlow.
Qed.
End LookupFacts.

(** ** The tool-orchestration loop *)

Section LoopFacts.
Context `{PyRuntime}.
Variable invoke : Tool.t -> ToolCall.t -> outcome string.
Variable SYSTEM_PROMPT : string.

(** [tool_dict.get(tool_call["name"].lower())] *)
Definition resolve (tool_call : ToolCall.t) : option Tool.t :=
  tool_dict !! lower (ToolCall.name tool_call).

(** The tool message of a call whose tool is registered and returns. *)
Definition tool_result (tool_call : ToolCall.t) : list Message :=
  match resolve tool_call with
  | Some selected_tool =>
      match invoke selected_tool tool_call with
      | Returned output => [ToolMessage output (ToolCall.id tool_call)]
      | Raised _ => []
      end
  | None => []
  end.

(** Every registered tool called in [tool_calls] returns. *)
Definition tools_return (tool_calls : list ToolCall.t) : Prop :=
  forall tool_call selected_tool,
    In tool_call tool_calls -> resolve tool_call = Some selected_tool ->
    exists output, invoke selected_tool tool_call = Returned output.

Lemma execute_spec tool_calls : forall messages,
  tools_return tool_calls ->
  execute invoke tool_calls messages
  = (messages ++ flat_map tool_result tool_calls, None).
Proof.
  induction tool_calls as [|c tool_calls IH]; intros messages Hret; simpl.
  - now rewrite app_nil_r.
  - unfold tool_result at 1, resolve.
    destruct (tool_dict !! lower (ToolCall.name c)) as [t|] eqn:Hres.
    + destruct (Hret c t) as [output Hout]; [now left|exact Hres|].
      rewrite Hout, IH.
      * now rewrite <- app_assoc.
      * intros c' t' Hc'. apply Hret. now right.
    + apply IH. intros c' t' Hc'. apply Hret. now right.
Qed.

(** What one round adds to the history: the reply of the model, then the
    results of its calls in the order listed. *)
Definition round (ai_msg : AIMessage.t) : list Message :=
  AI ai_msg :: flat_map tool_result (AIMessage.tool_calls ai_msg).

Definition pending (ai_msg : AIMessage.t) : Prop :=
  AIMessage.tool_calls ai_msg <> [].

Lemma tool_call_loop_settles messages replies :
  tool_call_loop invoke replies messages [] = (Settled messages, replies).
Proof. destruct replies; reflexivity. Qed.

Lemma tool_call_loop_rounds rounds : forall ai_msg messages final extra,
  Forall pending (ai_msg :: rounds) ->
  Forall (fun r => tools_return (AIMessage.tool_calls r))
    (ai_msg :: rounds) ->
  AIMessage.tool_calls final = [] ->
  tool_call_loop invoke (rounds ++ final :: extra) (messages ++ [AI ai_msg])
    (AIMessage.tool_calls ai_msg)
  = (Settled (messages ++ flat_map round (ai_msg :: rounds) ++ [AI final]),
     extra).
Proof.
  induction rounds as [|r rounds IH];
    intros ai_msg messages final extra Hpend Hret Hfinal.
  - apply Forall_inv in Hpend, Hret. apply nonempty_true in Hpend.
    simpl. rewrite Hpend. simpl. rewrite (execute_spec _ _ Hret).
    rewrite Hfinal, tool_call_loop_settles. unfold round. simpl.
    now rewrite app_nil_r, <- !app_assoc.
  - pose proof (Forall_inv Hpend) as Hp. pose proof (Forall_inv Hret) as Hr.
    apply nonempty_true in Hp.
    simpl. rewrite Hp. simpl. rewrite (execute_spec _ _ Hr).
    rewrite IH.
    + f_equal. f_equal.
      change (flat_map round (ai_msg :: r :: rounds))
        with (round ai_msg ++ flat_map round (r :: rounds)).
      unfold round at 2. rewrite <- !app_assoc. reflexivity.
    + now apply Forall_inv_tail in Hpend.
    + now apply Forall_inv_tail in Hret.
    + exact Hfinal.
Qed.

Lemma tool_call_loop_waits messages tool_calls :
  tool_calls <> [] ->
  forall settled,
    fst (tool_call_loop invoke [] messages tool_calls) <> Settled settled.
Proof.
  intros Hne settled. apply nonempty_true in Hne. simpl. rewrite Hne. simpl.
  now destruct (execute invoke tool_calls messages) as [m [e|]].
Qed.
End LoopFacts.

Section Orchestration.
Context `{PyRuntime}.
Variable invoke : Tool.t -> ToolCall.t -> outcome string.
Variable SYSTEM_PROMPT : string.

Definition is_tool_message (m : Message) : bool :=
  match m with
  | ToolMessage _ _ => true
  | _ => false
  end.

(** The tool messages of a history, in order. *)
Definition tool_messages (l : list Message) : list Message :=
  List.filter is_tool_message l.

Lemma tool_messages_results tool_calls :
  tool_messages (flat_map (tool_result invoke) tool_calls)
  = flat_map (tool_result invoke) tool_calls.
Proof.
  unfold tool_messages.
  induction tool_calls as [|c tool_calls IH]; simpl; [reflexivity|].
  rewrite List.filter_app, IH. f_equal.
  unfold tool_result. destruct (resolve c) as [t|]; [|reflexivity].
  now destruct (invoke t c).
Qed.

Lemma tool_messages_rounds rounds :
  tool_messages (flat_map (round invoke) rounds)
  = flat_map
      (fun r => flat_map (tool_result invoke) (AIMessage.tool_calls r))
      rounds.
Proof.
  induction rounds as [|r rounds IH]; simpl; [reflexivity|].
  unfold tool_messages in *. rewrite List.filter_app, IH. f_equal.
  apply tool_messages_results.
Qed.

Lemma last_content_snoc l m : last_content (l ++ [m]) = content m.
Proof. unfold last_content. now rewrite last_snoc. Qed.

(** The reply carries exactly one call, to a registered tool. *)
Definition one_registered_call (ai_msg : AIMessage.t) : Prop :=
  exists tool_call,
    AIMessage.tool_calls ai_msg = [tool_call]
    /\ is_Some (resolve tool_call).

(** C6. If the model answers [rounds], each reply carrying calls whose
    registered tools return, and then [final] carrying none, the request
    settles on [final]: its text is the reply, and the history has gained
    the user message, then for each round the reply of the model followed
    by one tool message per executed call in the order listed, then
    [final]; the model was invoked once per round and once more.  With no
    round this is a single invocation.  With one call to a registered
    tool per round, the tool messages gained are one per round, in round
    order.  A reply that carries calls never settles the loop by itself. *)
Theorem orchestration_loop (rounds : list AIMessage.t)
    (final : AIMessage.t) (extra : list AIMessage.t) (now : string)
    (user_messages : gmap string (list Message)) (request : ChatRequest.t) :
  Forall pending rounds ->
  Forall (fun r => tools_return invoke (AIMessage.tool_calls r)) rounds ->
  AIMessage.tool_calls final = [] ->
  let userId := ChatRequest.userId request in
  let history :=
    default [SystemMessage SYSTEM_PROMPT] (user_messages !! userId) in
  let gained :=
    HumanMessage (ChatRequest.message request)
    :: flat_map (round invoke) rounds ++ [AI final] in
  chat_endpoint invoke SYSTEM_PROMPT (rounds ++ final :: extra) now
    user_messages request
  = (<[userId := history ++ gained]> user_messages,
     inl (MessageResponse.mk (AIMessage.content final)
            (userId +:+ "_assistant_"
             +:+ pretty (length (history ++ gained)))
            "assistant" now),
     extra)
  /\ (rounds = [] ->
      gained = [HumanMessage (ChatRequest.message request); AI final])
  /\ tool_messages gained
     = flat_map
         (fun r => flat_map (tool_result invoke) (AIMessage.tool_calls r))
         rounds
  /\ (forall r tool_call selected_tool,
        In r rounds -> In tool_call (AIMessage.tool_calls r) ->
        resolve tool_call = Some selected_tool ->
        exists output,
          invoke selected_tool tool_call = Returned output
          /\ tool_result invoke tool_call
             = [ToolMessage output (ToolCall.id tool_call)])
  /\ (Forall one_registered_call rounds ->
      length (tool_messages gained) = length rounds)
  /\ (forall messages tool_calls settled,
        tool_calls <> [] ->
        fst (tool_call_loop invoke [] messages tool_calls)
        <> Settled settled).
Proof.
  intros Hpend Hret Hfinal userId history gained.
  assert (Htools : tool_messages gained
            = flat_map
                (fun r => flat_map (tool_result invoke)
                            (AIMessage.tool_calls r)) rounds).
  { unfold gained, tool_messages. simpl.
    rewrite List.filter_app. simpl. rewrite app_nil_r.
    apply tool_messages_rounds. }
  assert (Hexec : forall r tool_call selected_tool,
            In r rounds -> In tool_call (AIMessage.tool_calls r) ->
            resolve tool_call = Some selected_tool ->
            exists output,
              invoke selected_tool tool_call = Returned output
              /\ tool_result invoke tool_call
                 = [ToolMessage output (ToolCall.id tool_call)]).
  { intros r c t Hr Hc Hres. rewrite List.Forall_forall in Hret.
    destruct (Hret r Hr c t Hc Hres) as [output Hout].
    exists output. split; [exact Hout|].
    unfold tool_result. now rewrite Hres, Hout. }
  split; [|split; [|split; [|split; [|split]]]].
  - unfold chat_endpoint. fold userId. fold history.
    assert (Hloop :
      match rounds ++ final :: extra with
      | [] => (Waiting (history ++ [HumanMessage (ChatRequest.message request)]), [])
      | ai_msg :: replies =>
          tool_call_loop invoke replies
            ((history ++ [HumanMessage (ChatRequest.message request)])
             ++ [AI ai_msg])
            (AIMessage.tool_calls ai_msg)
      end = (Settled (history ++ gained), extra)).
    { unfold gained. destruct rounds as [|r rounds]; cbn [app].
      - rewrite Hfinal, tool_call_loop_settles. simpl.
        now rewrite <- app_assoc.
      - rewrite (tool_call_loop_rounds invoke rounds r _ final extra);
          trivial.
        now rewrite <- app_assoc. }
    destruct (rounds ++ final :: extra) as [|ai_msg replies] eqn:Hreplies.
    { destruct rounds; discriminate. }
    rewrite Hloop.
    replace (last_content (history ++ gained))
      with (AIMessage.content final); [reflexivity|].
    unfold gained.
    rewrite app_comm_cons, app_assoc. now rewrite last_content_snoc.
  - now intros ->.
  - exact Htools.
  - exact Hexec.
  - intros Hone. rewrite Htools. clear Htools.
    induction rounds as [|r rounds IH]; [reflexivity|].
    simpl. rewrite length_app.
    pose proof (Forall_inv Hone) as (c & Hc & [t Ht]).
    destruct (Hexec r c t) as (output & _ & Hres);
      [now left|rewrite Hc; now left|exact Ht|].
    rewrite Hc. simpl. rewrite app_nil_r, Hres. simpl. f_equal.
    apply IH.
    + now apply Forall_inv_tail in Hpend.
    + now apply Forall_inv_tail in Hret.
    + intros r' c' t' Hr'. apply Hexec. now right.
    + now apply Forall_inv_tail in Hone.
  - intros messages tool_calls settled Hne.
    now apply tool_call_loop_waits.
Qed.
End Orchestration.

(** ** The registry *)

Section Registry.
Context `{PyRuntime}.
Variable invoke : Tool.t -> ToolCall.t -> outcome string.

(** The tools [tool_dict] maps a name to. *)
Definition registered : list Tool.t :=
  [Tool.hospital_search_tool; Tool.get_test_by_id_tool;
   Tool.get_tests_by_type_tool; Tool.get_tests_by_hospital_tool].

Lemma tool_dict_Some name tool :
  tool_dict !! name = Some tool <->
  In tool registered /\ name = Tool.name tool.
Proof.
  unfold tool_dict. rewrite !lookup_insert_Some, lookup_empty. split.
  - intros [[<- <-]|[_ [[<- <-]|[_ [[<- <-]|[_ [[<- <-]|[_ [=]]]]]]]]];
      simpl; auto 6.
  - intros [[<-|[<-|[<-|[<-|[]]]]] ->]; simpl;
      repeat (first [left; split; reflexivity | right; split; [discriminate|]]).
Qed.

(** C7 (amended). A call whose lower-cased name is one of the four names
    [tool_dict] holds (hospital_search, get_test_by_id, get_tests_by_type,
    get_tests_by_hospital_name_or_id) resolves to that tool, which is run,
    and its tool message is appended; a call whose lower-cased name is not
    in [tool_dict] changes nothing and raises nothing; and
    get_hospital_feedbacks and doctor_search are not in [tool_dict]. *)
Theorem registry_dispatch (tool_call : ToolCall.t)
    (messages : list Message) :
  (forall tool,
     In tool registered ->
     lower (ToolCall.name tool_call) = Tool.name tool ->
     resolve tool_call = Some tool
     /\ forall output,
          invoke tool tool_call = Returned output ->
          execute invoke [tool_call] messages
          = (messages ++ [ToolMessage output (ToolCall.id tool_call)],
             None))
  /\ (resolve tool_call = None ->
      execute invoke [tool_call] messages = (messages, None))
  /\ (forall tool,
        resolve tool_call = Some tool ->
        In tool registered
        /\ lower (ToolCall.name tool_call) = Tool.name tool)
  /\ (lower (ToolCall.name tool_call)
      = Tool.name Tool.get_hospital_feedbacks_tool
      \/ lower (ToolCall.name tool_call)
         = Tool.name Tool.doctor_search_tool ->
      resolve tool_call = None).
Proof.
  split; [|split; [|split]].
  - intros tool Hreg Hname.
    assert (Hres : resolve tool_call = Some tool)
      by (apply tool_dict_Some; now split).
    split; [exact Hres|]. intros output Hout. simpl.
    unfold resolve in Hres. now rewrite Hres, Hout.
  - intros Hres. simpl. unfold resolve in Hres. now rewrite Hres.
  - intros tool Hres. now apply tool_dict_Some.
  - unfold resolve. intros [->| ->]; reflexivity.
Qed.
End Registry.

(** ** The theorems on the fixture *)

Section OnFixture.
Import Fixture.
#[local] Existing Instance cpython.
#[local] Existing Instance exact.

Definition rated (h : HospitalResponse.t) (ratings : list Z) (avg : Q)
    : RatedHospital.t := RatedHospital.mk h ratings avg.

(** The default search over the fixture: the pool is listed by ascending
    identifier and the ranking is sorted. *)
Lemma hospital_search_ranking_witness :
  candidate_pool backend HospitalSearch.defaults
  = Returned [city_general; green_life; mount_adora]
  /\ exists ranked,
       hospital_search_tool backend HospitalSearch.defaults
       = Returned
           (slice_to (HospitalSearch.top_n HospitalSearch.defaults) ranked)
       /\ StronglySorted (desc RatedHospital.averageRating) ranked.
Proof.
  assert (Hpool : candidate_pool backend HospitalSearch.defaults
                  = Returned [city_general; green_life; mount_adora])
    by (vm_compute; reflexivity).
  split; [exact Hpool|].
  destruct (hospital_search_ranking backend HospitalSearch.defaults _ Hpool)
    as (Hranking & _).
  destruct Hranking as (ranked & Hsearch & _ & Hsorted & _).
  { intros h _. apply hospital_filter_exact. }
  exists ranked. split; assumption.
Defined.

(** C1 as stated fails: the full list is fetched in the order Mount Adora
    (3), City General (1), Green Life (2); Mount Adora and City General
    both average 0, and the search lists City General before Mount Adora,
    not in fetch order. *)
Lemma hospital_search_fetch_order_counterexample :
  hospital_v1_all backend = ok [mount_adora; city_general; green_life]
  /\ hospital_search_tool backend HospitalSearch.defaults
     = Returned [rated green_life [4; 5] (9 # 2);
                 rated city_general [] 0; rated mount_adora [] 0]
  /\ slice_to (Some 5)
       (sorted_reverse RatedHospital.averageRating
          (survivors backend HospitalSearch.defaults
             [mount_adora; city_general; green_life]))
     = [rated green_life [4; 5] (9 # 2);
        rated mount_adora [] 0; rated city_general [] 0]
  /\ hospital_search_tool backend HospitalSearch.defaults
     <> Returned
          (slice_to (Some 5)
             (sorted_reverse RatedHospital.averageRating
                (survivors backend HospitalSearch.defaults
                   [mount_adora; city_general; green_life]))).
Proof.
  split; [reflexivity|]. split; [vm_compute; reflexivity|].
  split; [vm_compute; reflexivity|].
  vm_compute. intros Heq. discriminate Heq.
Qed.

(** The blood tests are those of hospital 1, cost range LOW gives
    hospitals 1 and 2: the pool is their intersection, hospital 1 without
    hospital 2; without category filter the pool has the identifiers of the
    full list. *)
Lemma candidate_pool_intersection_witness :
  category_sets backend blood_low
  = Returned [[city_general]; [city_general; green_life]]
  /\ (exists pool,
        candidate_pool backend blood_low = Returned pool
        /\ In 1 (ids pool) /\ ~ In 2 (ids pool))
  /\ (exists pool,
        candidate_pool backend HospitalSearch.defaults = Returned pool
        /\ forall i, In i (ids pool) <-> In i (ids all_hospitals)).
Proof.
  assert (Hsets : category_sets backend blood_low
            = Returned [[city_general]; [city_general; green_life]])
    by (vm_compute; reflexivity).
  assert (Hnone : category_sets backend HospitalSearch.defaults
                  = Returned [])
    by (vm_compute; reflexivity).
  split; [exact Hsets|]. split.
  - destruct (candidate_pool_intersection backend blood_low _ Hsets)
      as [(tt & cr & ht & Htt & Hcr & Hht & Hinter) _].
    vm_compute in Htt, Hcr, Hht.
    injection Htt as <-. injection Hcr as <-. injection Hht as <-.
    cbv zeta in Hinter. destruct Hinter as (_ & _ & Hinter).
    assert (Htest : category_ids (test_v1_type backend)
                      (omap TestResponse.hospitalResponse)
                      (Some ["BLOOD"]) 1).
    { exists [blood_test]. split; [|now left].
      exists "BLOOD", (Response.mk 200 (Returned [blood_test]) "[...]").
      repeat split. now left. }
    assert (Hcost : category_ids (hospital_v1_cost_range backend)
                      (fun l => l) (Some ["LOW"]) 1).
    { exists [city_general; green_life]. split; [|now left].
      exists "LOW",
        (Response.mk 200 (Returned [city_general; green_life]) "[...]").
      repeat split. now left. }
    destruct Hinter as (pool & Hpool & _ & Hcommon & _).
    { eexists _, 1. split; [left; reflexivity|exact Htest]. }
    exists pool. split; [exact Hpool|]. split.
    + apply Hcommon. intros fetched_x [<-|[<-|[<-|[]]]] Hsome;
        [exact Htest|exact Hcost|].
      destruct Hsome as (j & body & (v & resp & [] & _) & _).
    + intros Hin.
      destruct (proj1 (Hcommon 2) Hin _ (or_introl eq_refl)
                  (ex_intro _ 1 Htest))
        as (body & (v & resp & [<-|[]] & Hget & _ & Hjson) & Hi).
      injection Hget as <-. injection Hjson as <-.
      destruct Hi as [Hi|[]]. discriminate Hi.
  - destruct (candidate_pool_intersection backend HospitalSearch.defaults
                _ Hnone) as (_ & Hall).
    destruct (Hall eq_refl eq_refl eq_refl _ all_hospitals
                eq_refl eq_refl eq_refl)
      as (pool & Hpool & _ & Hids & _).
    exists pool. split; assumption.
Defined.

(** The tokens "xray" and "mri" match no test type: the search is the
    search without test types, over a pool with the identifiers of the
    full list. *)
Lemma enum_normalization_witness :
  all_dropped TEST_TYPE ["xray"; "mri"]
  /\ hospital_search_tool backend unknown_tests
     = hospital_search_tool backend
         (HospitalSearch.with_test_types None unknown_tests)
  /\ normalize COST_RANGE (Some ["LOW"; "cheap"; "HGH"])
     = Returned (Some ["LOW"; "HIGH"])
  /\ exists pool,
       candidate_pool backend unknown_tests = Returned pool
       /\ (forall i, In i (ids pool) <-> In i (ids all_hospitals))
       /\ exists ranked,
            hospital_search_tool backend unknown_tests
            = Returned
                (slice_to (HospitalSearch.top_n unknown_tests) ranked)
            /\ Permutation ranked (survivors backend unknown_tests pool).
Proof.
  assert (Hdrop : all_dropped TEST_TYPE ["xray"; "mri"]).
  { intros t c [<-|[<-|[]]] Hc; simpl in Hc;
      repeat (destruct Hc as [<-|Hc]; [vm_compute; reflexivity|]);
      destruct Hc. }
  destruct (enum_normalization backend unknown_tests)
    as (_ & Hnorm & Htests & _ & _ & _ & Hnothing).
  split; [exact Hdrop|]. split; [|split].
  - exact (Htests _ eq_refl Hdrop).
  - rewrite (Hnorm COST_RANGE); [vm_compute; reflexivity|right; now left].
  - destruct Hnothing as [_ Hall].
    + intros ts [= <-]. exact Hdrop.
    + intros ts [=].
    + intros ts [=].
    + destruct (Hall _ all_hospitals eq_refl eq_refl eq_refl)
        as (pool & Hpool & _ & Hids & _ & Hsearch).
      exists pool. split; [exact Hpool|]. split; [exact Hids|].
      apply Hsearch. intros h _. apply hospital_filter_exact.
Defined.

(** C4 as stated fails: with [zone_id=0] supplied, a hospital of zone 4
    passes the filter. *)
Lemma zone_id_zero_counterexample :
  HospitalSearch.zone_id zone_zero = Some 0
  /\ loc_get LocationResponse.zoneId
       (HospitalResponse.locationResponse city_general) = Some 4
  /\ hospital_filter zone_zero city_general = Returned true.
Proof. repeat split; vm_compute; reflexivity. Qed.

(** Green Life has ratings 4 and 5; the feedback request for Mount Adora
    raises and leaves it unrated while the search returns. *)
Lemma feedback_ratings_witness :
  candidate_pool backend HospitalSearch.defaults
  = Returned [city_general; green_life; mount_adora]
  /\ (exists ranked,
        hospital_search_tool backend HospitalSearch.defaults
        = Returned
            (slice_to (HospitalSearch.top_n HospitalSearch.defaults) ranked)
        /\ Permutation ranked
             (survivors backend HospitalSearch.defaults
                [city_general; green_life; mount_adora]))
  /\ RatedHospital.ratings (add_ratings backend green_life) = [4; 5]
  /\ RatedHospital.ratings (add_ratings backend mount_adora) = [].
Proof.
  assert (Hpool : candidate_pool backend HospitalSearch.defaults
                  = Returned [city_general; green_life; mount_adora])
    by (vm_compute; reflexivity).
  destruct (feedback_ratings backend HospitalSearch.defaults _ Hpool)
    as (Hsearch & _ & Hrated).
  split; [exact Hpool|]. split.
  { apply Hsearch. intros h _. apply hospital_filter_exact. }
  split.
  - destruct (Hrated green_life) as (_ & Hfetched & _).
    destruct (Hfetched ltac:(discriminate) _ _ eq_refl eq_refl eq_refl)
      as (Hratings & _).
    exact Hratings.
  - destruct (Hrated mount_adora) as (_ & _ & Hfailed & _).
    apply Hfailed. left. now exists (HTTPError "connection refused").
Defined.

(** C5 as stated fails: the hospital under identifier 0 survives, the
    feedback service holds a rating 5 for it, and it is returned without
    ratings. *)
Lemma feedback_identifier_zero_counterexample :
  feedback_v1_hospital pilot (HospitalResponse.id unnumbered)
  = ok [feedback 3 5]
  /\ hospital_search_tool pilot HospitalSearch.defaults
     = Returned [rated green_life [4; 5] (9 # 2); rated unnumbered [] 0]
  /\ RatedHospital.ratings (add_ratings pilot unnumbered)
     <> ratings_of [feedback 3 5].
Proof.
  split; [reflexivity|]. split; [vm_compute; reflexivity|].
  vm_compute. discriminate.
Qed.

(** Two rounds of one call each, then a plain reply, for a new user. *)
Lemma orchestration_loop_witness :
  Forall pending [first_round; second_round]
  /\ chat_endpoint invoke "You are a helpful assistant."
       ([first_round; second_round] ++ final_reply :: []) "now" ∅ request
     = (<["u1" :=
            [SystemMessage "You are a helpful assistant.";
             HumanMessage "Which public hospital is cheap?";
             AI first_round;
             ToolMessage "[result of hospital_search]" "call_1";
             AI second_round;
             ToolMessage "[result of get_test_by_id]" "call_2";
             AI final_reply]]> ∅,
        inl (MessageResponse.mk "Green Life Hospital is rated 4.5."
               "u1_assistant_7" "assistant" "now"),
        []).
Proof.
  assert (Hpend : Forall pending [first_round; second_round])
    by (repeat constructor; discriminate).
  assert (Hret : Forall
            (fun r => tools_return invoke (AIMessage.tool_calls r))
            [first_round; second_round]).
  { repeat constructor; intros c t _ _; eexists; reflexivity. }
  split; [exact Hpend|].
  exact (proj1 (orchestration_loop invoke "You are a helpful assistant."
                  [first_round; second_round] final_reply [] "now" ∅
                  request Hpend Hret eq_refl)).
Defined.

(** A call in upper case resolves; a call to an unknown tool is skipped. *)
Lemma registry_dispatch_witness :
  execute invoke [call "GET_TEST_BY_ID" "call_1"] []
  = ([ToolMessage "[result of get_test_by_id]" "call_1"], None)
  /\ execute invoke [call "book_appointment" "call_2"] [] = ([], None).
Proof.
  split.
  - destruct (registry_dispatch invoke (call "GET_TEST_BY_ID" "call_1") [])
      as (Hrun & _).
    destruct (Hrun Tool.get_test_by_id_tool) as [_ Hexec];
      [right; now left|reflexivity|].
    exact (Hexec _ eq_refl).
  - destruct (registry_dispatch invoke (call "book_appointment" "call_2")
                []) as (_ & Hskip & _).
    apply Hskip. vm_compute. reflexivity.
Defined.

(** C7 as stated fails: [tools.py] names a tool doctor_search, and a call
    of that name runs nothing and appends nothing. *)
Lemma doctor_search_unregistered_counterexample :
  Tool.name Tool.doctor_search_tool = "doctor_search"
  /\ resolve (call "doctor_search" "call_1") = None
  /\ execute invoke [call "doctor_search" "call_1"]
       [HumanMessage "Find me a cardiologist"]
     = ([HumanMessage "Find me a cardiologist"], None).
Proof. repeat split; vm_compute; reflexivity. Qed.

(** A misspelt specialty and a lower-case city find Dr. Rahman. *)
Lemma doctor_search_spec_witness :
  doctor_v1_all backend = ok [dr_rahman; dr_karim]
  /\ doctor_search_tool backend cardiologists
     = Dumps
         (slice_to (DoctorSearch.top_n cardiologists)
            (List.filter (doctor_filter cardiologists)
               [dr_rahman; dr_karim]))
  /\ doctor_search_tool backend cardiologists = Dumps [dr_rahman].
Proof.
  split; [reflexivity|].
  destruct (doctor_search_spec backend cardiologists _ [dr_rahman; dr_karim]
              eq_refl eq_refl eq_refl) as (Hsearch & _).
  split; [exact Hsearch|]. rewrite Hsearch. vm_compute. reflexivity.
Defined.

(** No hospital of the fixture is close to "Square". *)
Lemma lookup_errors_witness :
  extractOne "Square" (map HospitalResponse.name all_hospitals)
  = Some ("Green Life Hospital", 400 # 25)
  /\ get_tests_by_hospital_tool backend None (Some "Square")
     = Returned "Error: No hospital found matching 'Square'"
  /\ get_hospital_feedbacks_tool backend None (Some "Square")
     = "Error: No hospital found matching 'Square'".
Proof.
  assert (Hbest : extractOne "Square"
                    (map HospitalResponse.name all_hospitals)
                  = Some ("Green Life Hospital", 400 # 25))
    by (vm_compute; reflexivity).
  destruct (lookup_errors backend) as (_ & _ & Hname).
  destruct (Hname "Square" _ all_hospitals _ _ eq_refl eq_refl Hbest)
    as (Htests & Hfeedbacks & _); [vm_compute; reflexivity|].
  split; [exact Hbest|]. split; [exact Htests|].
  exact (Hfeedbacks eq_refl).
Defined.

(** While the category endpoints answer 503, the search for LOW and PUBLIC
    returns what the search without categories returns. *)
Lemma failed_categories_broaden_witness :
  all_fail (hospital_v1_cost_range degraded) (Some ["LOW"])
  /\ all_fail (hospital_v1_type degraded) (Some ["PUBLIC"])
  /\ hospital_search_tool degraded low_public
     = hospital_search_tool degraded
         (HospitalSearch.without_categories low_public)
  /\ exists pool,
       candidate_pool degraded low_public = Returned pool
       /\ (forall i, In i (ids pool) <-> In i (ids all_hospitals))
       /\ exists ranked,
            hospital_search_tool degraded low_public
            = Returned (slice_to (HospitalSearch.top_n low_public) ranked)
            /\ Permutation ranked (survivors degraded low_public pool).
Proof.
  assert (Hfail : forall A values,
            all_fail (fun _ : string => @unavailable (list A)) values)
    by (intros A values v _; eexists; split; reflexivity).
  split; [apply Hfail|]. split; [apply Hfail|].
  assert (Hcost : normalize COST_RANGE (HospitalSearch.cost_ranges low_public)
                  = Returned (Some ["LOW"]))
    by (vm_compute; reflexivity).
  assert (Htype : normalize HOSPITAL_TYPE
                    (HospitalSearch.hospital_types low_public)
                  = Returned (Some ["PUBLIC"]))
    by (vm_compute; reflexivity).
  destruct (failed_categories_broaden degraded low_public
              None (Some ["LOW"]) (Some ["PUBLIC"]) eq_refl Hcost Htype
              (Hfail _ _) (Hfail _ _) (Hfail _ _))
    as (_ & _ & _ & Hsame & Hall).
  split; [exact Hsame|].
  destruct (Hall _ all_hospitals eq_refl eq_refl eq_refl)
    as (pool & Hpool & _ & Hids & _ & Hsearch).
  exists pool. split; [exact Hpool|]. split; [exact Hids|].
  apply Hsearch. intros h _. apply hospital_filter_exact.
Defined.
End OnFixture.

(** * Further properties of the tools *)

(** ** intersect_hospitals: edge cases *)

Section IntersectEdge.
Context `{PyRuntime}.

(** The record a dictionary comprehension over [flat] keeps under [i]: the
    last one of that identifier. *)
Definition last_with_id (i : Z) (flat : list HospitalResponse.t)
    : option HospitalResponse.t :=
  List.find (fun h => HospitalResponse.id h =? i) (rev flat).

Lemma find_snoc {A} (p : A -> bool) (l : list A) (x : A) :
  List.find p (l ++ [x])
  = match List.find p l with
    | Some y => Some y
    | None => if p x then Some x else None
    end.
Proof.
  induction l as [|y l IH]; simpl; [reflexivity|].
  now destruct (p y).
Qed.

Lemma fold_insert_last flat : forall (m : gmap Z HospitalResponse.t) i,
  fold_left (fun m h => <[HospitalResponse.id h := h]> m) flat m !! i
  = match last_with_id i flat with
    | Some h => Some h
    | None => m !! i
    end.
Proof.
  unfold last_with_id.
  induction flat as [|x flat IH]; intros m i; simpl; [reflexivity|].
  rewrite IH, find_snoc.
  destruct (List.find _ (rev flat)); [reflexivity|].
  rewrite lookup_insert. destruct (Z.eqb_spec (HospitalResponse.id x) i).
  - now rewrite decide_True.
  - now rewrite decide_False.
Qed.

Lemma id_to_hospital_last lists i :
  id_to_hospital lists !! i = last_with_id i (concat lists).
Proof.
  unfold id_to_hospital. rewrite fold_insert_last.
  now destruct (last_with_id i (concat lists)).
Qed.

Lemma concat_filter_nonempty {A} (lists : list (list A)) :
  concat (List.filter nonempty lists) = concat lists.
Proof.
  induction lists as [|l lists IH]; simpl; [reflexivity|].
  destruct l; simpl; [exact IH|]. now rewrite IH.
Qed.

Lemma filter_nonempty_idem {A} (lists : list (list A)) :
  List.filter nonempty (List.filter nonempty lists)
  = List.filter nonempty lists.
Proof.
  induction lists as [|l lists IH]; simpl; [reflexivity|].
  destruct (nonempty l) eqn:Hl; simpl; [|exact IH]. now rewrite Hl, IH.
Qed.

(** X1. [intersect_hospitals] never raises: every common identifier is a
    key of [id_to_hospital].  The identifiers it lists are distinct, the
    record listed under an identifier is the last one of that identifier
    over all the lists, and empty lists are ignored: the result is that of
    the non-empty lists alone, [[]] when there is none. *)
Theorem intersect_hospitals_total (lists : list (list HospitalResponse.t)) :
  (exists pool,
     intersect_hospitals lists = Returned pool
     /\ List.NoDup (ids pool)
     /\ forall h, In h pool ->
          last_with_id (HospitalResponse.id h) (concat lists) = Some h)
  /\ intersect_hospitals lists
     = intersect_hospitals (List.filter nonempty lists)
  /\ (List.filter nonempty lists = [] ->
      intersect_hospitals lists = Returned []).
Proof.
  split; [|split].
  - destruct (intersect_hospitals_spec lists)
      as (pool & Hpool & Hnd & _ & _).
    exists pool. split; [exact Hpool|]. split; [exact Hnd|].
    unfold intersect_hospitals in Hpool.
    destruct (negb (nonempty lists)); [injection Hpool as <-; intros ? []|].
    destruct (negb (nonempty (map ids (List.filter nonempty lists))));
      [injection Hpool as <-; intros ? []|].
    apply for_each_inv in Hpool. clear Hnd.
    induction Hpool as [|i h l l' Hih _ IH]; [intros ? []|].
    intros h0 [<-|Hin]; [|now apply IH].
    rewrite id_to_hospital_last in Hih.
    destruct (last_with_id i (concat lists)) as [h'|] eqn:Hlast;
      [|discriminate].
    injection Hih as <-.
    assert (Hid : HospitalResponse.id h' = i).
    { unfold last_with_id in Hlast. apply find_some in Hlast as [_ Hid].
      now apply Z.eqb_eq in Hid. }
    now rewrite Hid.
  - unfold intersect_hospitals.
    rewrite filter_nonempty_idem.
    unfold id_to_hospital. rewrite concat_filter_nonempty.
    destruct (List.filter nonempty lists) as [|l0 ls] eqn:Hfilter.
    + simpl. now destruct (negb (nonempty lists)).
    + assert (Hlists : nonempty lists = true).
      { destruct lists; [discriminate|reflexivity]. }
      now rewrite Hlists.
  - intros Hnone. unfold intersect_hospitals. rewrite Hnone. simpl.
    now destruct (negb (nonempty lists)).
Qed.
End IntersectEdge.

(** ** Normalised tokens and the requests made for them *)

Section CanonicalRequests.
Context `{PyRuntime} `{PyFloat}.

Lemma token_result_canonical valid token :
  In valid enums ->
  Forall (fun m => In m valid) (token_result valid token)
  /\ (length (token_result valid token) <= 1)%nat.
Proof.
  intros Hvalid. destruct (enums_wf valid Hvalid) as [Hne _].
  unfold token_result.
  pose proof (fuzzy_enum_match_spec token valid Hne) as Hspec.
  destruct (fuzzy_enum_match token valid) as [[m|]|e]; simpl.
  - destruct Hspec as (Hin & _). split; [|lia].
    constructor; [exact Hin|constructor].
  - split; [constructor|lia].
  - split; [constructor|lia].
Qed.

(** The tokens of a category come out as values of its enum, no more of
    them than went in. *)
Definition canonical (valid tokens : list string) : Prop :=
  exists matched,
    normalize valid (Some tokens) = Returned (Some matched)
    /\ Forall (fun m => In m valid) matched
    /\ (length matched <= length tokens)%nat.

Lemma normalize_canonical_in valid tokens :
  In valid enums -> canonical valid tokens.
Proof.
  intros Hvalid. exists (flat_map (token_result valid) tokens).
  split; [|split].
  - unfold normalize. destruct tokens as [|t tokens]; [reflexivity|].
    cbn [truthy_list].
    change (default [] (Some (t :: tokens))) with (t :: tokens).
    now rewrite (matched_tokens_spec valid _ Hvalid).
  - induction tokens as [|t tokens IH]; simpl; [constructor|].
    apply Forall_app. split; [|exact IH].
    now apply token_result_canonical.
  - induction tokens as [|t tokens IH]; simpl; [lia|].
    rewrite length_app.
    pose proof (proj2 (token_result_canonical valid t Hvalid)). lia.
Qed.

(** X2. Whatever tokens are supplied for test types, cost ranges or
    hospital types, normalisation returns (it never raises), every token it
    keeps is a value of the enum, and it keeps at most as many as it was
    given. *)
Theorem normalize_canonical (tokens : list string) :
  canonical TEST_TYPE tokens
  /\ canonical COST_RANGE tokens
  /\ canonical HOSPITAL_TYPE tokens.
Proof.
  repeat split; apply normalize_canonical_in; unfold enums; simpl; auto.
Qed.

Lemma fetch_each_ext {A} (get get' : string -> outcome (Response.t (list A)))
    (extract : list A -> list HospitalResponse.t) values :
  (forall v, In v values -> get v = get' v) ->
  fetch_each get extract values = fetch_each get' extract values.
Proof.
  induction values as [|v values IH]; intros Hagree; simpl; [reflexivity|].
  rewrite <- (Hagree v) by now left.
  rewrite IH by (intros v' Hv'; apply Hagree; now right).
  reflexivity.
Qed.

Lemma fetch_category_ext {A} valid
    (get get' : string -> outcome (Response.t (list A)))
    (extract : list A -> list HospitalResponse.t) tokens normalized :
  In valid enums ->
  normalize valid tokens = Returned normalized ->
  (forall v, In v valid -> get v = get' v) ->
  fetch_category get extract normalized
  = fetch_category get' extract normalized.
Proof.
  intros Hvalid Hnorm Hagree. unfold fetch_category.
  destruct (truthy_list normalized) eqn:Htruthy; [|reflexivity].
  rewrite (fetch_each_ext get get'); [reflexivity|].
  intros v Hv. apply Hagree.
  unfold normalize in Hnorm.
  destruct (truthy_list tokens) eqn:Htokens.
  - destruct tokens as [[|t tokens]|]; try discriminate.
    destruct (normalize_canonical_in valid (t :: tokens) Hvalid)
      as (matched & Hmatched & Hall & _).
    unfold normalize in Hmatched. cbn [truthy_list] in Hmatched.
    rewrite Hmatched in Hnorm. injection Hnorm as <-.
    rewrite List.Forall_forall in Hall. now apply Hall.
  - injection Hnorm as <-. congruence.
Qed.

(** Two back ends that answer alike wherever the search can ask. *)
Definition agree_on_enums (b b' : Backend) : Prop :=
  (forall v, In v TEST_TYPE -> test_v1_type b v = test_v1_type b' v)
  /\ (forall v, In v COST_RANGE ->
        hospital_v1_cost_range b v = hospital_v1_cost_range b' v)
  /\ (forall v, In v HOSPITAL_TYPE ->
        hospital_v1_type b v = hospital_v1_type b' v)
  /\ hospital_v1_all b = hospital_v1_all b'
  /\ (forall i, feedback_v1_hospital b i = feedback_v1_hospital b' i).

(** X3. The search asks the category endpoints for values of the enums
    only: two back ends that differ at most in what they answer for other
    type or cost-range strings, or in the endpoints the search does not
    use, give the same search result for every argument. *)
Theorem hospital_search_canonical_requests (b b' : Backend)
    (a : HospitalSearch.args) :
  agree_on_enums b b' ->
  hospital_search_tool b a = hospital_search_tool b' a.
Proof.
  intros (Htest & Hcost & Htype & Hall & Hfeedback).
  assert (Hsets : category_sets b a = category_sets b' a).
  { unfold category_sets.
    destruct (normalize TEST_TYPE _) as [tt|e] eqn:Htt; [|reflexivity].
    destruct (normalize COST_RANGE _) as [cr|e] eqn:Hcr; [|reflexivity].
    destruct (normalize HOSPITAL_TYPE _) as [ht|e] eqn:Hht; [|reflexivity].
    simpl.
    rewrite (fetch_category_ext TEST_TYPE _ (test_v1_type b') _ _ tt)
      by (first [exact Htt | exact Htest | (left; reflexivity)]).
    rewrite (fetch_category_ext COST_RANGE _ (hospital_v1_cost_range b')
               _ _ cr)
      by (first [exact Hcr | exact Hcost | (right; left; reflexivity)]).
    rewrite (fetch_category_ext HOSPITAL_TYPE _ (hospital_v1_type b')
               _ _ ht)
      by (first [exact Hht | exact Htype | (right; right; left; reflexivity)]).
    reflexivity. }
  assert (Hadd : forall h, add_ratings b h = add_ratings b' h).
  { intros h. unfold add_ratings. now rewrite Hfeedback. }
  unfold hospital_search_tool, candidate_pool. rewrite Hsets.
  destruct (category_sets b' a) as [sets|e]; [|reflexivity]. simpl.
  assert (Hor : or_all_hospitals b sets = or_all_hospitals b' sets)
    by (unfold or_all_hospitals; now rewrite Hall).
  rewrite Hor.
  destruct (or_all_hospitals b' sets) as [lists|e]; [|reflexivity]. simpl.
  destruct (intersect_hospitals lists) as [pool|e]; [|reflexivity].
  simpl. unfold rank.
  destruct (filter_each (hospital_filter a) pool) as [filtered|e];
    [|reflexivity].
  simpl. f_equal. f_equal. f_equal.
  apply map_ext. exact Hadd.
Qed.
End CanonicalRequests.

(** ** hospital_search: what a result can be *)

Section SearchResult.
Context `{PyRuntime} `{PyFloat}.

Lemma slice_to_map {A B} (f : A -> B) top_n (l : list A) :
  map f (slice_to top_n l) = slice_to top_n (map f l).
Proof.
  unfold slice_to. destruct top_n as [n|]; [|reflexivity].
  rewrite length_map. destruct (0 <=? n); symmetry; apply firstn_map.
Qed.

Lemma slice_to_length {A} top_n (l : list A) :
  Z.of_nat (length (slice_to top_n l))
  = match top_n with
    | None => Z.of_nat (length l)
    | Some n =>
        if 0 <=? n then Z.min n (Z.of_nat (length l))
        else Z.max 0 (Z.of_nat (length l) + n)
    end.
Proof.
  unfold slice_to. destruct top_n as [n|]; [|reflexivity].
  destruct (Z.leb_spec 0 n); rewrite length_firstn; lia.
Qed.

Lemma slice_to_In {A} top_n (l : list A) x :
  In x (slice_to top_n l) -> In x l.
Proof.
  unfold slice_to. destruct top_n as [n|]; [|trivial].
  destruct (0 <=? n); intros Hin;
    match type of Hin with
    | In _ (firstn ?k _) => rewrite <- (firstn_skipn k l)
    end; apply in_or_app; now left.
Qed.

Lemma ListNoDup_sublist {A} (l1 l2 : list A) :
  sublist l1 l2 -> List.NoDup l2 -> List.NoDup l1.
Proof.
  intros Hsub Hnd. apply NoDup_ListNoDup. apply NoDup_ListNoDup in Hnd.
  now apply (sublist_NoDup l1 l2).
Qed.

Lemma map_filter_sublist {A B} (g : A -> B) (f : A -> bool) (l : list A) :
  sublist (map g (List.filter f l)) (map g l).
Proof.
  induction l as [|x l IH]; simpl; [constructor|].
  destruct (f x); simpl; now constructor.
Qed.

Lemma candidate_pool_NoDup b a pool :
  candidate_pool b a = Returned pool -> List.NoDup (ids pool).
Proof.
  unfold candidate_pool. intros Hpool.
  destruct (category_sets b a) as [sets|e]; [|discriminate]. simpl in Hpool.
  destruct (or_all_hospitals b sets) as [lists|e]; [|discriminate].
  simpl in Hpool.
  destruct (intersect_hospitals_spec lists) as (pool' & Hpool' & Hnd & _).
  rewrite Hpool in Hpool'. now injection Hpool' as <-.
Qed.

(** The number of records the slice [[:top_n]] keeps of [k]. *)
Definition kept (top_n : option Z) (k : Z) : Z :=
  match top_n with
  | None => k
  | Some n => if 0 <=? n then Z.min n k else Z.max 0 (k + n)
  end.

(** X4. Whatever a search returns, no identifier occurs twice in it; every
    record is a hospital of the candidate pool that passes the filter,
    with the ratings found for that very hospital; and the number of records
    is the number of pool hospitals passing the filter, cut to [top_n] when
    that is at least 0, reduced by [-top_n] (not below 0) when it is
    negative, and uncut when it is [None]. *)
Theorem hospital_search_sound (b : Backend) (a : HospitalSearch.args)
    (result : list RatedHospital.t) :
  hospital_search_tool b a = Returned result ->
  exists pool,
    candidate_pool b a = Returned pool
    /\ List.NoDup
         (map (fun r => HospitalResponse.id (RatedHospital.hospital r))
            result)
    /\ (forall r, In r result ->
          In (RatedHospital.hospital r) pool
          /\ hospital_filter a (RatedHospital.hospital r) = Returned true
          /\ r = add_ratings b (RatedHospital.hospital r))
    /\ Z.of_nat (length result)
       = kept (HospitalSearch.top_n a)
           (Z.of_nat (length (List.filter (passes a) pool))).
Proof.
  unfold hospital_search_tool. intros Hsearch.
  destruct (candidate_pool b a) as [pool|e] eqn:Hpool; [|discriminate].
  simpl in Hsearch. apply rank_inv in Hsearch as [_ ->].
  exists pool. split; [reflexivity|].
  pose proof (sorted_reverse_Permutation RatedHospital.averageRating
                (survivors b a pool)) as Hperm.
  split; [|split].
  - rewrite (slice_to_map
               (fun r => HospitalResponse.id (RatedHospital.hospital r))).
    eapply ListNoDup_sublist; [apply slice_to_sublist|].
    eapply Permutation_NoDup;
      [apply Permutation_sym, Permutation_map, Hperm|].
    unfold survivors. rewrite map_map.
    rewrite (map_ext _ HospitalResponse.id)
      by (intros h; now rewrite add_ratings_hospital).
    eapply ListNoDup_sublist; [apply map_filter_sublist|].
    now apply candidate_pool_NoDup with b a.
  - intros r Hr.
    assert (Hin : In r (survivors b a pool)).
    { apply (Permutation_in _ Hperm). revert Hr. apply slice_to_In. }
    unfold survivors in Hin. apply in_map_iff in Hin as (h & <- & Hh).
    apply filter_In in Hh as [Hh Hpass].
    rewrite add_ratings_hospital. apply passes_true in Hpass. auto.
  - rewrite slice_to_length. unfold kept.
    rewrite (Permutation_length Hperm). unfold survivors.
    now rewrite length_map.
Qed.

(** No filter besides the categories is in force: strings are absent or
    empty, [zone_id] is absent or 0, and the geographic arguments are not
    all three there. *)
Definition no_scalar_filter (a : HospitalSearch.args) : Prop :=
  HospitalSearch.icu_min a = None
  /\ truthy_str (HospitalSearch.city a) = false
  /\ truthy_str (HospitalSearch.thana a) = false
  /\ truthy_str (HospitalSearch.po a) = false
  /\ truthy_int (HospitalSearch.zone_id a) = false
  /\ truthy_str (HospitalSearch.hospital_name a) = false
  /\ (HospitalSearch.latitude a = None
      \/ HospitalSearch.longitude a = None
      \/ HospitalSearch.radius_km a = None).

(** X5. Without scalar filter every hospital passes [hospital_filter], in
    particular when only one or two of latitude, longitude and radius_km
    are given, so the search ranks the whole candidate pool. *)
Theorem hospital_search_unfiltered (b : Backend) (a : HospitalSearch.args) :
  no_scalar_filter a ->
  (forall h, hospital_filter a h = Returned true)
  /\ forall pool,
       candidate_pool b a = Returned pool ->
       exists ranked,
         hospital_search_tool b a
         = Returned (slice_to (HospitalSearch.top_n a) ranked)
         /\ Permutation ranked (map (add_ratings b) pool).
Proof.
  intros (Hicu & Hcity & Hthana & Hpo & Hzone & Hname & Hgeo).
  assert (Hpass : forall h, hospital_filter a h = Returned true).
  { intros h. unfold hospital_filter, fuzzy_rejects, geo_rejects.
    rewrite Hicu, Hcity, Hthana, Hpo, Hzone, Hname. simpl.
    destruct Hgeo as [-> | [-> | ->]];
      repeat match goal with
             | |- context [match ?o with Some _ => _ | None => _ end] =>
                 destruct o
             end; reflexivity. }
  split; [exact Hpass|]. intros pool Hpool.
  exists (sorted_reverse RatedHospital.averageRating
            (map (add_ratings b) pool)).
  split; [|apply sorted_reverse_Permutation].
  unfold hospital_search_tool. rewrite Hpool. simpl.
  rewrite rank_Returned by (intros h _; eauto). unfold survivors.
  replace (List.filter (passes a) pool) with pool; [reflexivity|].
  clear Hpool. induction pool as [|h pool IH]; simpl; [reflexivity|].
  now rewrite (proj2 (passes_true a h) (Hpass h)), <- IH.
Qed.

Lemma slice_to_nil {A} top_n : slice_to top_n (@nil A) = [].
Proof.
  unfold slice_to. destruct top_n as [n|]; [|reflexivity].
  destruct (0 <=? n); apply firstn_nil.
Qed.

(** X6. When category filters were fetched and every set fetched is empty
    (the requests succeeded and listed no hospital), the search returns the
    empty list: the all-hospitals list is not consulted. *)
Theorem empty_category_no_fallback (b : Backend) (a : HospitalSearch.args)
    (sets : list (list HospitalResponse.t)) :
  category_sets b a = Returned sets ->
  sets <> [] ->
  (forall s, In s sets -> s = []) ->
  candidate_pool b a = Returned []
  /\ hospital_search_tool b a = Returned [].
Proof.
  intros Hsets Hne Hempty.
  assert (Hpool : candidate_pool b a = Returned []).
  { unfold candidate_pool. rewrite Hsets. simpl.
    rewrite or_all_hospitals_nonempty by exact Hne. simpl.
    unfold intersect_hospitals.
    assert (Hfilter : List.filter nonempty sets = []).
    { clear Hsets Hne. induction sets as [|s sets IH]; [reflexivity|].
      simpl. rewrite (Hempty s) by now left. simpl. apply IH.
      intros s' Hs'. apply Hempty. now right. }
    rewrite Hfilter. simpl. now destruct (negb (nonempty sets)). }
  split; [exact Hpool|].
  unfold hospital_search_tool. rewrite Hpool. simpl. unfold rank. simpl.
  now rewrite slice_to_nil.
Qed.
End SearchResult.

(** ** hospital_search: exceptions and outages *)

Section SearchFailures.
Context `{PyRuntime} `{PyFloat}.

(** A request made for one of the values raises. *)
Definition request_raises {A}
    (get : string -> outcome (Response.t (list A)))
    (values : option (list string)) : Prop :=
  exists v e, In v (default [] values) /\ get v = Raised e.

Lemma fetch_each_raises {A} (get : string -> outcome (Response.t (list A)))
    (extract : list A -> list HospitalResponse.t) values :
  (exists v e, In v values /\ get v = Raised e) ->
  exists e, fetch_each get extract values = Raised e.
Proof.
  induction values as [|v0 values IH]; intros (v & e & Hv & Hraise).
  - destruct Hv.
  - simpl. destruct (get v0) as [resp|e0] eqn:Hget; [|now exists e0].
    assert (Hrest : exists e', fetch_each get extract values = Raised e').
    { apply IH. destruct Hv as [<-|Hv]; [congruence|]. now exists v, e. }
    destruct Hrest as [e' He']. simpl.
    destruct (success resp); [|now exists e'].
    destruct (Response.json resp) as [body|e1]; [|now exists e1].
    simpl. rewrite He'. now exists e'.
Qed.

Lemma fetch_category_raises {A}
    (get : string -> outcome (Response.t (list A)))
    (extract : list A -> list HospitalResponse.t) values :
  request_raises get values ->
  exists e, fetch_category get extract values = Raised e.
Proof.
  intros (v & e & Hv & Hraise). unfold fetch_category.
  destruct values as [[|v0 values]|]; try destruct Hv.
  - cbn [truthy_list].
    destruct (fetch_each_raises get extract (v0 :: values)) as [e' He'].
    { exists v, e. split; [|exact Hraise]. now left. }
    change (default [] (Some (v0 :: values))) with (v0 :: values).
    rewrite He'. now exists e'.
  - cbn [truthy_list].
    destruct (fetch_each_raises get extract (v0 :: values)) as [e' He'].
    { exists v, e. split; [|exact Hraise]. now right. }
    change (default [] (Some (v0 :: values))) with (v0 :: values).
    rewrite He'. now exists e'.
Qed.

(** X7. An exception of a request for a category value (a network failure)
    is not caught: if any such request raises, the search raises, unlike
    for the feedback requests. *)
Theorem category_exception_propagates (b : Backend)
    (a : HospitalSearch.args) test_types cost_ranges hospital_types :
  normalize TEST_TYPE (HospitalSearch.test_types a) = Returned test_types ->
  normalize COST_RANGE (HospitalSearch.cost_ranges a)
  = Returned cost_ranges ->
  normalize HOSPITAL_TYPE (HospitalSearch.hospital_types a)
  = Returned hospital_types ->
  request_raises (test_v1_type b) test_types
  \/ request_raises (hospital_v1_cost_range b) cost_ranges
  \/ request_raises (hospital_v1_type b) hospital_types ->
  exists e, hospital_search_tool b a = Raised e.
Proof.
  intros Htt Hcr Hht Hraise.
  assert (Hsets : exists e, category_sets b a = Raised e).
  { unfold category_sets. rewrite Htt, Hcr, Hht. simpl.
    destruct (fetch_category (test_v1_type b) hospitals_of_tests test_types)
      as [by_test|e] eqn:Htest; [|now exists e]. simpl.
    destruct (fetch_category (hospital_v1_cost_range b) (fun l => l)
                cost_ranges) as [by_cost|e] eqn:Hcost; [|now exists e].
    simpl.
    destruct (fetch_category (hospital_v1_type b) (fun l => l)
                hospital_types) as [by_type|e] eqn:Htype; [|now exists e].
    exfalso. destruct Hraise as [Hr|[Hr|Hr]].
    - destruct (fetch_category_raises _ hospitals_of_tests _ Hr) as [e He].
      congruence.
    - destruct (fetch_category_raises _ (fun l => l) _ Hr) as [e He].
      congruence.
    - destruct (fetch_category_raises _ (fun l => l) _ Hr) as [e He].
      congruence. }
  destruct Hsets as [e He]. exists e.
  unfold hospital_search_tool, candidate_pool. now rewrite He.
Qed.

(** X8. When no category set was built the search depends on the
    all-hospitals request: a non-success answer gives the empty list, not an
    error; an exception of the request, or a successful answer whose body
    cannot be read, makes the search raise that exception. *)
Theorem all_hospitals_outage (b : Backend) (a : HospitalSearch.args) :
  category_sets b a = Returned [] ->
  (forall resp,
     hospital_v1_all b = Returned resp -> success resp = false ->
     hospital_search_tool b a = Returned [])
  /\ (forall e,
        hospital_v1_all b = Raised e -> hospital_search_tool b a = Raised e)
  /\ (forall resp e,
        hospital_v1_all b = Returned resp -> success resp = true ->
        Response.json resp = Raised e ->
        hospital_search_tool b a = Raised e).
Proof.
  intros Hsets. unfold hospital_search_tool, candidate_pool.
  rewrite Hsets. simpl. unfold or_all_hospitals. simpl.
  split; [|split].
  - intros resp -> Hno. simpl. rewrite Hno. simpl. unfold rank. simpl.
    now rewrite slice_to_nil.
  - now intros e ->.
  - intros resp e -> Hok Hjson. simpl. now rewrite Hok, Hjson.
Qed.
End SearchFailures.

(** ** Averages and distances *)

Section Numbers.
Context `{PyRuntime} `{PyFloat}.

Lemma sum_bounds lo hi (ratings : list Z) :
  Forall (fun r => lo <= r <= hi) ratings ->
  lo * Z.of_nat (length ratings) <= fold_right Z.add 0 ratings
  <= hi * Z.of_nat (length ratings).
Proof.
  induction 1 as [|r ratings Hr _ IH]; simpl fold_right; simpl length; lia.
Qed.

(** X9. The average rating of a non-empty list of ratings lies between the
    least and the greatest of them: ratings between [lo] and [hi] average
    between [lo] and [hi]; the average of no rating is 0. *)
Theorem average_bounds (lo hi : Z) (ratings : list Z) :
  ratings <> [] ->
  Forall (fun r => lo <= r <= hi) ratings ->
  (inject_Z lo <= average ratings)%Q
  /\ (average ratings <= inject_Z hi)%Q
  /\ average [] = 0%Q.
Proof.
  intros Hne Hall. pose proof (sum_bounds lo hi ratings Hall) as [Hlo Hhi].
  destruct ratings as [|r ratings]; [contradiction|].
  unfold average. cbn [nonempty].
  assert (Hpos : (0 < inject_Z (Z.of_nat (length (r :: ratings))))%Q).
  { rewrite <- (Zlt_Qlt 0). simpl length. lia. }
  split; [|split; [|reflexivity]].
  - apply Qle_shift_div_l; [exact Hpos|].
    rewrite <- inject_Z_mult, <- Zle_Qle. exact Hlo.
  - apply Qle_shift_div_r; [exact Hpos|].
    rewrite <- inject_Z_mult, <- Zle_Qle. exact Hhi.
Qed.

Lemma atan2_quadrant y x :
  (0 <= y)%R -> (0 <= x)%R -> (0 <= atan2 y x <= PI / 2)%R.
Proof.
  intros Hy Hx. pose proof PI_RGT_0 as Hpi. unfold atan2.
  destruct (Rlt_dec 0 x) as [Hpos|Hnpos].
  - pose proof (atan_bound (y / x)) as [_ Hup].
    split; [|lra].
    destruct (Req_dec y 0) as [->|Hy0].
    + replace (0 / x)%R with 0%R by (field; lra). rewrite atan_0. lra.
    + rewrite <- atan_0. left. apply atan_increasing.
      apply Rdiv_lt_0_compat; lra.
  - destruct (Rlt_dec x 0); [lra|].
    destruct (Rlt_dec 0 y); [lra|].
    destruct (Rlt_dec y 0); lra.
Qed.

Lemma haversine_km_sym lat lon lat2 lon2 :
  haversine_km lat lon lat2 lon2 = haversine_km lat2 lon2 lat lon.
Proof.
  unfold haversine_km, radians.
  replace ((lat - lat2) * PI / 180 / 2)%R
    with (- ((lat2 - lat) * PI / 180 / 2))%R by field.
  replace ((lon - lon2) * PI / 180 / 2)%R
    with (- ((lon2 - lon) * PI / 180 / 2))%R by field.
  rewrite !sin_neg.
  replace ((- sin ((lat2 - lat) * PI / 180 / 2)) ^ 2
           + cos (lat2 * PI / 180) * cos (lat * PI / 180)
             * (- sin ((lon2 - lon) * PI / 180 / 2)) ^ 2)%R
    with (sin ((lat2 - lat) * PI / 180 / 2) ^ 2
          + cos (lat * PI / 180) * cos (lat2 * PI / 180)
            * sin ((lon2 - lon) * PI / 180 / 2) ^ 2)%R by ring.
  reflexivity.
Qed.

Lemma haversine_km_range lat lon lat2 lon2 :
  (0 <= haversine_km lat lon lat2 lon2 <= 6371 * PI)%R.
Proof.
  unfold haversine_km.
  match goal with
  | |- context [atan2 ?y ?x] =>
      pose proof (atan2_quadrant y x (sqrt_pos _) (sqrt_pos _)) as [Hlo Hhi]
  end.
  cbv zeta. lra.
Qed.

(** X10. The distance the geographic filter computes is symmetric in the
    two points, is 0 from a point to itself, and lies between 0 and
    6371 * pi kilometres. *)
Theorem haversine_km_metric (lat lon lat2 lon2 : R) :
  haversine_km lat lon lat2 lon2 = haversine_km lat2 lon2 lat lon
  /\ haversine_km lat lon lat lon = 0%R
  /\ (0 <= haversine_km lat lon lat2 lon2 <= 6371 * PI)%R.
Proof.
  split; [apply haversine_km_sym|].
  split; [apply haversine_km_same_point|apply haversine_km_range].
Qed.

(** X11. When latitude, longitude and radius_km are all given: a hospital
    without latitude or longitude is excluded whatever the radius, and no
    distance is computed for it; [hospital_filter] raises nothing but a
    [ValueError], and only for a hospital with both coordinates for which
    the distance computation raises it.  In exact arithmetic, where the
    distance computation always returns, a negative radius excludes every
    hospital, also one at the very point, and a radius of at least
    6371 * pi kilometres lets the geographic check pass every hospital
    that has both coordinates. *)
Theorem geo_radius_extremes (a : HospitalSearch.args)
    (latitude longitude radius_km : Q) :
  HospitalSearch.latitude a = Some latitude ->
  HospitalSearch.longitude a = Some longitude ->
  HospitalSearch.radius_km a = Some radius_km ->
  (forall h,
     HospitalResponse.latitude h = None
     \/ HospitalResponse.longitude h = None ->
     hospital_filter a h = Returned false)
  /\ (forall h e,
        hospital_filter a h = Raised e ->
        e = ValueError
        /\ exists lat2 lon2,
             HospitalResponse.latitude h = Some lat2
             /\ HospitalResponse.longitude h = Some lon2
             /\ dist (float_of latitude) (float_of longitude)
                  (float_of lat2) (float_of lon2) = Raised ValueError)
  /\ ((radius_km < 0)%Q ->
      forall h, @hospital_filter _ exact a h = Returned false)
  /\ ((6371 * PI <= Q2R radius_km)%R ->
      forall h lat2 lon2,
        HospitalResponse.latitude h = Some lat2 ->
        HospitalResponse.longitude h = Some lon2 ->
        @geo_rejects exact a h = Returned false).
Proof.
  intros Hlat Hlon Hr. split; [|split; [|split]].
  - intros h Hmissing. rewrite hospital_filter_scalar.
    destruct (scalar_rejects a h); [reflexivity|].
    unfold geo_rejects. rewrite Hlat, Hlon, Hr.
    destruct Hmissing as [-> | ->]; [reflexivity|].
    now destruct (HospitalResponse.latitude h).
  - intros h e Hraise.
    apply hospital_filter_Raised in Hraise as [_ Hgeo].
    pose proof (geo_raises_ValueError a h e Hgeo) as ->.
    split; [reflexivity|].
    destruct Hgeo as (lat & lon & r & lat2 & lon2
                      & Hlat' & Hlon' & Hr' & Hlat2 & Hlon2 & Hd).
    rewrite Hlat in Hlat'. rewrite Hlon in Hlon'.
    injection Hlat' as <-. injection Hlon' as <-.
    now exists lat2, lon2.
  - intros Hneg h. rewrite (@hospital_filter_scalar _ exact).
    destruct (scalar_rejects a h); [reflexivity|].
    unfold geo_rejects. rewrite Hlat, Hlon, Hr.
    destruct (HospitalResponse.latitude h) as [lat2|]; [|reflexivity].
    destruct (HospitalResponse.longitude h) as [lon2|]; [|reflexivity].
    cbn [float float_of exact]. rewrite dist_exact.
    cbn [mbind outcome_bind fgt float_of exact].
    destruct (Rgt_dec _ _) as [_|Hle]; [reflexivity|]. exfalso.
    apply Hle. apply Qlt_Rlt in Hneg.
    pose proof (haversine_km_range (Q2R latitude) (Q2R longitude)
                  (Q2R lat2) (Q2R lon2)) as [Hpos _].
    unfold Q2R at 2 in Hneg. simpl in Hneg. lra.
  - intros Hbig h lat2 lon2 Hlat2 Hlon2.
    unfold geo_rejects. rewrite Hlat, Hlon, Hr, Hlat2, Hlon2.
    cbn [float float_of exact]. rewrite dist_exact.
    cbn [mbind outcome_bind fgt float_of exact].
    destruct (Rgt_dec _ _) as [Hgt|_]; [|reflexivity]. exfalso.
    pose proof (haversine_km_range (Q2R latitude) (Q2R longitude)
                  (Q2R lat2) (Q2R lon2)) as [_ Hup].
    lra.
Qed.
End Numbers.

(** ** The lookup tools and doctor_search: outputs *)

Section ToolOutputs.
Context `{PyRuntime} `{PyFloat}.

Lemma is_error_app (x : string) : is_error ("Error: " +:+ x).
Proof. unfold is_error. simpl. now destruct x. Qed.

Ltac error_string := first [reflexivity | apply is_error_app].

Lemma next_named_found m (hospitals : list HospitalResponse.t) :
  In m (map HospitalResponse.name hospitals) ->
  exists h, next_named m hospitals = Some h
            /\ In h hospitals /\ HospitalResponse.name h = m.
Proof.
  intros Hin. unfold next_named.
  destruct (List.find _ hospitals) as [h|] eqn:Hfind.
  - apply find_some in Hfind as [Hh Hname].
    apply String.eqb_eq in Hname. now exists h.
  - apply in_map_iff in Hin as (h & Hname & Hh).
    pose proof (find_none _ _ Hfind h Hh) as Hno. simpl in Hno.
    rewrite Hname, String.eqb_refl in Hno. discriminate.
Qed.

(** X12. A lookup by name whose best match among the fetched hospital names
    scores at least 80 is the lookup by the identifier of the first hospital
    bearing the best-scoring name; such a hospital always exists, so the
    second not-found answer of the tools is never given. *)
Theorem lookup_by_name_resolves (b : Backend) (hospitalName : string)
    resp (hospitals : list HospitalResponse.t) (match_ : string) (score : Q) :
  hospital_v1_all b = Returned resp ->
  Response.json resp = Returned hospitals ->
  extractOne hospitalName (map HospitalResponse.name hospitals)
  = Some (match_, score) ->
  (80 <= score)%Q ->
  exists h,
    next_named match_ hospitals = Some h
    /\ In h hospitals
    /\ score = fuzz_ratio hospitalName (HospitalResponse.name h)
    /\ (forall h', In h' hospitals ->
          (fuzz_ratio hospitalName (HospitalResponse.name h') <= score)%Q)
    /\ get_tests_by_hospital_tool b None (Some hospitalName)
       = get_tests_by_hospital_tool b (Some (HospitalResponse.id h)) None
    /\ (success resp = true ->
        get_hospital_feedbacks_tool b None (Some hospitalName)
        = get_hospital_feedbacks_tool b (Some (HospitalResponse.id h)) None).
Proof.
  intros Hresp Hjson Hbest Hscore.
  pose proof (extractOne_spec hospitalName
                (map HospitalResponse.name hospitals)) as Hspec.
  rewrite Hbest in Hspec. destruct Hspec as (Hin & Hratio & Hmax).
  destruct (next_named_found match_ hospitals Hin) as (h & Hnext & Hh & Hname).
  assert (Hnot : Qlt_bool score threshold = false)
    by now apply Qlt_bool_false.
  exists h. split; [exact Hnext|]. split; [exact Hh|].
  split; [now rewrite Hname|]. split; [|split].
  - intros h' Hh'. apply Hmax. now apply in_map.
  - unfold get_tests_by_hospital_tool, best_match.
    rewrite Hresp. simpl. rewrite Hjson. simpl. rewrite Hbest. simpl.
    now rewrite Hnot, Hnext.
  - intros Hok. unfold get_hospital_feedbacks_tool, best_match.
    rewrite Hresp. simpl. rewrite Hok, Hjson. simpl. rewrite Hbest. simpl.
    now rewrite Hnot, Hnext.
Qed.

(** X13. When the hospital list fetched for a lookup by name is empty,
    [get_tests_by_hospital_name_or_id] raises a [TypeError] (it subscripts
    the [None] that [extractOne] returns), while [get_hospital_feedbacks]
    catches it and returns an error string. *)
Theorem lookup_by_name_empty_list (b : Backend) (hospitalName : string) resp :
  hospital_v1_all b = Returned resp ->
  Response.json resp = Returned [] ->
  get_tests_by_hospital_tool b None (Some hospitalName) = Raised TypeError
  /\ is_error (get_hospital_feedbacks_tool b None (Some hospitalName)).
Proof.
  intros Hresp Hjson. split.
  - unfold get_tests_by_hospital_tool. rewrite Hresp. simpl.
    now rewrite Hjson.
  - unfold get_hospital_feedbacks_tool. rewrite Hresp. simpl.
    destruct (success resp); [|reflexivity]. simpl. rewrite Hjson.
    apply is_error_app.
Qed.

(** X14. [get_hospital_feedbacks] never raises: it returns the text of a
    successful feedback response or a string that starts with "Error: ".
    [get_tests_by_hospital_name_or_id], when it returns, returns the text
    of a successful tests response or a string that starts with "Error: ". *)
Theorem lookup_outputs (b : Backend) (hospitalId : option Z)
    (hospitalName : option string) :
  (is_error (get_hospital_feedbacks_tool b hospitalId hospitalName)
   \/ exists i resp,
        feedback_v1_hospital b i = Returned resp
        /\ success resp = true
        /\ get_hospital_feedbacks_tool b hospitalId hospitalName
           = Response.text resp)
  /\ forall s,
       get_tests_by_hospital_tool b hospitalId hospitalName = Returned s ->
       is_error s
       \/ exists i resp,
            test_v1_hospital b i = Returned resp
            /\ success resp = true
            /\ s = Response.text resp.
Proof.
  assert (Hfetch : forall i,
    let s :=
      try_except
        (feedback_resp ← feedback_v1_hospital b i;
         if negb (success feedback_resp) then
           Returned ("Error: Failed to fetch feedbacks. Status: "
                     +:+ pretty (Response.status_code feedback_resp))
         else Returned (Response.text feedback_resp))
        (fun e => "Error: " +:+ exn_str e) in
    is_error s
    \/ exists i resp,
         feedback_v1_hospital b i = Returned resp
         /\ success resp = true /\ s = Response.text resp).
  { intros i. simpl.
    destruct (feedback_v1_hospital b i) as [resp|e] eqn:Hresp; simpl;
      [|left; error_string].
    destruct (success resp) eqn:Hok; simpl; [|left; error_string].
    right. now exists i, resp. }
  assert (Hfinish : forall i s,
    (res ← test_v1_hospital b i;
     if negb (success res) then
       Returned ("Error: " +:+ pretty (Response.status_code res))
     else Returned (Response.text res)) = Returned s ->
    is_error s
    \/ exists i resp,
         test_v1_hospital b i = Returned resp
         /\ success resp = true /\ s = Response.text resp).
  { intros i s Hs.
    destruct (test_v1_hospital b i) as [res|e] eqn:Hres; [|discriminate].
    simpl in Hs. destruct (success res) eqn:Hok; simpl in Hs;
      injection Hs as <-; [|left; error_string].
    right. now exists i, res. }
  split.
  - unfold get_hospital_feedbacks_tool.
    destruct hospitalId as [i|]; [apply Hfetch|].
    destruct hospitalName as [name|]; [|left; error_string].
    destruct (hospital_v1_all b) as [resp|e]; simpl; [|left; error_string].
    destruct (success resp); simpl; [|left; error_string].
    destruct (Response.json resp) as [hospitals|e]; simpl; [|left; error_string].
    destruct (best_match name hospitals) as [m|e]; simpl; [|left; error_string].
    destruct (Qlt_bool (snd m) threshold); simpl; [left; error_string|].
    destruct (next_named (fst m) hospitals) as [h|]; simpl; [|left; error_string].
    apply Hfetch.
  - intros s. unfold get_tests_by_hospital_tool.
    destruct hospitalId as [i|]; [apply Hfinish|].
    destruct hospitalName as [name|];
      [|intros [= <-]; left; error_string].
    destruct (hospital_v1_all b) as [resp|e]; simpl; [|discriminate].
    destruct (Response.json resp) as [hospitals|e]; simpl; [|discriminate].
    destruct (best_match name hospitals) as [m|e]; simpl; [|discriminate].
    destruct (Qlt_bool (snd m) threshold); simpl;
      [intros [= <-]; left; error_string|].
    destruct (next_named (fst m) hospitals) as [h|]; simpl;
      [apply Hfinish|intros [= <-]; left; error_string].
Qed.

(** X15. [doctor_search] never raises: it returns a string that starts
    with "Error: ", or doctors of the successfully fetched list, in the
    order of that list, each passing [doctor_filter], and no more than
    [top_n] of them when [top_n] is at least 0. *)
Theorem doctor_search_outputs (b : Backend) (a : DoctorSearch.args) :
  match doctor_search_tool b a with
  | Text s => is_error s
  | Dumps limited_doctors =>
      exists resp doctors,
        doctor_v1_all b = Returned resp
        /\ success resp = true
        /\ Response.json resp = Returned doctors
        /\ sublist limited_doctors doctors
        /\ Forall (fun d => doctor_filter a d = true) limited_doctors
        /\ forall n, DoctorSearch.top_n a = Some n -> 0 <= n ->
             Z.of_nat (length limited_doctors) <= n
  end.
Proof.
  unfold doctor_search_tool.
  destruct (doctor_v1_all b) as [resp|e] eqn:Hresp; simpl;
    [|error_string].
  destruct (success resp) eqn:Hok; simpl; [|error_string].
  destruct (Response.json resp) as [doctors|e] eqn:Hjson; simpl;
    [|error_string].
  exists resp, doctors. split; [reflexivity|]. split; [exact Hok|].
  split; [exact Hjson|]. split; [|split].
  - transitivity (List.filter (doctor_filter a) doctors);
      [apply slice_to_sublist|apply filter_sublist].
  - apply List.Forall_forall. intros d Hd.
    apply slice_to_In, filter_In in Hd. now destruct Hd.
  - intros n Hn Hpos. rewrite slice_to_length, Hn.
    destruct (Z.leb_spec 0 n); lia.
Qed.

(** X16. A city filter treats a record without city differently in the two
    searches: a hospital whose city is unknown passes the city filter of
    [hospital_search], a doctor whose city is unknown is rejected by the
    city filter of [doctor_search]. *)
Theorem missing_city_asymmetry (city : string) (top_n top_n' : option Z) :
  city <> "" ->
  (forall h,
     truthy_str
       (loc_get LocationResponse.city (HospitalResponse.locationResponse h))
     = false ->
     hospital_filter
       (HospitalSearch.mk None None None None (Some city) None None None
          None None None None top_n) h = Returned true)
  /\ (forall d,
        truthy_str
          (loc_get LocationResponse.city (DoctorResponse.locationResponse d))
        = false ->
        doctor_filter
          (DoctorSearch.mk None None None (Some city) None top_n') d
        = false).
Proof.
  intros Hcity. apply truthy_str_Some in Hcity. split.
  - intros h Hmissing. unfold hospital_filter, fuzzy_rejects, geo_rejects.
    cbn [HospitalSearch.icu_min HospitalSearch.city HospitalSearch.thana
         HospitalSearch.po HospitalSearch.zone_id
         HospitalSearch.hospital_name HospitalSearch.latitude
         HospitalSearch.longitude HospitalSearch.radius_km].
    rewrite Hmissing, Hcity. reflexivity.
  - intros d Hmissing. unfold doctor_filter, required_rejects.
    cbn [DoctorSearch.specialties DoctorSearch.department
         DoctorSearch.doctor_name DoctorSearch.city
         DoctorSearch.hospital_name].
    rewrite Hmissing, Hcity. reflexivity.
Qed.
End ToolOutputs.

(** * Further properties of the chat endpoint *)

Section Sessions.
Context `{PyRuntime}.
Variable invoke : Tool.t -> ToolCall.t -> outcome string.
Variable SYSTEM_PROMPT : string.

(** The messages of a run, however it ended. *)
Definition run_messages (r : run) : list Message :=
  match r with
  | Settled m | Failed _ m | Waiting m => m
  end.

(** A reply of the model or the result of a tool. *)
Definition is_reply_or_result (m : Message) : bool :=
  match m with
  | AI _ | ToolMessage _ _ => true
  | _ => false
  end.

(** The identifier of the call a tool message answers. *)
Definition answered_call (m : Message) : option string :=
  match m with
  | ToolMessage _ tool_call_id => Some tool_call_id
  | _ => None
  end.

Lemma execute_appends tool_calls : forall messages,
  exists added,
    fst (execute invoke tool_calls messages) = messages ++ added
    /\ Forall (fun m => is_tool_message m = true) added
    /\ sublist (omap answered_call added) (map ToolCall.id tool_calls).
Proof.
  induction tool_calls as [|c tool_calls IH]; intros messages; simpl.
  - exists []. rewrite app_nil_r. repeat split; constructor.
  - destruct (tool_dict !! lower (ToolCall.name c)) as [t|].
    + destruct (invoke t c) as [output|e].
      * destruct (IH (messages ++ [ToolMessage output (ToolCall.id c)]))
          as (added & Hadded & Htool & Hsub).
        exists (ToolMessage output (ToolCall.id c) :: added).
        split; [now rewrite Hadded, <- app_assoc|].
        split; [now constructor|]. simpl. now constructor.
      * exists []. simpl. rewrite app_nil_r.
        repeat split; [constructor|apply sublist_nil_l].
    + destruct (IH messages) as (added & Hadded & Htool & Hsub).
      exists added. repeat split; trivial. now constructor.
Qed.

(** X17. Executing the calls of a reply only appends to the history, and
    what it appends are tool messages answering calls of the reply, in the
    order of the calls and at most one per call; this holds also when a tool
    raises or a name is unknown. *)
Theorem execute_only_appends (tool_calls : list ToolCall.t)
    (messages : list Message) :
  exists added,
    fst (execute invoke tool_calls messages) = messages ++ added
    /\ Forall (fun m => is_tool_message m = true) added
    /\ sublist (omap answered_call added) (map ToolCall.id tool_calls)
    /\ (length added <= length tool_calls)%nat.
Proof.
  destruct (execute_appends tool_calls messages)
    as (added & Hadded & Htool & Hsub).
  exists added. repeat split; trivial.
  apply sublist_length in Hsub. rewrite length_map in Hsub.
  assert (Hlen : length (omap answered_call added) = length added).
  { clear Hadded Hsub. induction Htool as [|m added Hm _ IH]; [reflexivity|].
    destruct m; try discriminate. simpl. f_equal. exact IH. }
  lia.
Qed.

Lemma tool_message_is_result added :
  Forall (fun m => is_tool_message m = true) added ->
  Forall (fun m => is_reply_or_result m = true) added.
Proof.
  apply List.Forall_impl. intros m Hm. now destruct m.
Qed.

Lemma tool_call_loop_appends replies : forall messages tool_calls,
  exists added used,
    run_messages (fst (tool_call_loop invoke replies messages tool_calls))
    = messages ++ added
    /\ Forall (fun m => is_reply_or_result m = true) added
    /\ replies
       = used ++ snd (tool_call_loop invoke replies messages tool_calls).
Proof.
  induction replies as [|ai_msg replies IH]; intros messages tool_calls.
  - simpl. destruct (nonempty tool_calls); simpl.
    + destruct (execute_appends tool_calls messages)
        as (added & Hadded & Htool & _).
      destruct (execute invoke tool_calls messages) as [m [e|]];
        simpl in *; exists added, [];
        (split; [exact Hadded|]);
        (split; [now apply tool_message_is_result|reflexivity]).
    + exists [], []. rewrite app_nil_r. repeat split. constructor.
  - simpl. destruct (nonempty tool_calls); simpl.
    + destruct (execute_appends tool_calls messages)
        as (added & Hadded & Htool & _).
      destruct (execute invoke tool_calls messages) as [m [e|]];
        simpl in Hadded; subst m.
      * exists added, []. simpl. split; [reflexivity|].
        split; [now apply tool_message_is_result|reflexivity].
      * destruct (IH ((messages ++ added) ++ [AI ai_msg])
                    (AIMessage.tool_calls ai_msg))
          as (added' & used & Hrun & Hres & Hused).
        exists (added ++ AI ai_msg :: added'), (ai_msg :: used).
        split; [rewrite Hrun; now rewrite <- !app_assoc|].
        split; [|simpl; now rewrite <- Hused].
        apply Forall_app. split; [now apply tool_message_is_result|].
        now constructor.
    + exists [], []. rewrite app_nil_r. repeat split. constructor.
Qed.

Lemma tool_call_loop_settled replies : forall messages ai_msg settled rest,
  tool_call_loop invoke replies (messages ++ [AI ai_msg])
    (AIMessage.tool_calls ai_msg) = (Settled settled, rest) ->
  exists before final,
    settled = before ++ [AI final] /\ AIMessage.tool_calls final = [].
Proof.
  induction replies as [|reply replies IH];
    intros messages ai_msg settled rest; simpl.
  - destruct (nonempty (AIMessage.tool_calls ai_msg)) eqn:Hcalls; simpl.
    + now destruct (execute invoke _ _) as [m [e|]].
    + intros [= <- <-]. exists messages, ai_msg.
      split; [reflexivity|now apply nonempty_false].
  - destruct (nonempty (AIMessage.tool_calls ai_msg)) eqn:Hcalls; simpl.
    + destruct (execute invoke _ _) as [m [e|]]; [discriminate|].
      apply IH.
    + intros [= <- <-]. exists messages, ai_msg.
      split; [reflexivity|now apply nonempty_false].
Qed.

(** The history a request starts from. *)
Definition history_of (user_messages : gmap string (list Message))
    (userId : string) : list Message :=
  default [SystemMessage SYSTEM_PROMPT] (user_messages !! userId).

Lemma chat_endpoint_run replies now user_messages request :
  let userId := ChatRequest.userId request in
  let result :=
    chat_endpoint invoke SYSTEM_PROMPT replies now user_messages request in
  exists added used,
    let messages :=
      history_of user_messages userId
      ++ HumanMessage (ChatRequest.message request) :: added in
    result.1.1 = <[userId := messages]> user_messages
    /\ Forall (fun m => is_reply_or_result m = true) added
    /\ replies = used ++ result.2
    /\ match result.1.2 with
       | inl response =>
           response
           = MessageResponse.mk (last_content messages)
               (userId +:+ "_assistant_" +:+ pretty (length messages))
               "assistant" now
           /\ exists before final,
                messages = before ++ [AI final]
                /\ AIMessage.tool_calls final = []
       | inr r => run_messages r = messages /\ forall m, r <> Settled m
       end.
Proof.
  intros userId result. subst result. unfold chat_endpoint.
  fold userId. fold (history_of user_messages userId).
  destruct replies as [|ai_msg replies].
  - exists [], []. simpl. split; [reflexivity|]. split; [constructor|].
    split; [reflexivity|]. split; [reflexivity|discriminate].
  - set (messages :=
           history_of user_messages userId
           ++ [HumanMessage (ChatRequest.message request)]).
    destruct (tool_call_loop_appends replies (messages ++ [AI ai_msg])
                (AIMessage.tool_calls ai_msg))
      as (added & used & Hrun & Hres & Hused).
    destruct (tool_call_loop invoke replies (messages ++ [AI ai_msg])
                (AIMessage.tool_calls ai_msg)) as [r rest] eqn:Hloop.
    simpl in Hrun, Hused.
    assert (Hshape : run_messages r
              = history_of user_messages userId
                ++ HumanMessage (ChatRequest.message request)
                   :: AI ai_msg :: added).
    { rewrite Hrun. unfold messages. now rewrite <- !app_assoc. }
    exists (AI ai_msg :: added), (ai_msg :: used).
    assert (Hall : Forall (fun m => is_reply_or_result m = true)
                     (AI ai_msg :: added)) by now constructor.
    destruct r as [m|e m|m]; simpl in Hshape; subst m; simpl.
    + repeat split; trivial; [now rewrite <- Hused|].
      destruct (tool_call_loop_settled _ _ _ _ _ Hloop)
        as (before & final & Hbefore & Hfinal).
      exists before, final. split; [exact Hbefore|exact Hfinal].
    + repeat split; trivial; [now rewrite <- Hused|discriminate].
    + repeat split; trivial; [now rewrite <- Hused|discriminate].
Qed.

(** X18. A request touches the session of its user only, and only by
    appending: the histories of all other users are as before; the history
    of the user is the one it had (the system prompt alone for a new user)
    followed by the user message and then replies of the model and tool
    messages; and the replies of the model left over are a tail of those
    available.  This holds however the request ends. *)
Theorem chat_endpoint_frame (replies : list AIMessage.t) (now : string)
    (user_messages : gmap string (list Message)) (request : ChatRequest.t) :
  let userId := ChatRequest.userId request in
  let result :=
    chat_endpoint invoke SYSTEM_PROMPT replies now user_messages request in
  (forall other, other <> userId ->
     result.1.1 !! other = user_messages !! other)
  /\ (exists added,
        result.1.1 !! userId
        = Some (history_of user_messages userId
                ++ HumanMessage (ChatRequest.message request) :: added)
        /\ Forall (fun m => is_reply_or_result m = true) added)
  /\ exists used, replies = used ++ result.2.
Proof.
  intros userId result.
  destruct (chat_endpoint_run replies now user_messages request)
    as (added & used & Hstore & Hall & Hused & _).
  fold userId in Hstore. fold result in Hstore, Hused.
  split; [|split].
  - intros other Hother. rewrite Hstore. now apply lookup_insert_ne.
  - exists added. split; [|exact Hall].
    rewrite Hstore. apply lookup_insert_eq.
  - now exists used.
Qed.

Definition is_system (m : Message) : bool :=
  match m with
  | SystemMessage _ => true
  | _ => false
  end.

(** A history starts with the system prompt and has no other system
    message. *)
Definition session_ok (messages : list Message) : Prop :=
  exists rest,
    messages = SystemMessage SYSTEM_PROMPT :: rest
    /\ Forall (fun m => is_system m = false) rest.

Definition sessions_ok (user_messages : gmap string (list Message)) : Prop :=
  forall userId messages,
    user_messages !! userId = Some messages -> session_ok messages.

(** X19. If every stored history starts with the system prompt and holds no
    other system message, so does every stored history after a request,
    the one of a new user included, however the request ends. *)
Theorem chat_endpoint_keeps_system_prompt (replies : list AIMessage.t)
    (now : string) (user_messages : gmap string (list Message))
    (request : ChatRequest.t) :
  sessions_ok user_messages ->
  sessions_ok
    (chat_endpoint invoke SYSTEM_PROMPT replies now user_messages request).1.1.
Proof.
  intros Hok user messages.
  destruct (chat_endpoint_run replies now user_messages request)
    as (added & used & Hstore & Hall & _).
  rewrite Hstore. clear Hstore.
  rewrite lookup_insert. case_decide as Huser; [|apply Hok].
  intros [= <-].
  assert (Hhistory : session_ok
            (history_of user_messages (ChatRequest.userId request))).
  { unfold history_of.
    destruct (user_messages !! ChatRequest.userId request) as [h|] eqn:Hh.
    - now apply Hok with (ChatRequest.userId request).
    - exists []. split; [reflexivity|constructor]. }
  destruct Hhistory as (rest & -> & Hrest).
  exists (rest ++ HumanMessage (ChatRequest.message request) :: added).
  split; [reflexivity|].
  apply Forall_app. split; [exact Hrest|].
  constructor; [reflexivity|].
  eapply List.Forall_impl; [|exact Hall]. intros m Hm. now destruct m.
Qed.

(** X20. A response is returned only when the last message of the stored
    history is a reply of the model that carries no tool call: the response
    has the text of that reply, the role "assistant", the time stamp given
    and an identifier built from the user identifier and the length of the
    history.  A request that ends without response did not settle. *)
Theorem chat_endpoint_response (replies : list AIMessage.t) (now : string)
    (user_messages : gmap string (list Message)) (request : ChatRequest.t) :
  let userId := ChatRequest.userId request in
  let result :=
    chat_endpoint invoke SYSTEM_PROMPT replies now user_messages request in
  match result.1.2 with
  | inl response =>
      exists before final,
        result.1.1 !! userId = Some (before ++ [AI final])
        /\ AIMessage.tool_calls final = []
        /\ MessageResponse.content response = AIMessage.content final
        /\ MessageResponse.role response = "assistant"
        /\ MessageResponse.createdAt response = now
        /\ MessageResponse.id response
           = userId +:+ "_assistant_"
             +:+ pretty (length (before ++ [AI final]))
  | inr r =>
      result.1.1 !! userId = Some (run_messages r)
      /\ forall m, r <> Settled m
  end.
Proof.
  intros userId result.
  destruct (chat_endpoint_run replies now user_messages request)
    as (added & used & Hstore & _ & _ & Hout).
  fold userId in Hstore, Hout. fold result in Hstore, Hout.
  rewrite Hstore, lookup_insert_eq.
  destruct (result.1.2) as [response|r].
  - destruct Hout as (-> & before & final & Hshape & Hfinal).
    exists before, final. rewrite Hshape. simpl.
    repeat split; trivial. apply last_content_snoc.
  - destruct Hout as [-> Hnot]. now split.
Qed.

Lemma execute_raises before : forall messages failing after selected_tool e,
  tools_return invoke before ->
  resolve failing = Some selected_tool ->
  invoke selected_tool failing = Raised e ->
  execute invoke (before ++ failing :: after) messages
  = (messages ++ flat_map (tool_result invoke) before, Some e).
Proof.
  induction before as [|c before IH];
    intros messages failing after selected_tool e Hret Hres Hraise; simpl.
  - unfold resolve in Hres. rewrite Hres, Hraise. now rewrite app_nil_r.
  - unfold tool_result at 1, resolve.
    destruct (tool_dict !! lower (ToolCall.name c)) as [t|] eqn:Hc.
    + destruct (Hret c t) as [output Hout]; [now left|exact Hc|].
      rewrite Hout. erewrite IH; eauto.
      * now rewrite <- app_assoc.
      * intros c' t' Hc'. apply Hret. now right.
    + eapply IH; eauto. intros c' t' Hc'. apply Hret. now right.
Qed.

(** X21. When a registered tool called by the first reply raises, the
    request ends with that exception: the calls listed after the failing
    one are not run, the model is not invoked again, and the stored history
    keeps the user message, the reply with its calls and the tool messages
    obtained before the failure. *)
Theorem tool_exception_aborts (ai_msg : AIMessage.t)
    (before after : list ToolCall.t) (failing : ToolCall.t)
    (selected_tool : Tool.t) (e : exn) (extra : list AIMessage.t)
    (now : string) (user_messages : gmap string (list Message))
    (request : ChatRequest.t) :
  AIMessage.tool_calls ai_msg = before ++ failing :: after ->
  tools_return invoke before ->
  resolve failing = Some selected_tool ->
  invoke selected_tool failing = Raised e ->
  let userId := ChatRequest.userId request in
  let kept :=
    history_of user_messages userId
    ++ [HumanMessage (ChatRequest.message request); AI ai_msg]
    ++ flat_map (tool_result invoke) before in
  chat_endpoint invoke SYSTEM_PROMPT (ai_msg :: extra) now user_messages
    request
  = (<[userId := kept]> user_messages, inr (Failed e kept), extra).
Proof.
  intros Hcalls Hret Hres Hraise userId kept.
  unfold chat_endpoint. fold userId. fold (history_of user_messages userId).
  assert (Hloop :
    tool_call_loop invoke extra
      ((history_of user_messages userId
        ++ [HumanMessage (ChatRequest.message request)]) ++ [AI ai_msg])
      (AIMessage.tool_calls ai_msg)
    = (Failed e kept, extra)).
  { rewrite Hcalls.
    assert (Hne : nonempty (before ++ failing :: after) = true)
      by (now destruct before).
    destruct extra; simpl; rewrite Hne; simpl;
      rewrite (execute_raises before _ failing after selected_tool e)
        by assumption;
      unfold kept; now rewrite <- !app_assoc. }
  now rewrite Hloop.
Qed.

(** X22. Requests accumulate: after two requests in a row, the history
    stored for the user of the first is, if both come from that user, the
    history stored after the first request followed by the second user
    message and what the second request added, and otherwise exactly the
    history stored after the first request. *)
Theorem chat_endpoint_accumulates (replies : list AIMessage.t)
    (now1 now2 : string) (user_messages : gmap string (list Message))
    (request1 request2 : ChatRequest.t) :
  let first :=
    chat_endpoint invoke SYSTEM_PROMPT replies now1 user_messages request1 in
  let second :=
    chat_endpoint invoke SYSTEM_PROMPT first.2 now2 first.1.1 request2 in
  exists history,
    first.1.1 !! ChatRequest.userId request1 = Some history
    /\ (ChatRequest.userId request1 = ChatRequest.userId request2 ->
        exists added,
          second.1.1 !! ChatRequest.userId request1
          = Some (history
                  ++ HumanMessage (ChatRequest.message request2) :: added))
    /\ (ChatRequest.userId request1 <> ChatRequest.userId request2 ->
        second.1.1 !! ChatRequest.userId request1 = Some history).
Proof.
  intros first second.
  destruct (chat_endpoint_run replies now1 user_messages request1)
    as (added1 & used1 & Hstore1 & _).
  fold first in Hstore1.
  destruct (chat_endpoint_run first.2 now2 first.1.1 request2)
    as (added2 & used2 & Hstore2 & _).
  fold second in Hstore2.
  eexists. split; [rewrite Hstore1; apply lookup_insert_eq|]. split.
  - intros Hsame. exists added2. rewrite Hstore2, <- Hsame, lookup_insert_eq.
    unfold history_of at 1. rewrite Hstore1 at 1.
    now rewrite lookup_insert_eq.
  - intros Hother. rewrite Hstore2, lookup_insert_ne by congruence.
    rewrite Hstore1. apply lookup_insert_eq.
Qed.
End Sessions.

(** * The extra properties on concrete services *)

Module Outages.
Import Fixture.

(** Another deployment: the same answers for the values of the enums, other
    answers for strings outside them and for the endpoints the hospital
    search does not use. *)
Definition other_deployment : Backend := {|
  test_v1_id := fun _ => unavailable;
  test_v1_type := fun type =>
    if String.eqb type "SCAN" then ok [blood_test]
    else test_v1_type backend type;
  test_v1_hospital := fun _ => unavailable;
  hospital_v1_cost_range := fun range =>
    if String.eqb range "FREE" then ok [unnumbered]
    else hospital_v1_cost_range backend range;
  hospital_v1_type := fun type =>
    if String.eqb type "CLINIC" then ok [unnumbered]
    else hospital_v1_type backend type;
  hospital_v1_all := hospital_v1_all backend;
  feedback_v1_hospital := feedback_v1_hospital backend;
  doctor_v1_all := ok []
|}.

(** The hospital service knows no hospital of any type. *)
Definition no_typed_hospital : Backend := {|
  test_v1_id := test_v1_id backend;
  test_v1_type := test_v1_type backend;
  test_v1_hospital := test_v1_hospital backend;
  hospital_v1_cost_range := hospital_v1_cost_range backend;
  hospital_v1_type := fun _ => ok [];
  hospital_v1_all := hospital_v1_all backend;
  feedback_v1_hospital := feedback_v1_hospital backend;
  doctor_v1_all := doctor_v1_all backend
|}.

(** The cost-range endpoint cannot be reached. *)
Definition cost_range_down : Backend := {|
  test_v1_id := test_v1_id backend;
  test_v1_type := test_v1_type backend;
  test_v1_hospital := test_v1_hospital backend;
  hospital_v1_cost_range := fun _ => Raised (HTTPError "timed out");
  hospital_v1_type := hospital_v1_type backend;
  hospital_v1_all := hospital_v1_all backend;
  feedback_v1_hospital := feedback_v1_hospital backend;
  doctor_v1_all := doctor_v1_all backend
|}.

(** The all-hospitals endpoint answers 503. *)
Definition list_unavailable : Backend := {|
  test_v1_id := test_v1_id backend;
  test_v1_type := test_v1_type backend;
  test_v1_hospital := test_v1_hospital backend;
  hospital_v1_cost_range := hospital_v1_cost_range backend;
  hospital_v1_type := hospital_v1_type backend;
  hospital_v1_all := unavailable;
  feedback_v1_hospital := feedback_v1_hospital backend;
  doctor_v1_all := doctor_v1_all backend
|}.

(** The all-hospitals endpoint answers an empty list. *)
Definition list_empty : Backend := {|
  test_v1_id := test_v1_id backend;
  test_v1_type := test_v1_type backend;
  test_v1_hospital := test_v1_hospital backend;
  hospital_v1_cost_range := hospital_v1_cost_range backend;
  hospital_v1_type := hospital_v1_type backend;
  hospital_v1_all := ok [];
  feedback_v1_hospital := feedback_v1_hospital backend;
  doctor_v1_all := doctor_v1_all backend
|}.

(** [hospital_search(hospital_types=["PRIVATE"])] *)
Definition private_only : HospitalSearch.args :=
  HospitalSearch.with_hospital_types (Some ["PRIVATE"])
    HospitalSearch.defaults.

(** [hospital_search(latitude=23.75, radius_km=5)]: no longitude. *)
Definition half_located : HospitalSearch.args :=
  HospitalSearch.mk None None None None None None None None
    (Some (2375 # 100)) None (Some 5%Q) None (Some 5).

(** [hospital_search(latitude=23.75, longitude=90.38, radius_km=-1)] *)
Definition negative_radius : HospitalSearch.args :=
  HospitalSearch.mk None None None None None None None None
    (Some (2375 # 100)) (Some (9038 # 100)) (Some (-1 # 1)) None (Some 5).

(** A hospital and a doctor the services list without location. *)
Definition health_post : HospitalResponse.t :=
  HospitalResponse.mk 4 "Rural Health Post" ["PUBLIC"] None "LOW" None None
    None.

Definition dr_islam : DoctorResponse.t :=
  DoctorResponse.mk 9 "Dr. Islam" ["Cardiology"] None None [].

(** A tool set in which the lookup by hospital raises. *)
Definition flaky (tool : Tool.t) (tool_call : ToolCall.t) : outcome string :=
  match tool with
  | Tool.get_tests_by_hospital_tool => Raised TypeError
  | _ => Fixture.invoke tool tool_call
  end.

Definition three_calls : AIMessage.t :=
  AIMessage.mk ""
    [call "hospital_search" "call_1";
     call "get_tests_by_hospital_name_or_id" "call_2";
     call "get_test_by_id" "call_3"].

Definition stored : gmap string (list Message) :=
  {[ "u2" := [SystemMessage "You are a helpful assistant.";
              HumanMessage "Hello";
              AI final_reply] ]}.
End Outages.

Section OnOutages.
Import Fixture Outages.
#[local] Existing Instance cpython.
#[local] Existing Instance exact.

(** The two deployments answer the type CLINIC differently and give the
    same search. *)
Lemma hospital_search_canonical_requests_witness :
  hospital_v1_type backend "CLINIC"
  <> hospital_v1_type other_deployment "CLINIC"
  /\ hospital_search_tool backend low_public
     = hospital_search_tool other_deployment low_public.
Proof.
  assert (Hagree : agree_on_enums backend other_deployment).
  { repeat split; try reflexivity; intros v Hin; simpl in Hin;
      repeat (destruct Hin as [<-|Hin]; [reflexivity|]); destruct Hin. }
  split; [discriminate|].
  exact (hospital_search_canonical_requests backend other_deployment
           low_public Hagree).
Defined.

(** The search for cheap public hospitals returns Green Life alone, the
    one hospital of its pool. *)
Lemma hospital_search_sound_witness :
  exists pool,
    candidate_pool backend low_public = Returned pool
    /\ Z.of_nat (length [rated green_life [4; 5] (9 # 2)])
       = kept (HospitalSearch.top_n low_public)
           (Z.of_nat
              (length (List.filter (passes low_public) pool))).
Proof.
  assert (Hsearch : hospital_search_tool backend low_public
                    = Returned [rated green_life [4; 5] (9 # 2)])
    by (vm_compute; reflexivity).
  destruct (hospital_search_sound backend low_public _ Hsearch)
    as (pool & Hpool & _ & _ & Hlen).
  exists pool. split; assumption.
Defined.

(** A latitude and a radius without longitude filter nothing. *)
Lemma hospital_search_unfiltered_witness :
  HospitalResponse.latitude mount_adora = None
  /\ hospital_filter half_located mount_adora = Returned true.
Proof.
  assert (Hnone : no_scalar_filter half_located).
  { repeat split; try reflexivity. right. left. reflexivity. }
  split; [reflexivity|].
  exact (proj1 (hospital_search_unfiltered backend half_located Hnone)
           mount_adora).
Defined.

(** No private hospital is known: the search is empty although the full
    list holds three hospitals. *)
Lemma empty_category_no_fallback_witness :
  hospital_v1_all no_typed_hospital = ok all_hospitals
  /\ hospital_search_tool no_typed_hospital private_only = Returned [].
Proof.
  assert (Hsets : category_sets no_typed_hospital private_only
                  = Returned [[]]) by (vm_compute; reflexivity).
  assert (Hne : [[] : list HospitalResponse.t] <> []) by discriminate.
  assert (Hempty : forall s : list HospitalResponse.t,
            In s [[]] -> s = []).
  { intros s [<-|[]]. reflexivity. }
  split; [reflexivity|].
  exact (proj2 (empty_category_no_fallback no_typed_hospital private_only
                  [[]] Hsets Hne Hempty)).
Defined.

(** The request for the cost range LOW times out and the search raises. *)
Lemma category_exception_propagates_witness :
  exists e, hospital_search_tool cost_range_down low_public = Raised e.
Proof.
  apply (category_exception_propagates cost_range_down low_public
           None (Some ["LOW"]) (Some ["PUBLIC"]));
    try (vm_compute; reflexivity).
  right. left. exists "LOW", (HTTPError "timed out").
  split; [now left|reflexivity].
Defined.

(** The full list answers 503: the default search is empty. *)
Lemma all_hospitals_outage_witness :
  hospital_search_tool list_unavailable HospitalSearch.defaults
  = Returned [].
Proof.
  assert (Hsets : category_sets list_unavailable HospitalSearch.defaults
                  = Returned []) by (vm_compute; reflexivity).
  exact (proj1 (all_hospitals_outage list_unavailable
                  HospitalSearch.defaults Hsets)
           _ eq_refl eq_refl).
Defined.

(** Ratings 4 and 5 average between 4 and 5. *)
Lemma average_bounds_witness :
  (inject_Z 4 <= average [4%Z; 5%Z])%Q
  /\ (average [4%Z; 5%Z] <= inject_Z 5)%Q.
Proof.
  assert (Hne : [4; 5] <> []) by discriminate.
  assert (Hin : Forall (fun r => 4 <= r <= 5) [4; 5])
    by (repeat constructor; lia).
  destruct (average_bounds 4 5 [4; 5] Hne Hin) as (Hlo & Hhi & _).
  split; assumption.
Defined.

(** A radius of -1 km excludes City General, which lies at the very point
    searched. *)
Lemma geo_radius_extremes_witness :
  HospitalResponse.latitude city_general
  = HospitalSearch.latitude negative_radius
  /\ HospitalResponse.longitude city_general
     = HospitalSearch.longitude negative_radius
  /\ hospital_filter negative_radius city_general = Returned false.
Proof.
  split; [reflexivity|]. split; [reflexivity|].
  assert (Hneg : (-1 # 1 < 0)%Q) by reflexivity.
  exact (proj1 (proj2 (proj2
           (geo_radius_extremes negative_radius (2375 # 100)
              (9038 # 100) (-1 # 1) eq_refl eq_refl eq_refl)))
           Hneg city_general).
Defined.

(** A misspelt name resolves to Green Life Hospital, identifier 2. *)
Lemma lookup_by_name_resolves_witness :
  exists h,
    next_named "Green Life Hospital" all_hospitals = Some h
    /\ get_tests_by_hospital_tool backend None (Some "Green Lfe Hospitl")
       = get_tests_by_hospital_tool backend (Some (HospitalResponse.id h))
           None.
Proof.
  assert (Hbest : extractOne "Green Lfe Hospitl"
                    (map HospitalResponse.name all_hospitals)
                  = Some ("Green Life Hospital", 3400 # 36))
    by (vm_compute; reflexivity).
  assert (Hscore : (80 <= 3400 # 36)%Q) by (unfold Qle; simpl; lia).
  destruct (lookup_by_name_resolves backend "Green Lfe Hospitl"
              (Response.mk 200 (Returned all_hospitals) "[...]")
              all_hospitals "Green Life Hospital" (3400 # 36)
              eq_refl eq_refl Hbest Hscore)
    as (h & Hnext & _ & _ & _ & Htests & _).
  exists h. split; assumption.
Defined.

(** With an empty hospital list the lookup of tests by name raises. *)
Lemma lookup_by_name_empty_list_witness :
  get_tests_by_hospital_tool list_empty None (Some "City General")
  = Raised TypeError
  /\ is_error (get_hospital_feedbacks_tool list_empty None
                 (Some "City General")).
Proof.
  exact (lookup_by_name_empty_list list_empty "City General"
           (Response.mk 200 (Returned []) "[...]") eq_refl eq_refl).
Defined.

(** A search in Dhaka keeps a hospital without location and drops a doctor
    without location. *)
Lemma missing_city_asymmetry_witness :
  hospital_filter
    (HospitalSearch.mk None None None None (Some "Dhaka") None None None
       None None None None (Some 5)) health_post = Returned true
  /\ doctor_filter
       (DoctorSearch.mk None None None (Some "Dhaka") None (Some 10))
       dr_islam = false.
Proof.
  assert (Hcity : "Dhaka" <> "") by discriminate.
  destruct (missing_city_asymmetry "Dhaka" (Some 5) (Some 10) Hcity)
    as [Hhospital Hdoctor].
  split; [exact (Hhospital health_post eq_refl)
         |exact (Hdoctor dr_islam eq_refl)].
Defined.

(** A request of a new user leaves every history with its system prompt. *)
Lemma chat_endpoint_keeps_system_prompt_witness :
  sessions_ok "You are a helpful assistant."
    (chat_endpoint invoke "You are a helpful assistant."
       [first_round; final_reply] "now" stored request).1.1.
Proof.
  assert (Hok : sessions_ok "You are a helpful assistant." stored).
  { intros user messages Hlook. unfold stored in Hlook.
    apply lookup_singleton_Some in Hlook as [_ <-].
    eexists. split; [reflexivity|]. repeat constructor. }
  exact (chat_endpoint_keeps_system_prompt invoke
           "You are a helpful assistant." [first_round; final_reply] "now"
           stored request Hok).
Defined.

(** The second of three calls raises: the first result is kept, the third
    call is not run and the final reply is not consumed. *)
Lemma tool_exception_aborts_witness :
  chat_endpoint flaky "You are a helpful assistant."
    [three_calls; final_reply] "now" ∅ request
  = (<["u1" :=
         [SystemMessage "You are a helpful assistant.";
          HumanMessage "Which public hospital is cheap?";
          AI three_calls;
          ToolMessage "[result of hospital_search]" "call_1"]]> ∅,
     inr (Failed TypeError
            [SystemMessage "You are a helpful assistant.";
             HumanMessage "Which public hospital is cheap?";
             AI three_calls;
             ToolMessage "[result of hospital_search]" "call_1"]),
     [final_reply]).
Proof.
  assert (Hret : tools_return flaky [call "hospital_search" "call_1"]).
  { intros c t [<-|[]] Hres. vm_compute in Hres.
    injection Hres as <-. eexists. reflexivity. }
  exact (tool_exception_aborts flaky "You are a helpful assistant."
           three_calls [call "hospital_search" "call_1"]
           [call "get_test_by_id" "call_3"]
           (call "get_tests_by_hospital_name_or_id" "call_2")
           Tool.get_tests_by_hospital_tool TypeError [final_reply] "now" ∅
           request eq_refl Hret eq_refl eq_refl).
Defined.
End OnOutages.
